(** * journald-syslog: syslog ingestion and forwarding

    A shallow embedding of [src/journal/journald-syslog.c] and the
    properties of its header parser, its RFC5424 synthesizer, its two
    forwarders and its loss-warning throttle.

    Conventions of the embedding:
    - C [int], [pid_t], [time_t] values are [Z]; [unsigned] and [size_t]
      values are [Z] with their wrap-around written out ([wrap32],
      [wrap64]);
    - a C string is the [string] of its bytes before the terminator; the
      text buffer walked by the parser is a [list ascii] together with an
      offset (type [cursor]), because the parser indexes it;
    - [Server *s], [errno], the clocks and everything the daemon does to
      the outside (system calls, log lines, driver messages) live in a
      [World] that the functions thread through, in the monad [M];
    - what the kernel, libc or the rest of the daemon answers is a
      variable of the section [Journald]. *)

From Stdlib Require Import ZArith String Ascii List Bool Lia DecimalString.
Import ListNotations.

Local Open Scope string_scope.
Local Open Scope Z_scope.

(** ** Machine integers *)

Definition wrap32 (z : Z) : Z := z mod 2 ^ 32.
Definition wrap64 (z : Z) : Z := z mod 2 ^ 64.

(** [printf]'s [%i] / [%u] on a value that fits its type. *)
Definition fmt_int (z : Z) : string := NilZero.string_of_int (Z.to_int z).

(** ** Constants of the system headers *)

(** <errno.h> on Linux. *)
Definition EPERM : Z := 1.
Definition ENOENT : Z := 2.
Definition ESRCH : Z := 3.
Definition EAGAIN : Z := 11.

(** <sys/syslog.h>. *)
Definition LOG_PRIMASK : Z := 7.
Definition LOG_FACMASK : Z := 1016.
Definition LOG_PRI (p : Z) : Z := Z.land p LOG_PRIMASK.
Definition LOG_FAC (p : Z) : Z := Z.shiftr (Z.land p LOG_FACMASK) 3.
Definition LOG_USER : Z := Z.shiftl 1 3.
Definition LOG_INFO : Z := 6.

(** <sys/socket.h>, <netinet/in.h>. *)
Definition AF_UNIX : Z := 1.
Definition AF_INET : Z := 2.
Definition INADDR_NONE : Z := 4294967295.
Definition SOCK_DGRAM : Z := 2.
Definition SOCK_CLOEXEC : Z := 524288.
Definition SOCK_NONBLOCK : Z := 2048.

(** time-util.h: [usec_t] is a 64-bit unsigned count of microseconds. *)
Definition USEC_PER_SEC : Z := 1000000.

(** Warn once every 30s if we missed syslog message *)
Definition WARN_FORWARD_SYSLOG_MISSED_USEC : Z := 30 * USEC_PER_SEC.

(** ** Data *)

Record ucred := mk_ucred { pid : Z; uid : Z; gid : Z }.

Record timeval := mk_timeval { tv_sec : Z; tv_usec : Z }.

(** [struct tm] of <time.h>. *)
Record tm := mk_tm {
  tm_sec : Z; tm_min : Z; tm_hour : Z; tm_mday : Z; tm_mon : Z;
  tm_year : Z; tm_wday : Z; tm_yday : Z; tm_isdst : Z; tm_gmtoff : Z
}.

Record sockaddr_in := mk_sockaddr_in {
  sin_family : Z;
  sin_port : Z;
  sin_addr : Z            (* s_addr, network byte order, 32 bits *)
}.

(** The addresses a datagram is sent to. *)
Inductive sockaddr :=
| sa_un (sun_path : string)
| sa_in (sin : sockaddr_in).

(** The fields of [Server] that this file reads or writes. *)
Record Server := mk_Server {
  syslog_fd : Z;
  remote_syslog_fd : Z;
  remote_syslog_dest : sockaddr_in;
  n_forward_syslog_missed : Z;              (* unsigned *)
  last_warn_forward_syslog_missed : Z;      (* usec_t *)
  max_level_syslog : Z;
  forward_to_syslog : bool;
  forward_to_remote_syslog : bool;
  forward_to_kmsg : bool;
  forward_to_console : bool;
  forward_to_wall : bool;
  hostname_field : option string            (* char*, may be NULL *)
}.

(** [SyslogMessage]: the record of one outgoing message, with the three
    scratch buffers the rendered pieces are stored in. *)
Record SyslogMessage := mk_SyslogMessage {
  priority : Z;
  timestamp : tm;
  hostname : string;
  appname : string;
  procid : Z;
  msgid : string;
  message : string;
  _priver : string;
  _timestamp : string;
  _procid : string
}.

Definition with_priority (v : Z) (sm : SyslogMessage) : SyslogMessage :=
  mk_SyslogMessage v (timestamp sm) (hostname sm) (appname sm) (procid sm)
    (msgid sm) (message sm) (_priver sm) (_timestamp sm) (_procid sm).
Definition with_timestamp (v : tm) (sm : SyslogMessage) : SyslogMessage :=
  mk_SyslogMessage (priority sm) v (hostname sm) (appname sm) (procid sm)
    (msgid sm) (message sm) (_priver sm) (_timestamp sm) (_procid sm).
Definition with_hostname (v : string) (sm : SyslogMessage) : SyslogMessage :=
  mk_SyslogMessage (priority sm) (timestamp sm) v (appname sm) (procid sm)
    (msgid sm) (message sm) (_priver sm) (_timestamp sm) (_procid sm).
Definition with_appname (v : string) (sm : SyslogMessage) : SyslogMessage :=
  mk_SyslogMessage (priority sm) (timestamp sm) (hostname sm) v (procid sm)
    (msgid sm) (message sm) (_priver sm) (_timestamp sm) (_procid sm).
Definition with_procid (v : Z) (sm : SyslogMessage) : SyslogMessage :=
  mk_SyslogMessage (priority sm) (timestamp sm) (hostname sm) (appname sm) v
    (msgid sm) (message sm) (_priver sm) (_timestamp sm) (_procid sm).
Definition with_msgid (v : string) (sm : SyslogMessage) : SyslogMessage :=
  mk_SyslogMessage (priority sm) (timestamp sm) (hostname sm) (appname sm)
    (procid sm) v (message sm) (_priver sm) (_timestamp sm) (_procid sm).
Definition with_message (v : string) (sm : SyslogMessage) : SyslogMessage :=
  mk_SyslogMessage (priority sm) (timestamp sm) (hostname sm) (appname sm)
    (procid sm) (msgid sm) v (_priver sm) (_timestamp sm) (_procid sm).
Definition with_priver (v : string) (sm : SyslogMessage) : SyslogMessage :=
  mk_SyslogMessage (priority sm) (timestamp sm) (hostname sm) (appname sm)
    (procid sm) (msgid sm) (message sm) v (_timestamp sm) (_procid sm).
Definition with_timestamp_buf (v : string) (sm : SyslogMessage) : SyslogMessage :=
  mk_SyslogMessage (priority sm) (timestamp sm) (hostname sm) (appname sm)
    (procid sm) (msgid sm) (message sm) (_priver sm) v (_procid sm).
Definition with_procid_buf (v : string) (sm : SyslogMessage) : SyslogMessage :=
  mk_SyslogMessage (priority sm) (timestamp sm) (hostname sm) (appname sm)
    (procid sm) (msgid sm) (message sm) (_priver sm) (_timestamp sm) v.

(** ** The world around the daemon *)

(** What a system call answers: a non-negative result, or -1 with [errno]
    set. *)
Inductive sys_result :=
| Ok (n : N)
| Fail (e : Z).

Inductive log_level := LOG_LEVEL_DEBUG | LOG_LEVEL_WARNING | LOG_LEVEL_ERROR.

Inductive message_id := SD_MESSAGE_FORWARD_SYSLOG_MISSED.

(** What the daemon does to the outside, in the order it does it. *)
Inductive event :=
| EvSendmsg (fd : Z) (msg_name : sockaddr) (msg_iov : list string)
            (msg_control : option ucred)
| EvSocket (domain type protocol : Z)
| EvLog (level : log_level) (error : Z) (format : string)
| EvDriverMessage (id : message_id) (format : string) (arg : Z).

Record World := mk_World {
  server : Server;              (* the object behind [Server *s] *)
  errno : Z;
  trace : list event;           (* oldest first *)
  sendmsg_calls : nat;          (* sendmsg() calls made so far *)
  socket_calls : nat;           (* socket() calls made so far *)
  clock_realtime : Z;           (* now(CLOCK_REALTIME), usec *)
  clock_monotonic : Z           (* now(CLOCK_MONOTONIC), usec *)
}.

Definition with_server (s : Server) (w : World) : World :=
  mk_World s (errno w) (trace w) (sendmsg_calls w) (socket_calls w)
    (clock_realtime w) (clock_monotonic w).
Definition with_errno (e : Z) (w : World) : World :=
  mk_World (server w) e (trace w) (sendmsg_calls w) (socket_calls w)
    (clock_realtime w) (clock_monotonic w).
Definition with_trace (t : list event) (w : World) : World :=
  mk_World (server w) (errno w) t (sendmsg_calls w) (socket_calls w)
    (clock_realtime w) (clock_monotonic w).
Definition with_sendmsg_calls (n : nat) (w : World) : World :=
  mk_World (server w) (errno w) (trace w) n (socket_calls w)
    (clock_realtime w) (clock_monotonic w).
Definition with_socket_calls (n : nat) (w : World) : World :=
  mk_World (server w) (errno w) (trace w) (sendmsg_calls w) n
    (clock_realtime w) (clock_monotonic w).
Definition with_clock_monotonic (t : Z) (w : World) : World :=
  mk_World (server w) (errno w) (trace w) (sendmsg_calls w) (socket_calls w)
    (clock_realtime w) t.

Definition with_n_forward_syslog_missed (v : Z) (s : Server) : Server :=
  mk_Server (syslog_fd s) (remote_syslog_fd s) (remote_syslog_dest s) v
    (last_warn_forward_syslog_missed s) (max_level_syslog s)
    (forward_to_syslog s) (forward_to_remote_syslog s) (forward_to_kmsg s)
    (forward_to_console s) (forward_to_wall s) (hostname_field s).
Definition with_last_warn_forward_syslog_missed (v : Z) (s : Server) : Server :=
  mk_Server (syslog_fd s) (remote_syslog_fd s) (remote_syslog_dest s)
    (n_forward_syslog_missed s) v (max_level_syslog s)
    (forward_to_syslog s) (forward_to_remote_syslog s) (forward_to_kmsg s)
    (forward_to_console s) (forward_to_wall s) (hostname_field s).
Definition with_remote_syslog_fd (v : Z) (s : Server) : Server :=
  mk_Server (syslog_fd s) v (remote_syslog_dest s)
    (n_forward_syslog_missed s) (last_warn_forward_syslog_missed s)
    (max_level_syslog s)
    (forward_to_syslog s) (forward_to_remote_syslog s) (forward_to_kmsg s)
    (forward_to_console s) (forward_to_wall s) (hostname_field s).

(** ** The state monad the C functions run in *)

Definition M (A : Type) : Type := World -> A * World.

Definition ret {A} (a : A) : M A := fun w => (a, w).
Definition bind {A B} (c : M A) (k : A -> M B) : M B :=
  fun w => let (a, w') := c w in k a w'.

Declare Scope m_scope.
Delimit Scope m_scope with M.
Notation "x <- c ;; k" := (bind c (fun x => k))
  (at level 100, c at next level, right associativity) : m_scope.
Notation "c ;;; k" := (bind c (fun _ => k))
  (at level 100, right associativity) : m_scope.

Definition get_server : M Server := fun w => (server w, w).
Definition put_server (s : Server) : M unit := fun w => (tt, with_server s w).
Definition get_errno : M Z := fun w => (errno w, w).
Definition emit (e : event) : M unit :=
  fun w => (tt, with_trace (trace w ++ [e]) w).

(** The events a run added to the trace. *)
Definition new_events (w w' : World) : list event :=
  skipn (length (trace w)) (trace w').

Definition is_sendmsg (e : event) : bool :=
  match e with EvSendmsg _ _ _ _ => true | _ => false end.
Definition is_log (e : event) : bool :=
  match e with EvLog _ _ _ => true | _ => false end.
Definition is_driver_message (e : event) : bool :=
  match e with EvDriverMessage _ _ _ => true | _ => false end.

Definition count_events (p : event -> bool) (l : list event) : nat :=
  length (filter p l).

(** ** Text buffers *)

Definition NUL : ascii := "000"%char.
Definition is_nul (ch : ascii) : bool := Ascii.eqb ch NUL.

(** A [char *] into a buffer: the bytes of the buffer before its
    terminator, and the offset the pointer stands at. *)
Record cursor := mk_cursor { base : list ascii; off : nat }.

(** The byte at an absolute offset; the terminator closes the buffer. *)
Definition mem_at (b : list ascii) (a : nat) : ascii := nth a b NUL.

(** The C string a cursor points at. *)
Fixpoint c_str (s : list ascii) : list ascii :=
  match s with
  | [] => []
  | ch :: s' => if is_nul ch then [] else ch :: c_str s'
  end.
Definition cursor_text (c : cursor) : string :=
  string_of_list_ascii (c_str (skipn (off c) (base c))).

Definition cursor_of_string (s : string) : cursor :=
  mk_cursor (list_ascii_of_string s) 0.

Definition char_in (ch : ascii) (set : list ascii) : bool :=
  existsb (Ascii.eqb ch) set.

Fixpoint strspn (s accept : list ascii) : nat :=
  match s with
  | [] => O
  | ch :: s' =>
      if is_nul ch then O
      else if char_in ch accept then S (strspn s' accept) else O
  end.

Fixpoint strcspn (s reject : list ascii) : nat :=
  match s with
  | [] => O
  | ch :: s' =>
      if is_nul ch then O
      else if char_in ch reject then O else S (strcspn s' reject)
  end.

(** The bytes [strndup(s, n)] copies: at most [n], none past the
    terminator. *)
Fixpoint strn_chars (s : list ascii) (n : Z) : list ascii :=
  match s with
  | [] => []
  | ch :: s' =>
      if (n <=? 0) || is_nul ch then [] else ch :: strn_chars s' (n - 1)
  end.

(** [strndup]; [ok] tells whether the allocation succeeds. *)
Definition strndup (ok : bool) (s : list ascii) (n : Z) : option string :=
  if ok then Some (string_of_list_ascii (strn_chars s n)) else None.

Definition string_drop (n : nat) (s : string) : string :=
  substring n (String.length s - n) s.

Definition isempty (p : option string) : bool :=
  match p with
  | None => true
  | Some s => String.eqb s EmptyString
  end.

(** What a run that indexes a buffer comes to: a result, or a read outside
    the buffer. *)
Inductive outcome (A : Type) :=
| Returns (a : A)
| OutOfBounds.
Arguments Returns {A} a.
Arguments OutOfBounds {A}.

(** [p[k]] for a pointer at offset [p] and a [size_t] index [k], in a flat
    64-bit address space: [None] outside the buffer and its terminator. *)
Definition deref (b : list ascii) (p : nat) (k : Z) : option ascii :=
  let a := wrap64 (Z.of_nat p + k) in
  if a <=? Z.of_nat (length b) then Some (mem_at b (Z.to_nat a)) else None.

(** ** syslog_skip_date: the character classes *)

Inductive date_class := LETTER | SPACE | NUMBER | SPACE_OR_NUMBER | COLON.

Definition sequence : list date_class :=
  [ LETTER; LETTER; LETTER;
    SPACE;
    SPACE_OR_NUMBER; NUMBER;
    SPACE;
    SPACE_OR_NUMBER; NUMBER;
    COLON;
    SPACE_OR_NUMBER; NUMBER;
    COLON;
    SPACE_OR_NUMBER; NUMBER;
    SPACE ].

(** One turn of the [switch]: [true] is [break] (go on with the next
    position), [false] is [return]. *)
Definition date_switch (c : date_class) (ch : ascii) : bool :=
  let number :=
    if Ascii.ltb ch "0" || Ascii.ltb "9" ch then false else true in
  match c with
  | SPACE => if negb (Ascii.eqb ch " ") then false else true
  | SPACE_OR_NUMBER => if Ascii.eqb ch " " then true else number
  | NUMBER => number
  | LETTER =>
      if negb (Ascii.leb "A" ch && Ascii.leb ch "Z")
         && negb (Ascii.leb "a" ch && Ascii.leb ch "z")
      then false else true
  | COLON => if negb (Ascii.eqb ch ":") then false else true
  end.

(** The [for] loop over [sequence]: the offset reached, or [None] for the
    [return] that leaves [*buf] alone. *)
Fixpoint skip_date_loop (seq : list date_class) (b : list ascii) (p : nat)
  : option nat :=
  match seq with
  | [] => Some p
  | c :: seq' =>
      let ch := mem_at b p in
      if is_nul ch then None
      else if date_switch c ch then skip_date_loop seq' b (S p) else None
  end.

Definition syslog_skip_date (buf : cursor) : cursor :=
  match skip_date_loop sequence (base buf) (off buf) with
  | Some p => mk_cursor (base buf) p
  | None => buf
  end.

(** The character classes as the specification words them. *)
Definition is_letter (ch : ascii) : bool :=
  (Ascii.leb "A" ch && Ascii.leb ch "Z") || (Ascii.leb "a" ch && Ascii.leb ch "z").
Definition is_digit (ch : ascii) : bool :=
  Ascii.leb "0" ch && Ascii.leb ch "9".
Definition in_class (c : date_class) (ch : ascii) : bool :=
  match c with
  | LETTER => is_letter ch
  | SPACE => Ascii.eqb ch " "
  | NUMBER => is_digit ch
  | SPACE_OR_NUMBER => Ascii.eqb ch " " || is_digit ch
  | COLON => Ascii.eqb ch ":"
  end.

(** The text at [p] has a byte of the right class at each position of
    [seq], before the terminator. *)
Definition matches_classes (seq : list date_class) (b : list ascii) (p : nat)
  : Prop :=
  forall i c, nth_error seq i = Some c ->
    (p + i < length b)%nat /\ mem_at b (p + i) <> NUL
    /\ in_class c (mem_at b (p + i)) = true.

(** ** syslog_parse_identifier: the backward scan *)

(** The backward scan [for (;;)] for an opening bracket. [a] is the
    absolute offset of [p[k]]; it moves with [k]. The result is the [k]
    (and its offset) where the bracket stands, or [None] when [k] reached
    0 without one. *)
Fixpoint find_open_bracket (b : list ascii) (a : nat) (k : Z)
  : outcome (option (nat * Z)) :=
  if Ascii.eqb (mem_at b a) "[" then Returns (Some (a, k))
  else if k =? 0 then Returns None
  else match a with
       | O => OutOfBounds
       | S a' => find_open_bracket b a' (k - 1)
       end.

Record parsed := mk_parsed {
  consumed : Z;                    (* the size_t the function returns *)
  buf_out : cursor;                (* *buf *)
  identifier_out : option string;  (* *identifier *)
  pid_out : option string          (* *pid *)
}.

(** ** Sample worlds

    Concrete servers, kernels and texts, for the statements that are about
    one run. *)

Module Sample.

(** util.h of systemd takes space, tab, newline and carriage return for
    white space. *)
Definition WHITESPACE : list ascii := [" "; "009"; "010"; "013"]%char.

(** A kernel that gives the listed answers, call after call, and accepts
    every call after them. *)
Definition answers (l : list sys_result) : nat -> sys_result :=
  fun n => nth n l (Ok 0).

Definition epoch : tm := mk_tm 0 0 0 1 0 70 4 0 0 0.
Definition no_time : Z -> option tm := fun _ => None.
Definition any_time : Z -> option tm := fun _ => Some epoch.
Definition no_rendering : Z -> string -> tm -> option string :=
  fun _ _ _ => None.
Definition no_comm : Z -> option string := fun _ => None.
Definition no_pid : string -> option Z := fun _ => None.
Definition no_priority : cursor -> Z -> cursor * Z := fun c p => (c, p).
Definition no_forwarder :
  Z -> option string -> string -> option ucred -> M unit :=
  fun _ _ _ _ => ret tt.
Definition no_journal :
  list string -> Z -> option ucred -> option timeval -> option string ->
  Z -> M unit :=
  fun _ _ _ _ _ _ => ret tt.

Definition blank : SyslogMessage :=
  mk_SyslogMessage 0 epoch EmptyString EmptyString 0 EmptyString
    EmptyString EmptyString EmptyString EmptyString.

Definition sender : ucred := mk_ucred 4711 1000 1000.

(** A daemon that forwards to both sinks, with no remote target set. *)
Definition journald : Server :=
  mk_Server 3 (-1) (mk_sockaddr_in 0 0 INADDR_NONE) 0 0 7
    true true false false false None.

(** The same with a remote target that is not an IPv4 one. *)
Definition journald_inet6 : Server :=
  mk_Server 3 (-1) (mk_sockaddr_in 10 514 1) 0 0 7
    true true false false false None.

(** The same again, having missed five messages and warned at 1s. *)
Definition journald_behind : Server :=
  mk_Server 3 (-1) (mk_sockaddr_in 0 0 INADDR_NONE) 5 1000000 7
    true true false false false None.

(** A daemon that forwards errors and worse only. *)
Definition journald_quiet : Server :=
  mk_Server 3 (-1) (mk_sockaddr_in 0 0 INADDR_NONE) 0 0 3
    true true false false false None.

Definition world (s : Server) (monotonic : Z) : World :=
  mk_World s 0 [] 0 0 0 monotonic.

Definition line : list string := ["<14>1 "; "- "; "host"; " "; "app"].

End Sample.

(** ** server_open_syslog_socket

    The set-up of the socket the daemon receives on. Its calls to the
    kernel and to the event loop are kept in a trace of their own. *)

(** <sys/socket.h>, <sys/epoll.h>. *)
Definition SOL_SOCKET : Z := 1.
Definition SO_PASSCRED : Z := 16.
Definition SO_TIMESTAMP : Z := 29.
Definition SO_PASSSEC : Z := 34.
Definition EPOLLIN : Z := 1.

Definition dev_log_path : string := "/run/systemd/journal/dev-log".

(** The calls the function makes. *)
Inductive setup_call :=
| CallSocket (domain type protocol : Z)
| CallUnlink (path : string)
| CallBind (fd : Z) (path : string)
| CallChmod (path : string) (mode : Z)
| CallFdNonblock (fd : Z) (nonblock : bool)
| CallSetsockopt (fd level optname value : Z)
| CallEventAddIo (fd events : Z).

(** What it does, in the order it does it: a call, or a line in the
    log. *)
Inductive setup_event :=
| Called (c : setup_call)
| Logged (level : log_level) (error : Z) (format : string).

(** What surrounds the function: the answer of the kernel to each call,
    the value [sd_event_add_io] returns, whether the daemon is built with
    SELinux and whether [mac_selinux_use()] holds, and the value
    [log_error_errno] (log.h) hands back for an error. *)
Record SetupEnv := mk_SetupEnv {
  answer : setup_call -> sys_result;
  sd_event_add_io : Z -> Z -> Z;
  HAVE_SELINUX : bool;
  mac_selinux_use : bool;
  log_errno_value : Z -> Z
}.

Record Setup := mk_Setup {
  setup_server : Server;
  setup_errno : Z;
  setup_trace : list setup_event       (* oldest first *)
}.

Definition with_syslog_fd (v : Z) (s : Server) : Server :=
  mk_Server v (remote_syslog_fd s) (remote_syslog_dest s)
    (n_forward_syslog_missed s) (last_warn_forward_syslog_missed s)
    (max_level_syslog s)
    (forward_to_syslog s) (forward_to_remote_syslog s) (forward_to_kmsg s)
    (forward_to_console s) (forward_to_wall s) (hostname_field s).

(** A system call: noted in the trace; -1 and [errno] when it fails. *)
Definition syscall (env : SetupEnv) (c : setup_call) (st : Setup)
  : Z * Setup :=
  let trace := (setup_trace st ++ [Called c])%list in
  match answer env c with
  | Ok n => (Z.of_N n, mk_Setup (setup_server st) (setup_errno st) trace)
  | Fail e => (-1, mk_Setup (setup_server st) e trace)
  end.

(** [return log_error_errno(error, format)]. *)
Definition fail_with (env : SetupEnv) (error : Z) (format : string)
  (st : Setup) : Z * Setup :=
  (log_errno_value env error,
   mk_Setup (setup_server st) (setup_errno st)
     (setup_trace st ++ [Logged LOG_LEVEL_ERROR error format])%list).

(** The function from its first [setsockopt] on. *)
Definition open_syslog_socket_options (env : SetupEnv) (st : Setup)
  : Z * Setup :=
  let fd := syslog_fd (setup_server st) in
  let (r, st) := syscall env (CallSetsockopt fd SOL_SOCKET SO_PASSCRED 1) st in
  if r <? 0 then fail_with env (setup_errno st) "SO_PASSCRED failed: %m" st
  else
    let st :=
      if HAVE_SELINUX env && mac_selinux_use env then
        let (r, st) :=
          syscall env (CallSetsockopt fd SOL_SOCKET SO_PASSSEC 1) st in
        if r <? 0
        then mk_Setup (setup_server st) (setup_errno st)
               (setup_trace st
                ++ [Logged LOG_LEVEL_WARNING (setup_errno st)
                      "SO_PASSSEC failed: %m"])%list
        else st
      else st in
    let (r, st) :=
      syscall env (CallSetsockopt fd SOL_SOCKET SO_TIMESTAMP 1) st in
    if r <? 0 then fail_with env (setup_errno st) "SO_TIMESTAMP failed: %m" st
    else
      let r := sd_event_add_io env fd EPOLLIN in
      let st :=
        mk_Setup (setup_server st) (setup_errno st)
          (setup_trace st ++ [Called (CallEventAddIo fd EPOLLIN)])%list in
      if r <? 0
      then fail_with env r "Failed to add syslog server fd to event loop: %m" st
      else (0, st).

Definition server_open_syslog_socket (env : SetupEnv) (st : Setup)
  : Z * Setup :=
  if syslog_fd (setup_server st) <? 0 then
    let (fd, st) :=
      syscall env
        (CallSocket AF_UNIX
           (Z.lor SOCK_DGRAM (Z.lor SOCK_CLOEXEC SOCK_NONBLOCK)) 0) st in
    let st :=
      mk_Setup (with_syslog_fd fd (setup_server st)) (setup_errno st)
        (setup_trace st) in
    if fd <? 0 then fail_with env (setup_errno st) "socket() failed: %m" st
    else
      let (_, st) := syscall env (CallUnlink dev_log_path) st in
      let (r, st) := syscall env (CallBind fd dev_log_path) st in
      if r <? 0 then fail_with env (setup_errno st) "bind(%s) failed: %m" st
      else
        let (_, st) := syscall env (CallChmod dev_log_path 438) st in
        open_syslog_socket_options env st
  else
    let (_, st) :=
      syscall env (CallFdNonblock (syslog_fd (setup_server st)) true) st in
    open_syslog_socket_options env st.

(** The calls among the events of a trace. *)
Definition calls_of (t : list setup_event) : list setup_call :=
  flat_map (fun e => match e with Called c => [c] | Logged _ _ _ => [] end) t.

(** The events a run of the set-up added. *)
Definition setup_events (st st' : Setup) : list setup_event :=
  skipn (length (setup_trace st)) (setup_trace st').

(** The calls that make the socket's path: they belong to a socket the
    daemon creates itself. *)
Definition makes_socket (c : setup_call) : bool :=
  match c with
  | CallSocket _ _ _ | CallUnlink _ | CallBind _ _ | CallChmod _ _ => true
  | _ => false
  end.

(** An event that comes before the descriptor is handed to the event
    loop: any other call, or a warning. *)
Definition preparing (e : setup_event) : Prop :=
  match e with
  | Called (CallEventAddIo _ _) => False
  | Called _ => True
  | Logged level _ _ => level = LOG_LEVEL_WARNING
  end.

(** What the block under [HAVE_SELINUX] adds to the trace for a
    descriptor. *)
Definition passsec_events (env : SetupEnv) (fd : Z) : list setup_event :=
  if HAVE_SELINUX env && mac_selinux_use env then
    match answer env (CallSetsockopt fd SOL_SOCKET SO_PASSSEC 1) with
    | Ok _ => [Called (CallSetsockopt fd SOL_SOCKET SO_PASSSEC 1)]
    | Fail e => [Called (CallSetsockopt fd SOL_SOCKET SO_PASSSEC 1);
                 Logged LOG_LEVEL_WARNING e "SO_PASSSEC failed: %m"]
    end
  else [].

Module SampleBoot.

(** A kernel that accepts every call, giving descriptor 7 for a socket;
    one that has no file to unlink and no security labels; one that
    cannot bind. *)
Definition willing : setup_call -> sys_result :=
  fun c => match c with CallSocket _ _ _ => Ok 7 | _ => Ok 0 end.
Definition plain : setup_call -> sys_result :=
  fun c =>
    match c with
    | CallSocket _ _ _ => Ok 7
    | CallUnlink _ => Fail 2
    | CallSetsockopt _ _ 34 _ => Fail 92
    | _ => Ok 0
    end.
Definition no_bind : setup_call -> sys_result :=
  fun c =>
    match c with
    | CallSocket _ _ _ => Ok 7
    | CallBind _ _ => Fail 98
    | _ => Ok 0
    end.

Definition no_socket : setup_call -> sys_result :=
  fun c =>
    match c with
    | CallSocket _ _ _ => Fail 24
    | _ => Ok 0
    end.

Definition env (a : setup_call -> sys_result) (selinux : bool) : SetupEnv :=
  mk_SetupEnv a (fun _ _ => 0) true selinux (fun e => - Z.abs e).

(** A server that has no socket yet, and one that was handed
    descriptor 3. *)
Definition fresh : Setup :=
  mk_Setup
    (mk_Server (-1) (-1) (mk_sockaddr_in 0 0 INADDR_NONE) 0 0 7
       true false false false false None) 0 [].
Definition inherited : Setup :=
  mk_Setup
    (mk_Server 3 (-1) (mk_sockaddr_in 0 0 INADDR_NONE) 0 0 7
       true false false false false None) 0 [].

End SampleBoot.

Module SampleTarget.

(** A daemon with an IPv4 target for remote forwarding (10.0.0.1, port
    514) and no remote socket yet; the same with the socket open on
    descriptor 5 and a host name; and one with both ways of forwarding
    switched off. *)
Definition journald_remote : Server :=
  mk_Server 3 (-1) (mk_sockaddr_in AF_INET 514 167772161) 0 0 7
    true true false false false None.
Definition journald_connected : Server :=
  mk_Server 3 5 (mk_sockaddr_in AF_INET 514 167772161) 0 0 7
    true true false false false (Some "host").
Definition journald_off : Server :=
  mk_Server 3 (-1) (mk_sockaddr_in 0 0 INADDR_NONE) 0 0 7
    false false false false false None.

Definition dated_line : string := "Jan  1 00:00:00 host su[1234]: x".

End SampleTarget.

(** ** The daemon *)

Section Journald.

Local Open Scope m_scope.

(** util.h: the bytes [strspn] and [strcspn] take for white space. *)
Variable WHITESPACE : list ascii.

(** [alloc_pid] and [alloc_identifier] tell whether the two [strndup]
    calls get their memory; [identifier] and [pid] are what the caller's
    out-parameters hold on entry. *)
Definition syslog_parse_identifier (alloc_pid alloc_identifier : bool)
  (buf : cursor) (identifier pid : option string) : outcome parsed :=
  let b := base buf in
  let p := (off buf + strspn (skipn (off buf) b) WHITESPACE)%nat in
  let l := Z.of_nat (strcspn (skipn p b) WHITESPACE) in
  if (l <=? 0) || negb (Ascii.eqb (mem_at b (p + Z.to_nat (l - 1))) ":")
  then Returns (mk_parsed 0 buf identifier pid)
  else
    let e := l in
    let l := l - 1 in
    let finish (l : Z) (pid : option string) :=
      let identifier :=
        match strndup alloc_identifier (skipn p b) l with
        | Some t => Some t
        | None => identifier
        end in
      let e :=
        wrap64 (e + Z.of_nat (strspn (skipn (p + Z.to_nat e) b) WHITESPACE)) in
      Returns (mk_parsed e (mk_cursor b (p + Z.to_nat e)) identifier pid) in
    match deref b p (wrap64 (l - 1)) with
    | None => OutOfBounds
    | Some ch =>
        if Ascii.eqb ch "]" then
          let k := wrap64 (l - 1) in
          match find_open_bracket b (Z.to_nat (wrap64 (Z.of_nat p + k))) k with
          | OutOfBounds => OutOfBounds
          | Returns (Some (a, k)) =>
              let pid :=
                match strndup alloc_pid (skipn (S a) b) (wrap64 (l - k - 2)) with
                | Some t => Some t
                | None => pid
                end in
              finish k pid
          | Returns None => finish l pid
          end
        else finish l pid
    end.

(** *** What the environment answers *)

(** The answer of the [n]-th [sendmsg()] and [socket()] call. *)
Variable sendmsg_result : nat -> sys_result.
Variable socket_result : nat -> sys_result.
(** [getpid()]: the daemon's own process id. *)
Variable getpid : Z.
(** [localtime_r]: [None] is the NULL it returns when it cannot convert. *)
Variable localtime_r : Z -> option tm.
(** [strftime(buf, max, format, tm)]: the text stored, [None] when it
    returns 0 because the text does not fit. *)
Variable strftime : Z -> string -> tm -> option string.
(** [get_process_comm]: the command name of a process, when it can be
    read. *)
Variable get_process_comm : Z -> option string.
(** [parse_pid]: the pid a text denotes, [None] for its error return. *)
Variable parse_pid : string -> option Z.
(** [syslog_parse_priority(&buf, &priority, true)]. *)
Variable syslog_parse_priority : cursor -> Z -> cursor * Z.
(** journald-server.h. *)
Variable N_IOVEC_META_FIELDS : Z.
(** journald-syslog.h: the sizes of two scratch buffers of
    [SyslogMessage]. *)
Variable sizeof_timestamp : Z.
Variable sizeof_procid : nat.
(** The other forwarders and the journal itself. *)
Variable server_forward_kmsg :
  Z -> option string -> string -> option ucred -> M unit.
Variable server_forward_console :
  Z -> option string -> string -> option ucred -> M unit.
Variable server_forward_wall :
  Z -> option string -> string -> option ucred -> M unit.
Variable server_dispatch_message :
  list string -> Z -> option ucred -> option timeval -> option string ->
  Z -> M unit.

(** *** System calls and logging *)

Definition sendmsg (fd : Z) (msg_name : sockaddr) (msg_iov : list string)
  (msg_control : option ucred) : M Z :=
  fun w =>
    let w1 :=
      with_sendmsg_calls (S (sendmsg_calls w))
        (with_trace (trace w ++ [EvSendmsg fd msg_name msg_iov msg_control]) w) in
    match sendmsg_result (sendmsg_calls w) with
    | Ok n => (Z.of_N n, w1)
    | Fail e => (-1, with_errno e w1)
    end.

Definition socket (domain type protocol : Z) : M Z :=
  fun w =>
    let w1 :=
      with_socket_calls (S (socket_calls w))
        (with_trace (trace w ++ [EvSocket domain type protocol]) w) in
    match socket_result (socket_calls w) with
    | Ok n => (Z.of_N n, w1)
    | Fail e => (-1, with_errno e w1)
    end.

Definition log_debug_errno (error : Z) (format : string) : M unit :=
  emit (EvLog LOG_LEVEL_DEBUG error format).
Definition log_warning (format : string) : M unit :=
  emit (EvLog LOG_LEVEL_WARNING 0 format).
Definition log_error (format : string) : M unit :=
  emit (EvLog LOG_LEVEL_ERROR 0 format).

Definition server_driver_message (id : message_id) (format : string) (arg : Z)
  : M unit :=
  emit (EvDriverMessage id format arg).

Definition now_realtime : M Z := fun w => (clock_realtime w, w).
Definition now_monotonic : M Z := fun w => (clock_monotonic w, w).

(** [s->n_forward_syslog_missed++] on an [unsigned]. *)
Definition incr_n_forward_syslog_missed : M unit :=
  s <- get_server ;;
  put_server
    (with_n_forward_syslog_missed (wrap32 (n_forward_syslog_missed s + 1)) s).

(** *** forward_syslog_iovec *)

Definition syslog_path : string := "/run/systemd/journal/syslog".

(** The closing [if (errno != ENOENT) log_debug_errno(...)]. *)
Definition forward_syslog_log_failure : M unit :=
  e <- get_errno ;;
  if negb (e =? ENOENT)
  then log_debug_errno e "Failed to forward syslog message: %m"
  else ret tt.

Definition forward_syslog_iovec (iovec : list string) (ucred : option ucred)
  (tv : option timeval) : M unit :=
  s <- get_server ;;
  r <- sendmsg (syslog_fd s) (sa_un syslog_path) iovec ucred ;;
  if r >=? 0 then ret tt
  else
    e <- get_errno ;;
    if e =? EAGAIN then incr_n_forward_syslog_missed
    else
      match ucred with
      | Some uc =>
          if (e =? ESRCH) || (e =? EPERM) then
            let u := mk_ucred getpid (uid uc) (gid uc) in
            r <- sendmsg (syslog_fd s) (sa_un syslog_path) iovec (Some u) ;;
            if r >=? 0 then ret tt
            else
              e <- get_errno ;;
              if e =? EAGAIN then incr_n_forward_syslog_missed
              else forward_syslog_log_failure
          else forward_syslog_log_failure
      | None => forward_syslog_log_failure
      end.

(** *** The remote forwarder *)

Definition maybe_open_remote_syslog : M Z :=
  s <- get_server ;;
  if remote_syslog_fd s >? 0 then ret (remote_syslog_fd s)
  else if sin_addr (remote_syslog_dest s) =? INADDR_NONE then ret 0
  else
    log_warning "remote syslog forwarding target configured: %s" ;;;
    if negb (sin_family (remote_syslog_dest s) =? AF_INET) then
      log_warning
        "non AF_INET target for remote syslog forwarding configured. ignoring." ;;;
      ret 0
    else
      fd <- socket AF_INET
              (Z.lor SOCK_DGRAM (Z.lor SOCK_CLOEXEC SOCK_NONBLOCK)) 0 ;;
      if fd <? 0 then
        log_error "socket() failed for remote syslog forwarding: %m" ;;;
        ret 0
      else
        put_server (with_remote_syslog_fd fd s) ;;;
        ret fd.

Definition forward_remote_syslog_iovec (iovec : list string) : M unit :=
  fd <- maybe_open_remote_syslog ;;
  if fd =? 0 then ret tt
  else
    s <- get_server ;;
    _ <- sendmsg fd (sa_in (remote_syslog_dest s)) iovec None ;;
    ret tt.

Definition forward_syslog_raw (prio : Z) (buffer : string)
  (ucred : option ucred) (tv : option timeval) : M unit :=
  s <- get_server ;;
  if LOG_PRI prio >? max_level_syslog s then ret tt
  else forward_syslog_iovec [buffer] ucred tv.

(** *** The synthesizer *)

(** The facility limit of [syslog_fill_iovec]. *)
Definition limit_facility (p : Z) : Z :=
  if Z.shiftr p 3 >? 23 then Z.land p 7 + Z.shiftl 23 3 else p.

(** [snprintf] into a buffer of [size] bytes. *)
Definition snprintf (size : nat) (text : string) : string :=
  substring 0 (size - 1) text.

(** The result: the value returned, the record with its scratch buffers
    filled, the array and [*n_iovec]. *)
Definition syslog_fill_iovec (sm : SyslogMessage) (iovec : list string)
  (n_iovec : Z) : Z * SyslogMessage * list string * Z :=
  if n_iovec <? 10 then (-1, sm, iovec, n_iovec)
  else
    let sm := with_priority (limit_facility (priority sm)) sm in
    let sm := with_priver ("<" ++ fmt_int (priority sm) ++ ">1 ") sm in
    let i_PRIVER := _priver sm in
    let r := strftime sizeof_timestamp "%Y-%m-%dT%H:%M:%S%z " (timestamp sm) in
    let sm :=
      match r with
      | Some t => with_timestamp_buf t sm
      | None => sm
      end in
    let i_TIMESTAMP :=
      match r with
      | Some t => if Z.of_nat (String.length t) <=? 0 then "- " else _timestamp sm
      | None => "- "
      end in
    let offset := if prefix "_HOSTNAME=" (hostname sm) then 10%nat else 0%nat in
    let i_HOSTNAME := string_drop offset (hostname sm) in
    let i_SP_HOSTNAME := " " in
    let i_APPNAME := appname sm in
    let i_SP_APPNAME := " " in
    let sm :=
      if negb (procid sm =? 0)
      then with_procid_buf
             (snprintf sizeof_procid ("[" ++ fmt_int (procid sm) ++ "]: ")) sm
      else with_procid_buf "- " sm in
    let i_PROCID := _procid sm in
    let i_MSGID := msgid sm in
    let i_STRUDATA := " - " in
    let i_MSG := message sm in
    (10, sm,
     app [ i_PRIVER; i_TIMESTAMP; i_HOSTNAME; i_SP_HOSTNAME; i_APPNAME;
           i_SP_APPNAME; i_PROCID; i_MSGID; i_STRUDATA; i_MSG ]
         (skipn 10 iovec),
     10).

Definition syslog_init_message (sm : SyslogMessage) : SyslogMessage :=
  with_message "-" (with_msgid "-" (with_appname "-" (with_hostname "-"
    (with_procid 0 (with_priority 14 sm))))).

(** *** server_forward_syslog *)

(** What the stack holds where a function's [SyslogMessage sm] and
    [struct iovec iovec[]] are put. *)
Variable stack_sm : SyslogMessage.
Variable stack_iovec : list string.

(** [t = tv ? tv->tv_sec : now(CLOCK_REALTIME) / USEC_PER_SEC]. *)
Definition message_time (tv : option timeval) : M Z :=
  match tv with
  | Some v => ret (tv_sec v)
  | None => n <- now_realtime ;; ret (n / USEC_PER_SEC)
  end.

(** The two sends that close both callers. *)
Definition forward_both (iovec : list string) (n : Z) (ucred : option ucred)
  (tv : option timeval) : M unit :=
  s <- get_server ;;
  (if forward_to_syslog s
   then forward_syslog_iovec (firstn (Z.to_nat n) iovec) ucred tv
   else ret tt) ;;;
  s <- get_server ;;
  if forward_to_remote_syslog s
  then forward_remote_syslog_iovec (firstn (Z.to_nat n) iovec)
  else ret tt.

Definition server_forward_syslog (prio : Z) (identifier : option string)
  (text : string) (ucred : option ucred) (tv : option timeval) : M unit :=
  s <- get_server ;;
  if LOG_PRI prio >? max_level_syslog s then ret tt
  else
    let sm := syslog_init_message stack_sm in
    let sm := with_priority prio sm in
    t <- message_time tv ;;
    match localtime_r t with
    | None => ret tt
    | Some lt =>
        let sm := with_timestamp lt sm in
        let sm :=
          if negb (isempty (hostname_field s))
          then match hostname_field s with
               | Some h => with_hostname h sm
               | None => sm
               end
          else sm in
        let identifier :=
          match ucred with
          | Some uc =>
              match identifier with
              | None => get_process_comm (pid uc)
              | Some _ => identifier
              end
          | None => identifier
          end in
        let sm :=
          match ucred with
          | Some uc => with_procid (pid uc) sm
          | None => sm
          end in
        let sm :=
          match identifier with
          | Some i => with_appname i sm
          | None => sm
          end in
        let sm := with_message text sm in
        let '(r, sm, iovec, n) := syslog_fill_iovec sm (firstn 10 stack_iovec) 10 in
        if r <=? 0 then ret tt
        else forward_both iovec n ucred tv
    end.

Definition syslog_fixup_facility (prio : Z) : Z :=
  if Z.land prio LOG_FACMASK =? 0
  then Z.lor (Z.land prio LOG_PRIMASK) LOG_USER
  else prio.

(** *** server_process_syslog_message *)

(** The function in two halves. The first parses the datagram, hands it
    to the other forwarders and to the journal, and fills the record; it
    yields the record and the array as the call of
    [server_dispatch_message] leaves them. *)
Definition process_syslog_journal (alloc_pid alloc_identifier : bool)
  (buf : cursor) (ucred : option ucred) (tv : option timeval)
  (label : option string) : M (outcome (SyslogMessage * list string)) :=
  let prio := Z.lor LOG_USER LOG_INFO in
  let sm := syslog_init_message stack_sm in
  s <- get_server ;;
  let sm :=
    if negb (isempty (hostname_field s))
    then match hostname_field s with
         | Some h => with_hostname h sm
         | None => sm
         end
    else sm in
  let '(buf, prio) := syslog_parse_priority buf prio in
  let buf := syslog_skip_date buf in
  match syslog_parse_identifier alloc_pid alloc_identifier buf None None with
  | OutOfBounds => ret OutOfBounds
  | Returns parsed =>
      let buf := cursor_text (buf_out parsed) in
      let identifier := identifier_out parsed in
      let pid := pid_out parsed in
      s <- get_server ;;
      (if forward_to_kmsg s
       then server_forward_kmsg prio identifier buf ucred else ret tt) ;;;
      s <- get_server ;;
      (if forward_to_console s
       then server_forward_console prio identifier buf ucred else ret tt) ;;;
      s <- get_server ;;
      (if forward_to_wall s
       then server_forward_wall prio identifier buf ucred else ret tt) ;;;
      let fields := ["_TRANSPORT=syslog"] in
      let fields :=
        app fields ["PRIORITY=" ++ fmt_int (Z.land prio LOG_PRIMASK)] in
      let sm := with_priority prio sm in
      let fields :=
        if negb (Z.land prio LOG_FACMASK =? 0)
        then app fields ["SYSLOG_FACILITY=" ++ fmt_int (LOG_FAC prio)]
        else fields in
      let fields :=
        match identifier with
        | Some i => app fields ["SYSLOG_IDENTIFIER=" ++ i]
        | None => fields
        end in
      let sm :=
        match identifier with
        | Some i => with_appname i sm
        | None => sm
        end in
      let fields :=
        match pid with
        | Some p => app fields ["SYSLOG_PID=" ++ p]
        | None => fields
        end in
      let sm :=
        match pid with
        | Some p =>
            match parse_pid p with
            | Some v => with_procid v sm
            | None => with_procid 0 sm
            end
        | None => sm
        end in
      let fields := app fields ["MESSAGE=" ++ buf] in
      let sm := with_message buf sm in
      let capacity := N_IOVEC_META_FIELDS + 6 in
      let iovec :=
        app fields
          (skipn (length fields) (firstn (Z.to_nat capacity) stack_iovec)) in
      server_dispatch_message fields capacity ucred tv label prio ;;;
      ret (Returns (sm, iovec))
  end.

(** The second half, from [/* timestamp for SyslogMessage struct: */]
    on. *)
Definition process_syslog_forward (sm : SyslogMessage) (iovec : list string)
  (ucred : option ucred) (tv : option timeval) : M unit :=
  t <- message_time tv ;;
  match localtime_r t with
  | None => ret tt
  | Some lt =>
      let sm := with_timestamp lt sm in
      let '(r, sm, iovec, n) :=
        syslog_fill_iovec sm iovec (N_IOVEC_META_FIELDS + 6) in
      if r <=? 0 then ret tt
      else forward_both iovec n ucred tv
  end.

Definition server_process_syslog_message (alloc_pid alloc_identifier : bool)
  (buf : cursor) (ucred : option ucred) (tv : option timeval)
  (label : option string) : M (outcome unit) :=
  r <- process_syslog_journal alloc_pid alloc_identifier buf ucred tv label ;;
  match r with
  | OutOfBounds => ret OutOfBounds
  | Returns (sm, iovec) =>
      process_syslog_forward sm iovec ucred tv ;;; ret (Returns tt)
  end.

(** *** The loss-warning throttle *)

Definition server_maybe_warn_forward_syslog_missed : M unit :=
  s <- get_server ;;
  if n_forward_syslog_missed s <=? 0 then ret tt
  else
    n <- now_monotonic ;;
    if wrap64 (last_warn_forward_syslog_missed s + WARN_FORWARD_SYSLOG_MISSED_USEC)
       >? n
    then ret tt
    else
      server_driver_message SD_MESSAGE_FORWARD_SYSLOG_MISSED
        "Forwarding to syslog missed %u messages." (n_forward_syslog_missed s) ;;;
      s <- get_server ;;
      put_server
        (with_last_warn_forward_syslog_missed n
           (with_n_forward_syslog_missed 0 s)).


(** *** How the statements speak of text *)

(** A white-space byte, and a byte of a token. *)
Definition is_space (ch : ascii) : bool :=
  char_in ch WHITESPACE && negb (is_nul ch).
Definition is_text (ch : ascii) : bool :=
  negb (char_in ch WHITESPACE) && negb (is_nul ch).

(** What may follow a token: the end of the text, or a byte that is not
    part of one. After an empty token the text is over. *)
Definition ends_token (token tail : list ascii) : Prop :=
  match tail with
  | [] => True
  | ch :: _ => is_text ch = false /\ (token = [] -> is_space ch = false)
  end.

(** The text at [buf] is the white space [ws], then its first
    white-space-delimited token [token], then [tail]. *)
Record token_at (buf : cursor) (ws token tail : list ascii) : Prop :=
  mk_token_at {
    ta_size : Z.of_nat (length (base buf)) < 2 ^ 64;
    ta_text : skipn (off buf) (base buf) = (ws ++ token ++ tail)%list;
    ta_off : (off buf <= length (base buf))%nat;
    ta_ws : forallb is_space ws = true;
    ta_token : forallb is_text token = true;
    ta_tail : ends_token token tail
  }.

(** The token [ident[pidtxt]:]. *)
Definition bracketed_token (ident pidtxt : list ascii) : list ascii :=
  (ident ++ "["%char :: pidtxt ++ ["]"; ":"]%char)%list.

(** The second fragment: the rendered time, or ["- "]. *)
Definition timestamp_fragment (t : tm) : string :=
  match strftime sizeof_timestamp "%Y-%m-%dT%H:%M:%S%z " t with
  | Some text => if (String.length text =? 0)%nat then "- " else text
  | None => "- "
  end.

(** The seventh fragment. *)
Definition procid_fragment (p : Z) : string :=
  if p =? 0 then "- "
  else snprintf sizeof_procid ("[" ++ fmt_int p ++ "]: ").

(** The events of the local relay. *)
Definition relay_send (s : Server) (iovec : list string) (cred : option ucred)
  : event :=
  EvSendmsg (syslog_fd s) (sa_un syslog_path) iovec cred.
Definition relay_failure_logged (e : Z) : event :=
  EvLog LOG_LEVEL_DEBUG e "Failed to forward syslog message: %m".

(** The credentials of the second attempt. *)
Definition own_identity (u : ucred) : ucred :=
  mk_ucred getpid (uid u) (gid u).

(** The server with one more message counted as missed. *)
Definition one_more_missed (s : Server) : Server :=
  with_n_forward_syslog_missed (wrap32 (n_forward_syslog_missed s + 1)) s.

(** The warnings of the remote forwarder, and the diagnostic of the
    throttle. *)
Definition remote_target_warning : event :=
  EvLog LOG_LEVEL_WARNING 0 "remote syslog forwarding target configured: %s".
Definition remote_family_warning : event :=
  EvLog LOG_LEVEL_WARNING 0
    "non AF_INET target for remote syslog forwarding configured. ignoring.".
Definition missed_diagnostic (n : Z) : event :=
  EvDriverMessage SD_MESSAGE_FORWARD_SYSLOG_MISSED
    "Forwarding to syslog missed %u messages." n.

(** Both warnings, once for each message. *)
Definition both_warnings (msgs : list (list string)) : list event :=
  flat_map (fun _ => [remote_target_warning; remote_family_warning]) msgs.

(** The time a message is stamped with. *)
Definition message_time_of (tv : option timeval) (w : World) : Z :=
  match tv with
  | Some v => tv_sec v
  | None => clock_realtime w / USEC_PER_SEC
  end.

(** Calls made one after the other. *)
Fixpoint run_all (calls : list (M unit)) : M unit :=
  match calls with
  | [] => ret tt
  | c :: calls' => c ;;; run_all calls'
  end.

(** One local send of each message, the throttle looked at after each. *)
Definition send_and_check (m : list string * option ucred) : M unit :=
  forward_syslog_iovec (fst m) (snd m) None ;;;
  server_maybe_warn_forward_syslog_missed.

(** The result of a run: the world it leaves. *)
Definition exec {A} (c : M A) (w : World) : World := snd (c w).

(** The ten fragments of a record, in the order of the array. *)
Definition rfc5424_fragments (sm : SyslogMessage) : list string :=
  [ "<" ++ fmt_int (limit_facility (priority sm)) ++ ">1 ";
    timestamp_fragment (timestamp sm);
    string_drop (if prefix "_HOSTNAME=" (hostname sm) then 10 else 0)
      (hostname sm);
    " "; appname sm; " "; procid_fragment (procid sm);
    msgid sm; " - "; message sm ].

(** What [server_forward_syslog] puts into the record: the host name of
    the server when it has one, the identifier given or else the command
    name of the sender, and the pid of the sender. *)
Definition forwarded_hostname (s : Server) : string :=
  match hostname_field s with
  | Some h => if String.eqb h EmptyString then "-" else h
  | None => "-"
  end.
Definition forwarded_appname (identifier : option string)
  (ucred : option ucred) : string :=
  match identifier, ucred with
  | Some i, _ => i
  | None, Some uc =>
      match get_process_comm (pid uc) with
      | Some comm => comm
      | None => "-"
      end
  | None, None => "-"
  end.
Definition forwarded_procid (ucred : option ucred) : Z :=
  match ucred with
  | Some uc => pid uc
  | None => 0
  end.

(** The events of the remote forwarder when it opens its socket and when
    it sends. *)
Definition remote_socket : event :=
  EvSocket AF_INET (Z.lor SOCK_DGRAM (Z.lor SOCK_CLOEXEC SOCK_NONBLOCK)) 0.
Definition remote_socket_failed : event :=
  EvLog LOG_LEVEL_ERROR 0 "socket() failed for remote syslog forwarding: %m".
Definition remote_send (s : Server) (fd : Z) (iovec : list string) : event :=
  EvSendmsg fd (sa_in (remote_syslog_dest s)) iovec None.

(** An event that, if it is a datagram, carries [payload]. *)
Definition carries (payload : list string) (e : event) : Prop :=
  match e with
  | EvSendmsg _ _ iov _ => iov = payload
  | _ => True
  end.

(** A datagram for the local relay on descriptor [fd]. *)
Definition to_relay (fd : Z) (e : event) : Prop :=
  match e with
  | EvSendmsg fd' to _ _ => fd' = fd /\ to = sa_un syslog_path
  | EvLog level _ _ => level = LOG_LEVEL_DEBUG
  | _ => False
  end.

(** The fragments [server_forward_syslog] sends for a message whose time
    converts to [lt]. *)
Definition forwarded_fragments (s : Server) (prio : Z)
  (identifier : option string) (text : string) (ucred : option ucred)
  (lt : tm) : list string :=
  [ "<" ++ fmt_int (limit_facility prio) ++ ">1 ";
    timestamp_fragment lt;
    string_drop (if prefix "_HOSTNAME=" (forwarded_hostname s) then 10 else 0)
      (forwarded_hostname s);
    " "; forwarded_appname identifier ucred; " ";
    procid_fragment (forwarded_procid ucred); "-"; " - "; text ].

(** *** Facility limit and fragments *)

Lemma limit_facility_bounds (p : Z) :
  Z.shiftr (limit_facility p) 3 <= 23
  /\ Z.land (limit_facility p) 7 = Z.land p 7
  /\ (Z.shiftr p 3 <= 23 -> limit_facility p = p).
Proof.
  unfold limit_facility.
  destruct (Z.shiftr p 3 >? 23) eqn:E.
  - apply Z.gtb_lt in E.
    change 7 with (Z.ones 3). rewrite !Z.land_ones by lia.
    rewrite !Z.shiftr_div_pow2 by lia.
    change (Z.shiftl 23 3) with (23 * 2 ^ 3).
    rewrite Z.div_add by lia. rewrite Z.mod_add by lia.
    rewrite Z.mod_mod by lia.
    rewrite Z.shiftr_div_pow2 in E by lia.
    repeat split; try lia.
    rewrite Z.div_small; [lia | apply Z.mod_pos_bound; lia].
  - assert (Z.shiftr p 3 <= 23) by (destruct (Z.gtb_spec (Z.shiftr p 3) 23); [discriminate | lia]).
    repeat split; auto.
Qed.

(** C2. For every priority in 0..999 handed to the synthesizer, the
    priority [syslog_fill_iovec] leaves in the record (and renders into
    its first fragment) has a facility field of at most 23 and the same
    three severity bits; a priority whose facility is at most 23 already
    is left as it is. *)
Theorem fill_iovec_limits_facility (sm : SyslogMessage) (iovec : list string)
  (n_iovec : Z) :
  0 <= priority sm <= 999 ->
  10 <= n_iovec ->
  let '(_, sm', iovec', _) := syslog_fill_iovec sm iovec n_iovec in
  priority sm' = limit_facility (priority sm)
  /\ Z.shiftr (priority sm') 3 <= 23
  /\ Z.land (priority sm') 7 = Z.land (priority sm) 7
  /\ (Z.shiftr (priority sm) 3 <= 23 -> priority sm' = priority sm)
  /\ nth_error iovec' 0 = Some ("<" ++ fmt_int (priority sm') ++ ">1 ").
Proof.
  intros _ Hn. unfold syslog_fill_iovec.
  destruct (n_iovec <? 10) eqn:E; [apply Z.ltb_lt in E; lia|].
  destruct (limit_facility_bounds (priority sm)) as (H1 & H2 & H3).
  destruct (strftime _ _ _), (negb _); cbn; auto.
Qed.

(** C3. [syslog_fill_iovec] returns -1 and touches nothing when the
    capacity handed in is below 10; otherwise it returns 10, sets the
    count to 10 and fills the first ten slots, in this order: priority and
    version, timestamp, hostname (without a leading [_HOSTNAME=]), a
    space, the application name, a space, the process id, the message id,
    [" - "] and the message. On a record fresh from [syslog_init_message]
    the ten are ["<14>1 "], the time or ["- "], ["-"], [" "], ["-"],
    [" "], ["- "], ["-"], [" - "], ["-"]. *)
Theorem fill_iovec_fragments (sm : SyslogMessage) (iovec : list string)
  (n_iovec : Z) :
  (n_iovec < 10 ->
   syslog_fill_iovec sm iovec n_iovec = (-1, sm, iovec, n_iovec))
  /\ (10 <= n_iovec ->
      let '(r, sm', iovec', n') := syslog_fill_iovec sm iovec n_iovec in
      r = 10 /\ n' = 10
      /\ firstn 10 iovec' =
           [ "<" ++ fmt_int (limit_facility (priority sm)) ++ ">1 ";
             timestamp_fragment (timestamp sm);
             string_drop (if prefix "_HOSTNAME=" (hostname sm)
                          then 10 else 0) (hostname sm);
             " "; appname sm; " "; procid_fragment (procid sm);
             msgid sm; " - "; message sm ]
      /\ skipn 10 iovec' = skipn 10 iovec)
  /\ (10 <= n_iovec ->
      let '(_, _, iovec', _) :=
        syslog_fill_iovec (syslog_init_message sm) iovec n_iovec in
      firstn 10 iovec' =
        [ "<14>1 "; timestamp_fragment (timestamp sm);
          "-"; " "; "-"; " "; "- "; "-"; " - "; "-" ]
      /\ (timestamp_fragment (timestamp sm) = "- "
          \/ strftime sizeof_timestamp "%Y-%m-%dT%H:%M:%S%z " (timestamp sm)
             = Some (timestamp_fragment (timestamp sm)))).
Proof.
  unfold syslog_fill_iovec, timestamp_fragment, procid_fragment.
  split; [|split].
  - intros H. apply Z.ltb_lt in H. now rewrite H.
  - intros H. destruct (n_iovec <? 10) eqn:E; [apply Z.ltb_lt in E; lia|].
    destruct (strftime _ _ _) as [t|]; cbn;
      [destruct t; cbn|]; destruct (procid sm =? 0); cbn; auto.
  - intros H. destruct (n_iovec <? 10) eqn:E; [apply Z.ltb_lt in E; lia|].
    cbn.
    destruct (strftime _ _ _) as [t|]; cbn; [destruct t; cbn|]; auto.
Qed.

(** *** syslog_skip_date *)

Lemma date_switch_in_class (c : date_class) (ch : ascii) :
  date_switch c ch = in_class c ch.
Proof.
  destruct c; destruct ch as [[] [] [] [] [] [] [] []]; reflexivity.
Qed.

Lemma mem_at_inside (b : list ascii) (a : nat) :
  mem_at b a <> NUL -> (a < length b)%nat.
Proof.
  intros H. destruct (Nat.lt_ge_cases a (length b)) as [|Hge]; auto.
  exfalso. apply H. unfold mem_at. now apply nth_overflow.
Qed.

Lemma is_nul_false (ch : ascii) : is_nul ch = false <-> ch <> NUL.
Proof. unfold is_nul. apply Ascii.eqb_neq. Qed.

Lemma skip_date_loop_complete (seq : list date_class) (b : list ascii) :
  forall p, matches_classes seq b p ->
            skip_date_loop seq b p = Some (p + length seq)%nat.
Proof.
  induction seq as [|c seq IH]; intros p H; cbn.
  - f_equal. lia.
  - destruct (H O c eq_refl) as (_ & Hnul & Hc).
    rewrite Nat.add_0_r in Hnul, Hc.
    apply is_nul_false in Hnul. rewrite Hnul.
    rewrite date_switch_in_class, Hc.
    rewrite IH; [f_equal; lia|].
    intros i c' Hi. specialize (H (S i) c' Hi).
    now replace (S p + i)%nat with (p + S i)%nat by lia.
Qed.

Lemma skip_date_loop_sound (seq : list date_class) (b : list ascii) :
  forall p q, skip_date_loop seq b p = Some q -> matches_classes seq b p.
Proof.
  induction seq as [|c seq IH]; intros p q H i c' Hi.
  - destruct i; discriminate.
  - cbn in H.
    destruct (is_nul (mem_at b p)) eqn:Hnul; [discriminate|].
    destruct (date_switch c (mem_at b p)) eqn:Hc; [|discriminate].
    apply is_nul_false in Hnul. rewrite date_switch_in_class in Hc.
    destruct i as [|i]; cbn in Hi.
    + injection Hi as <-. rewrite Nat.add_0_r.
      auto using mem_at_inside.
    + replace (p + S i)%nat with (S p + i)%nat by lia.
      now apply (IH (S p) q H i c').
Qed.

(** C5, with the count put right. [syslog_skip_date] looks at sixteen
    positions (three letters, space, space-or-digit, digit, space,
    space-or-digit, digit, colon, space-or-digit, digit, colon,
    space-or-digit, digit, space). When every one holds a byte of its
    class the cursor moves sixteen bytes on; when any does not, or the text
    ends before, the cursor stays exactly where it was. *)
Theorem skip_date_all_or_nothing (buf : cursor) :
  sequence =
    [ LETTER; LETTER; LETTER; SPACE; SPACE_OR_NUMBER; NUMBER; SPACE;
      SPACE_OR_NUMBER; NUMBER; COLON; SPACE_OR_NUMBER; NUMBER; COLON;
      SPACE_OR_NUMBER; NUMBER; SPACE ]
  /\ length sequence = 16%nat
  /\ (matches_classes sequence (base buf) (off buf) ->
      syslog_skip_date buf = mk_cursor (base buf) (off buf + 16))
  /\ (~ matches_classes sequence (base buf) (off buf) ->
      syslog_skip_date buf = buf).
Proof.
  split; [reflexivity|]. split; [reflexivity|].
  unfold syslog_skip_date. split; intros H.
  - now rewrite (skip_date_loop_complete _ _ _ H).
  - destruct (skip_date_loop sequence (base buf) (off buf)) as [q|] eqn:E;
      [|reflexivity].
    elim H. eapply skip_date_loop_sound; eauto.
Qed.

(** *** syslog_parse_identifier *)

Lemma mem_at_skipn (b : list ascii) (a n : nat) :
  mem_at b (a + n) = nth n (skipn a b) NUL.
Proof.
  unfold mem_at. revert b; induction a as [|a IH]; intros b; cbn.
  - reflexivity.
  - destruct b as [|x b]; cbn; [now destruct n | apply IH].
Qed.

Lemma skipn_add (b : list ascii) (a n : nat) :
  skipn (a + n) b = skipn n (skipn a b).
Proof. rewrite skipn_skipn. f_equal. lia. Qed.

Lemma skipn_length_app {A} (l x : list A) : skipn (length l) (l ++ x) = x.
Proof. induction l; cbn; auto. Qed.

Lemma nth_length_app {A} (l x : list A) (n : nat) (d : A) :
  nth (length l + n) (l ++ x) d = nth n x d.
Proof. induction l; cbn; auto. Qed.

Lemma nth_last_app (t x : list ascii) :
  t <> [] -> nth (length t - 1) (t ++ x) NUL = last t NUL.
Proof.
  induction t as [|c t IH]; intros H; [congruence|].
  destruct t as [|c' t]; [reflexivity|].
  cbn [length app last] in *. rewrite <- IH by discriminate.
  cbn. now rewrite Nat.sub_0_r.
Qed.

Lemma strspn_spaces (ws t : list ascii) :
  forallb is_space ws = true ->
  match t with [] => True | ch :: _ => is_space ch = false end ->
  strspn (ws ++ t) WHITESPACE = length ws.
Proof.
  unfold is_space. induction ws as [|c ws IH]; cbn; intros Hws Ht.
  - destruct t as [|ch t]; cbn; [reflexivity|].
    destruct (is_nul ch); [reflexivity|].
    destruct (char_in ch WHITESPACE); [discriminate | reflexivity].
  - apply andb_prop in Hws as [Hc Hws]. apply andb_prop in Hc as [Hc Hn].
    apply negb_true_iff in Hn. rewrite Hn, Hc. f_equal. now apply IH.
Qed.

Lemma strcspn_token (tok t : list ascii) :
  forallb is_text tok = true ->
  match t with [] => True | ch :: _ => is_text ch = false end ->
  strcspn (tok ++ t) WHITESPACE = length tok.
Proof.
  unfold is_text. induction tok as [|c tok IH]; cbn; intros Htok Ht.
  - destruct t as [|ch t]; cbn; [reflexivity|].
    destruct (is_nul ch); [reflexivity|].
    destruct (char_in ch WHITESPACE); [reflexivity | discriminate].
  - apply andb_prop in Htok as [Hc Htok]. apply andb_prop in Hc as [Hc Hn].
    apply negb_true_iff in Hn, Hc. rewrite Hn, Hc. f_equal. now apply IH.
Qed.

Lemma strn_chars_prefix (x y : list ascii) :
  forallb is_text x = true ->
  strn_chars (x ++ y) (Z.of_nat (length x)) = x.
Proof.
  unfold is_text. induction x as [|c x IH]; intros H.
  - destruct y; reflexivity.
  - cbn [forallb] in H.
    apply andb_prop in H as [Hc H]. apply andb_prop in Hc as [_ Hn].
    apply negb_true_iff in Hn.
    cbn [app length strn_chars]. rewrite Hn.
    replace (Z.of_nat (S (length x)) <=? 0) with false
      by (symmetry; apply Z.leb_gt; lia).
    replace (Z.of_nat (S (length x)) - 1) with (Z.of_nat (length x)) by lia.
    cbn [orb]. f_equal. now apply IH.
Qed.

Lemma find_open_bracket_eq (b : list ascii) (a : nat) (k : Z) :
  find_open_bracket b a k =
  if Ascii.eqb (mem_at b a) "[" then Returns (Some (a, k))
  else if k =? 0 then Returns None
  else match a with
       | O => OutOfBounds
       | S a' => find_open_bracket b a' (k - 1)
       end.
Proof. destruct a; reflexivity. Qed.

Lemma find_open_bracket_found (b : list ascii) (p j : nat) :
  mem_at b (p + j) = "["%char ->
  forall n, (j <= n)%nat ->
    (forall i, (j < i <= n)%nat -> mem_at b (p + i) <> "["%char) ->
    find_open_bracket b (p + n) (Z.of_nat n)
    = Returns (Some ((p + j)%nat, Z.of_nat j)).
Proof.
  intros Hj n. induction n as [|n IH]; intros Hle Hno.
  - assert (j = O) by lia. subst j.
    rewrite find_open_bracket_eq, Hj. reflexivity.
  - rewrite find_open_bracket_eq.
    destruct (Nat.eq_dec j (S n)) as [->|Hne].
    + now rewrite Hj.
    + replace (Ascii.eqb (mem_at b (p + S n)) "[") with false
        by (symmetry; apply Ascii.eqb_neq, Hno; lia).
      replace (Z.of_nat (S n) =? 0) with false
        by (symmetry; apply Z.eqb_neq; lia).
      replace (Z.of_nat (S n) - 1) with (Z.of_nat n) by lia.
      rewrite Nat.add_succ_r.
      apply IH; [lia|]. intros i Hi. apply Hno. lia.
Qed.

(** Where the function stands after its two scans of a token. *)
Lemma token_at_scans (buf : cursor) (ws token tail : list ascii) :
  token_at buf ws token tail ->
  let p := (off buf + strspn (skipn (off buf) (base buf)) WHITESPACE)%nat in
  p = (off buf + length ws)%nat
  /\ skipn p (base buf) = (token ++ tail)%list
  /\ strcspn (skipn p (base buf)) WHITESPACE = length token.
Proof.
  intros [Hsz Htxt Hoff Hws Htok Htail]. cbn zeta.
  assert (Hp : strspn (skipn (off buf) (base buf)) WHITESPACE = length ws).
  { rewrite Htxt. apply strspn_spaces; auto.
    destruct token as [|c token]; cbn.
    - destruct tail as [|ch tail]; cbn; auto. now apply Htail.
    - cbn in Htok. apply andb_prop in Htok as [Hc _].
      unfold is_text in Hc. unfold is_space.
      apply andb_prop in Hc as [Hc _]. apply negb_true_iff in Hc.
      now rewrite Hc. }
  rewrite Hp. split; [reflexivity|].
  assert (Hs : skipn (off buf + length ws) (base buf) = (token ++ tail)%list).
  { rewrite skipn_add, Htxt. apply skipn_length_app. }
  split; [exact Hs|].
  rewrite Hs. apply strcspn_token; auto.
  destruct tail as [|ch tail]; cbn; auto. now apply Htail.
Qed.

Lemma token_at_length (buf : cursor) (ws token tail : list ascii) :
  token_at buf ws token tail ->
  (off buf + length ws + length token + length tail = length (base buf))%nat.
Proof.
  intros [Hsz Htxt Hoff Hws Htok Htail].
  apply (f_equal (@length ascii)) in Htxt.
  rewrite length_skipn, !length_app in Htxt. lia.
Qed.

(** C7, for the tokens the guard of the function turns away. When the
    first white-space-delimited token of the text is empty (the text is
    over after the leading white space) or does not end in a colon,
    [syslog_parse_identifier] returns 0 and leaves the cursor, the
    identifier and the pid as they were. *)
Theorem parse_identifier_no_header (alloc_pid alloc_identifier : bool)
  (buf : cursor) (ws token tail : list ascii) (identifier pid : option string) :
  token_at buf ws token tail ->
  token = [] \/ last token NUL <> ":"%char ->
  syslog_parse_identifier alloc_pid alloc_identifier buf identifier pid
  = Returns (mk_parsed 0 buf identifier pid).
Proof.
  intros Hat Htok.
  destruct (token_at_scans _ _ _ _ Hat) as (Hp & Hs & Hl).
  unfold syslog_parse_identifier. cbv zeta.
  rewrite Hl.
  destruct token as [|c token]; [reflexivity|].
  destruct Htok as [|Hlast]; [discriminate|].
  rewrite Hp in Hs |- *.
  replace (Z.to_nat (Z.of_nat (length (c :: token)) - 1))
    with (length (c :: token) - 1)%nat by lia.
  rewrite mem_at_skipn, Hs, nth_last_app by discriminate.
  apply Ascii.eqb_neq in Hlast. rewrite Hlast.
  now rewrite orb_true_r.
Qed.


Lemma parse_identifier_bracketed (alloc_pid alloc_identifier : bool)
  (buf : cursor) (ws ident pidtxt ws2 rest : list ascii)
  (identifier pid : option string) :
  token_at buf ws (bracketed_token ident pidtxt) (ws2 ++ rest) ->
  ~ In "["%char pidtxt ->
  forallb is_space ws2 = true ->
  match rest with [] => True | ch :: _ => is_space ch = false end ->
  let token := bracketed_token ident pidtxt in
  let e := (length token + length ws2)%nat in
  syslog_parse_identifier alloc_pid alloc_identifier buf identifier pid
  = Returns
      (mk_parsed (Z.of_nat e)
         (mk_cursor (base buf) (off buf + length ws + e))
         (if alloc_identifier then Some (string_of_list_ascii ident)
          else identifier)
         (if alloc_pid then Some (string_of_list_ascii pidtxt) else pid))
  /\ skipn (off buf + length ws + e) (base buf) = rest.
Proof.
  intros Hat Hno Hws2 Hrest token e.
  destruct (token_at_scans _ _ _ _ Hat) as (Hp & Hs & Hl).
  pose proof (token_at_length _ _ _ _ Hat) as Hlen.
  pose proof (ta_size _ _ _ _ Hat) as Hsz.
  pose proof (ta_token _ _ _ _ Hat) as Htext.
  rewrite Hp in Hs. clear Hl.
  remember (off buf + length ws)%nat as q eqn:Hq.
  remember (base buf) as b eqn:Hb.
  assert (Hmem : forall n, mem_at b (q + n) = nth n (token ++ ws2 ++ rest) NUL)
    by (intros n; now rewrite mem_at_skipn, Hs).
  assert (Hskip : forall n, skipn (q + n) b = skipn n (token ++ ws2 ++ rest))
    by (intros n; now rewrite skipn_add, Hs).
  assert (HL : length token = (length ident + length pidtxt + 3)%nat)
    by (unfold token, bracketed_token; rewrite length_app; cbn;
        rewrite length_app; cbn; lia).
  unfold bracketed_token in Htext.
  rewrite forallb_app in Htext. apply andb_prop in Htext as [Hident Htext].
  cbn [forallb] in Htext. apply andb_prop in Htext as [_ Htext].
  rewrite forallb_app in Htext. apply andb_prop in Htext as [Hpid _].
  (* the bytes the function looks at *)
  assert (Hcolon : mem_at b (q + (length token - 1)) = ":"%char).
  { rewrite Hmem. unfold token, bracketed_token.
    replace (length (ident ++ "["%char :: pidtxt ++ ["]"; ":"]%char) - 1)%nat
      with (length ident + (S (length pidtxt + 1)))%nat
      by (rewrite length_app; cbn; rewrite length_app; cbn; lia).
    rewrite <- app_assoc, nth_length_app. cbn [app nth].
    rewrite <- app_assoc, nth_length_app. reflexivity. }
  assert (Hclose : mem_at b (q + (length token - 2)) = "]"%char).
  { rewrite Hmem. unfold token, bracketed_token.
    replace (length (ident ++ "["%char :: pidtxt ++ ["]"; ":"]%char) - 2)%nat
      with (length ident + (S (length pidtxt + 0)))%nat
      by (rewrite length_app; cbn; rewrite length_app; cbn; lia).
    rewrite <- app_assoc, nth_length_app. cbn [app nth].
    rewrite <- app_assoc, nth_length_app. reflexivity. }
  assert (Hopen : mem_at b (q + length ident) = "["%char).
  { rewrite Hmem. unfold token, bracketed_token.
    rewrite <- (Nat.add_0_r (length ident)) at 1.
    rewrite <- app_assoc, nth_length_app. reflexivity. }
  assert (Hbetween : forall i, (length ident < i <= length token - 2)%nat ->
                               mem_at b (q + i) <> "["%char).
  { intros i Hi. rewrite Hmem. unfold token, bracketed_token.
    replace i with (length ident + S (i - length ident - 1))%nat by lia.
    rewrite <- app_assoc, nth_length_app. cbn [app nth].
    destruct (Nat.lt_ge_cases (i - length ident - 1) (length pidtxt)) as [Hlt|Hge].
    - rewrite <- app_assoc, app_nth1 by exact Hlt.
      intros Heq. apply Hno. rewrite <- Heq. now apply nth_In.
    - replace (i - length ident - 1)%nat with (length pidtxt + 0)%nat by lia.
      rewrite <- app_assoc, nth_length_app. discriminate. }
  assert (Hpidtxt : skipn (S (q + length ident)) b
                    = (pidtxt ++ ["]"; ":"]%char ++ ws2 ++ rest)%list).
  { replace (S (q + length ident)) with (q + (length ident + 1))%nat by lia.
    rewrite Hskip. unfold token, bracketed_token.
    rewrite <- app_assoc, skipn_add, skipn_length_app. cbn.
    now rewrite <- app_assoc. }
  assert (Hidtxt : skipn q b
                   = (ident ++ "["%char :: pidtxt ++ ["]"; ":"]%char ++ ws2 ++ rest)%list).
  { rewrite Hs. unfold token, bracketed_token.
    rewrite <- app_assoc. cbn. now rewrite <- app_assoc. }
  assert (Htail : skipn (q + length token) b = (ws2 ++ rest)%list)
    by (rewrite Hskip; apply skipn_length_app).
  split.
  2:{ unfold e. replace (q + (length token + length ws2))%nat
        with (q + length token + length ws2)%nat by lia.
      rewrite skipn_add, Htail. apply skipn_length_app. }
  unfold syslog_parse_identifier. cbv zeta.
  rewrite <- Hb, Hp, Hs.
  rewrite strcspn_token.
  2:{ apply (ta_token _ _ _ _ Hat). }
  2:{ pose proof (ta_tail _ _ _ _ Hat) as Ht. unfold ends_token in Ht.
      destruct (ws2 ++ rest)%list; [exact I | apply Ht]. }
  fold token.
  replace (Z.of_nat (length token) <=? 0) with false
    by (symmetry; apply Z.leb_gt; lia).
  replace (Z.to_nat (Z.of_nat (length token) - 1))
    with (length token - 1)%nat by lia.
  rewrite Hcolon, Ascii.eqb_refl. cbn [negb orb].
  change (bracketed_token ident pidtxt) with token in Hlen, Hs |- *.
  rewrite length_app in Hlen.
  assert (Hw : forall z, 0 <= z < 2 ^ 64 -> wrap64 z = z)
    by (intros; apply Z.mod_small; auto).
  rewrite (Hw (Z.of_nat (length token) - 1 - 1)) by lia.
  unfold deref. rewrite Hw by lia.
  replace (Z.of_nat q + (Z.of_nat (length token) - 1 - 1)
           <=? Z.of_nat (length b)) with true
    by (symmetry; apply Z.leb_le; lia).
  replace (Z.to_nat (Z.of_nat q + (Z.of_nat (length token) - 1 - 1)))
    with (q + (length token - 2))%nat by lia.
  rewrite Hclose, Ascii.eqb_refl.
  replace (Z.of_nat (length token) - 1 - 1)
    with (Z.of_nat (length token - 2)) by lia.
  rewrite (find_open_bracket_found b q (length ident) Hopen)
    by (lia || exact Hbetween).
  rewrite Hpidtxt.
  replace (wrap64 (Z.of_nat (length token) - 1 - Z.of_nat (length ident) - 2))
    with (Z.of_nat (length pidtxt)) by (rewrite Hw; lia).
  rewrite Nat2Z.id, Htail, strspn_spaces by auto.
  rewrite Hw by lia.
  replace (Z.to_nat (Z.of_nat (length token) + Z.of_nat (length ws2)))
    with e by (unfold e; lia).
  replace (Z.of_nat (length token) + Z.of_nat (length ws2))
    with (Z.of_nat e) by (unfold e; lia).
  rewrite <- Hs, Hidtxt.
  unfold strndup. rewrite !strn_chars_prefix by auto.
  destruct alloc_pid, alloc_identifier; reflexivity.
Qed.

(** C6. A white-space-delimited token [ident[pidtxt]:], where [pidtxt]
    holds no further opening bracket, gives [pidtxt] for the pid and
    [ident] for the identifier (each when its [strndup] gets memory), and
    the cursor moves past the token and the white space after it. So
    ["myapp[123]: hello"] gives identifier ["myapp"], pid ["123"] and
    leaves the cursor at ["hello"]. *)
Theorem parse_identifier_bracketed_pid (alloc_pid alloc_identifier : bool)
  (buf : cursor) (ws ident pidtxt ws2 rest : list ascii)
  (identifier pid : option string) :
  (token_at buf ws (bracketed_token ident pidtxt) (ws2 ++ rest) ->
   ~ In "["%char pidtxt ->
   forallb is_space ws2 = true ->
   match rest with [] => True | ch :: _ => is_space ch = false end ->
   let e := (length (bracketed_token ident pidtxt) + length ws2)%nat in
   syslog_parse_identifier alloc_pid alloc_identifier buf identifier pid
   = Returns
       (mk_parsed (Z.of_nat e)
          (mk_cursor (base buf) (off buf + length ws + e))
          (if alloc_identifier then Some (string_of_list_ascii ident)
           else identifier)
          (if alloc_pid then Some (string_of_list_ascii pidtxt) else pid))
   /\ skipn (off buf + length ws + e) (base buf) = rest)
  /\ (is_space " " = true ->
      forallb is_text (list_ascii_of_string "myapp[123]:hello") = true ->
      exists r,
        syslog_parse_identifier true true
          (cursor_of_string "myapp[123]: hello") None None = Returns r
        /\ identifier_out r = Some "myapp"
        /\ pid_out r = Some "123"
        /\ consumed r = 12
        /\ off (buf_out r) = 12%nat
        /\ cursor_text (buf_out r) = "hello").
Proof using Type.
  split.
  - intros. now apply parse_identifier_bracketed.
  - intros Hsp Htxt.
    pose (l := list_ascii_of_string).
    destruct (parse_identifier_bracketed true true
                (cursor_of_string "myapp[123]: hello")
                [] (l "myapp") (l "123") (l " ") (l "hello") None None)
      as [Hr _].
    + split.
      * cbn. lia.
      * reflexivity.
      * cbn. lia.
      * reflexivity.
      * rewrite forallb_forall in Htxt |- *.
        intros ch Hin. apply Htxt. unfold l in Hin. cbn in Hin |- *.
        clear - Hin. tauto.
      * cbn. split; [|discriminate].
        unfold is_space in Hsp. apply andb_prop in Hsp as [Hsp _].
        unfold is_text. now rewrite Hsp.
    + unfold l. cbn. intros [E|[E|[E|[]]]]; discriminate.
    + unfold l. cbn. now rewrite Hsp.
    + rewrite forallb_forall in Htxt.
      assert (H : is_text "h" = true)
        by (apply Htxt; cbn; clear; repeat (try (left; reflexivity); right)).
      unfold is_text in H. apply andb_prop in H as [H _].
      apply negb_true_iff in H. unfold l. cbn. unfold is_space. now rewrite H.
    + eexists. split; [exact Hr|]. cbn. repeat split; reflexivity.
Qed.

(** *** The local relay *)

Lemma new_events_app (w w' : World) (l : list event) :
  trace w' = (trace w ++ l)%list -> new_events w w' = l.
Proof. unfold new_events. intros ->. apply skipn_length_app. Qed.

Lemma wrap32_succ (n : Z) : 0 <= n < 2 ^ 32 - 1 -> wrap32 (n + 1) = n + 1.
Proof. intros H. unfold wrap32. apply Z.mod_small. lia. Qed.

Lemma sendmsg_ok_nonneg (n : N) : (Z.of_N n >=? 0) = true.
Proof. apply Z.geb_le. lia. Qed.

Ltac run_relay :=
  unfold exec, forward_syslog_iovec, forward_syslog_log_failure,
    incr_n_forward_syslog_missed, log_debug_errno, sendmsg, bind, ret,
    get_server, put_server, get_errno, emit;
  cbn [fst snd server errno trace sendmsg_calls with_server with_errno
       with_trace with_sendmsg_calls].

Ltac relay_count :=
  erewrite new_events_app by (cbn; rewrite <- ?app_assoc; reflexivity);
  cbn; lia.

(** C1, with what the code does when the second attempt fails. A call of
    [forward_syslog_iovec] sends once. On success nothing changes. On
    [EAGAIN] the count of missed messages goes up by one and nothing is
    sent again. On [EPERM] or [ESRCH], with credentials, it sends a second
    and last time with the daemon's pid in place of the sender's (uid and
    gid kept); if that fails with [EAGAIN] the count goes up by one, if it
    fails with [ENOENT] nothing is said, and any other failure of it is
    logged at debug level. A first failure with [ENOENT] is dropped
    without a word; any other first failure is logged at debug level and
    not tried again. No call sends more than twice. *)
Theorem forward_syslog_iovec_outcomes (iovec : list string)
  (ucred : option ucred) (tv : option timeval) (w : World) :
  let s := server w in
  let first := sendmsg_result (sendmsg_calls w) in
  let second := sendmsg_result (S (sendmsg_calls w)) in
  let w' := exec (forward_syslog_iovec iovec ucred tv) w in
  let send1 := relay_send s iovec ucred in
  let send2 u := relay_send s iovec (Some (own_identity u)) in
  (forall n, first = Ok n ->
     server w' = s /\ new_events w w' = [send1])
  /\ (first = Fail EAGAIN ->
      server w' = one_more_missed s /\ new_events w w' = [send1])
  /\ (forall e u, first = Fail e -> e = EPERM \/ e = ESRCH ->
      ucred = Some u ->
      (forall n, second = Ok n ->
         server w' = s /\ new_events w w' = [send1; send2 u])
      /\ (second = Fail EAGAIN ->
          server w' = one_more_missed s
          /\ new_events w w' = [send1; send2 u])
      /\ (second = Fail ENOENT ->
          server w' = s /\ new_events w w' = [send1; send2 u])
      /\ (forall e2, second = Fail e2 -> e2 <> EAGAIN -> e2 <> ENOENT ->
          server w' = s
          /\ new_events w w' = [send1; send2 u; relay_failure_logged e2]))
  /\ (first = Fail ENOENT ->
      server w' = s /\ new_events w w' = [send1])
  /\ (forall e, first = Fail e -> e <> EAGAIN -> e <> ENOENT ->
      ucred = None \/ (e <> EPERM /\ e <> ESRCH) ->
      server w' = s
      /\ new_events w w' = [send1; relay_failure_logged e])
  /\ (0 <= n_forward_syslog_missed s < 2 ^ 32 - 1 ->
      n_forward_syslog_missed (one_more_missed s)
      = n_forward_syslog_missed s + 1)
  /\ (count_events is_sendmsg (new_events w w') <= 2)%nat
  /\ (sendmsg_calls w' <= sendmsg_calls w + 2)%nat.
Proof.
  cbv zeta.
  repeat match goal with |- _ /\ _ => split end.
  - intros n H. run_relay. rewrite H. cbn. rewrite sendmsg_ok_nonneg. cbn.
    split; [reflexivity | now apply new_events_app].
  - intros H. run_relay. rewrite H. cbn.
    split; [reflexivity | now apply new_events_app].
  - intros e u H He ->.
    assert (Hnot : (e =? EAGAIN) = false) by (destruct He; subst; reflexivity).
    assert (Hor : (e =? ESRCH) || (e =? EPERM) = true)
      by (destruct He; subst; reflexivity).
    repeat match goal with |- _ /\ _ => split end.
    + intros n H2. run_relay. rewrite H. cbn. rewrite Hnot, Hor. cbn.
      rewrite H2. cbn. rewrite sendmsg_ok_nonneg. cbn.
      split; [reflexivity|]. apply new_events_app. cbn.
      now rewrite <- app_assoc.
    + intros H2. run_relay. rewrite H. cbn. rewrite Hnot, Hor. cbn.
      rewrite H2. cbn.
      split; [reflexivity|]. apply new_events_app. cbn.
      now rewrite <- app_assoc.
    + intros H2. run_relay. rewrite H. cbn. rewrite Hnot, Hor. cbn.
      rewrite H2. cbn.
      split; [reflexivity|]. apply new_events_app. cbn.
      now rewrite <- app_assoc.
    + intros e2 H2 Ha Hn. run_relay. rewrite H. cbn. rewrite Hnot, Hor. cbn.
      rewrite H2. cbn.
      apply Z.eqb_neq in Ha, Hn. rewrite Ha. cbn. rewrite Hn. cbn.
      split; [reflexivity|]. apply new_events_app. cbn.
      now rewrite <- !app_assoc.
  - intros H. run_relay. rewrite H. cbn.
    destruct ucred; cbn; (split; [reflexivity | now apply new_events_app]).
  - intros e H Ha Hn Hc. run_relay. rewrite H. cbn.
    apply Z.eqb_neq in Ha, Hn. rewrite Ha.
    destruct ucred as [u|].
    + destruct Hc as [|[Hp Hs]]; [discriminate|].
      apply Z.eqb_neq in Hp, Hs. rewrite Hp, Hs. cbn. rewrite Hn. cbn.
      split; [reflexivity|]. apply new_events_app. cbn.
      now rewrite <- app_assoc.
    + cbn. rewrite Hn. cbn.
      split; [reflexivity|]. apply new_events_app. cbn.
      now rewrite <- app_assoc.
  - intros H. unfold one_more_missed. cbn. now apply wrap32_succ.
  - run_relay.
    destruct (sendmsg_result (sendmsg_calls w)) as [n|e]; cbn;
      [rewrite sendmsg_ok_nonneg; cbn; relay_count|].
    destruct (e =? EAGAIN); cbn; [relay_count|].
    destruct ucred as [u|]; cbn;
      [destruct ((e =? ESRCH) || (e =? EPERM)); cbn|];
      try (destruct (negb (e =? ENOENT)); cbn; relay_count).
    destruct (sendmsg_result (S (sendmsg_calls w))) as [n2|e2]; cbn;
      [rewrite sendmsg_ok_nonneg; cbn; relay_count|].
    destruct (e2 =? EAGAIN); cbn; [relay_count|].
    destruct (negb (e2 =? ENOENT)); cbn; relay_count.
  - run_relay.
    destruct (sendmsg_result (sendmsg_calls w)) as [n|e]; cbn;
      [rewrite sendmsg_ok_nonneg; cbn; lia|].
    destruct (e =? EAGAIN); cbn; [lia|].
    destruct ucred as [u|]; cbn;
      [destruct ((e =? ESRCH) || (e =? EPERM)); cbn|];
      try (destruct (negb (e =? ENOENT)); cbn; lia).
    destruct (sendmsg_result (S (sendmsg_calls w))) as [n2|e2]; cbn;
      [rewrite sendmsg_ok_nonneg; cbn; lia|].
    destruct (e2 =? EAGAIN); cbn; [lia|].
    destruct (negb (e2 =? ENOENT)); cbn; lia.
Qed.

(** *** The throttle *)

Lemma exec_seq {A B} (c : M A) (k : M B) (w : World) :
  exec (_ <- c ;; k) w = exec k (exec c w).
Proof. unfold exec, bind. now destruct (c w). Qed.

Lemma forward_syslog_iovec_eagain (iovec : list string) (ucred : option ucred)
  (tv : option timeval) (w : World) :
  sendmsg_result (sendmsg_calls w) = Fail EAGAIN ->
  exec (forward_syslog_iovec iovec ucred tv) w
  = mk_World (one_more_missed (server w)) EAGAIN
      (trace w ++ [relay_send (server w) iovec ucred])
      (S (sendmsg_calls w)) (socket_calls w)
      (clock_realtime w) (clock_monotonic w).
Proof. intros H. run_relay. rewrite H. reflexivity. Qed.

Ltac run_throttle :=
  unfold exec, server_maybe_warn_forward_syslog_missed, server_driver_message,
    now_monotonic, bind, ret, get_server, put_server, emit;
  cbn [fst snd server trace clock_monotonic with_server with_trace].

Lemma maybe_warn_idle (w : World) :
  n_forward_syslog_missed (server w) = 0 ->
  exec server_maybe_warn_forward_syslog_missed w = w.
Proof. intros H. run_throttle. now rewrite H. Qed.

Lemma maybe_warn_too_early (w : World) :
  0 <= last_warn_forward_syslog_missed (server w) ->
  last_warn_forward_syslog_missed (server w) + WARN_FORWARD_SYSLOG_MISSED_USEC
    < 2 ^ 64 ->
  clock_monotonic w - last_warn_forward_syslog_missed (server w)
    < WARN_FORWARD_SYSLOG_MISSED_USEC ->
  exec server_maybe_warn_forward_syslog_missed w = w.
Proof.
  intros H0 H1 H2. run_throttle.
  destruct (n_forward_syslog_missed (server w) <=? 0); [reflexivity|].
  unfold wrap64. rewrite Z.mod_small
    by (unfold WARN_FORWARD_SYSLOG_MISSED_USEC, USEC_PER_SEC in *; lia).
  replace (_ >? _) with true; [reflexivity|].
  symmetry. apply Z.gtb_lt. lia.
Qed.

Lemma maybe_warn_fires (w : World) :
  0 < n_forward_syslog_missed (server w) ->
  0 <= last_warn_forward_syslog_missed (server w) ->
  last_warn_forward_syslog_missed (server w) + WARN_FORWARD_SYSLOG_MISSED_USEC
    < 2 ^ 64 ->
  WARN_FORWARD_SYSLOG_MISSED_USEC
    <= clock_monotonic w - last_warn_forward_syslog_missed (server w) ->
  exec server_maybe_warn_forward_syslog_missed w
  = with_server
      (with_last_warn_forward_syslog_missed (clock_monotonic w)
         (with_n_forward_syslog_missed 0 (server w)))
      (with_trace
         (trace w ++ [missed_diagnostic (n_forward_syslog_missed (server w))])
         w).
Proof.
  intros Hn H0 H1 H2. run_throttle.
  replace (n_forward_syslog_missed (server w) <=? 0) with false
    by (symmetry; apply Z.leb_gt; lia).
  unfold wrap64. rewrite Z.mod_small
    by (unfold WARN_FORWARD_SYSLOG_MISSED_USEC, USEC_PER_SEC in *; lia).
  replace (_ >? _) with false; [reflexivity|].
  symmetry. destruct (Z.gtb_spec
    (last_warn_forward_syslog_missed (server w) + WARN_FORWARD_SYSLOG_MISSED_USEC)
    (clock_monotonic w)); [lia | reflexivity].
Qed.

Lemma losses_accumulate (msgs : list (list string * option ucred)) :
  forall w : World,
    0 <= n_forward_syslog_missed (server w) ->
    n_forward_syslog_missed (server w) + Z.of_nat (length msgs) < 2 ^ 32 ->
    0 <= last_warn_forward_syslog_missed (server w) ->
    last_warn_forward_syslog_missed (server w)
      + WARN_FORWARD_SYSLOG_MISSED_USEC < 2 ^ 64 ->
    clock_monotonic w - last_warn_forward_syslog_missed (server w)
      < WARN_FORWARD_SYSLOG_MISSED_USEC ->
    (forall i, (i < length msgs)%nat ->
               sendmsg_result (sendmsg_calls w + i) = Fail EAGAIN) ->
    let w1 := exec (run_all (map send_and_check msgs)) w in
    n_forward_syslog_missed (server w1)
    = n_forward_syslog_missed (server w) + Z.of_nat (length msgs)
    /\ last_warn_forward_syslog_missed (server w1)
       = last_warn_forward_syslog_missed (server w)
    /\ clock_monotonic w1 = clock_monotonic w
    /\ trace w1
       = (trace w
          ++ map (fun m => relay_send (server w) (fst m) (snd m)) msgs)%list.
Proof.
  induction msgs as [|m msgs IH]; intros w Hn Hmax Hl Hl' Hc Hs; cbn zeta.
  - cbn. rewrite app_nil_r. repeat split; lia.
  - cbn [map run_all length] in *.
    rewrite exec_seq.
    replace (exec (send_and_check m) w)
      with (exec server_maybe_warn_forward_syslog_missed
              (exec (forward_syslog_iovec (fst m) (snd m) None) w))
      by (unfold send_and_check; now rewrite exec_seq).
    rewrite forward_syslog_iovec_eagain
      by (rewrite <- (Hs O) by lia; f_equal; lia).
    set (w1 := mk_World _ _ _ _ _ _ _).
    assert (Hone : n_forward_syslog_missed (server w1)
                   = n_forward_syslog_missed (server w) + 1).
    { unfold w1, one_more_missed. cbn. apply wrap32_succ. lia. }
    rewrite maybe_warn_too_early by (unfold w1; assumption).
    destruct (IH w1) as (H1 & H2 & H3 & H4).
    + lia.
    + lia.
    + exact Hl.
    + exact Hl'.
    + exact Hc.
    + intros i Hi. unfold w1. cbn.
      rewrite <- (Hs (S i)) by lia. f_equal. lia.
    + rewrite H1, H2, H3, H4, Hone. unfold w1. cbn.
      rewrite <- app_assoc. repeat split; try lia.
Qed.

Lemma relay_sends_are_not_diagnostics (s : Server)
  (msgs : list (list string * option ucred)) :
  count_events is_driver_message
    (map (fun m => relay_send s (fst m) (snd m)) msgs) = O.
Proof. unfold count_events. induction msgs; cbn; auto. Qed.

(** C4. [server_maybe_warn_forward_syslog_missed] does nothing while the
    count of missed messages is zero, and nothing (the count stays)
    while less than 30 seconds have passed since the last warning;
    otherwise it emits one diagnostic that carries the count, puts the
    count back to zero and takes the present time for the time of the
    last warning. So [N] sends in a row that all meet [EAGAIN], with the
    throttle looked at after each and the clock standing still, leave the
    count at [N] and no diagnostic; once 30 seconds have passed the
    throttle emits one diagnostic carrying [N] and the count is zero. *)
Theorem maybe_warn_forward_syslog_missed_throttle (w : World)
  (msgs : list (list string * option ucred)) :
  let s := server w in
  let last := last_warn_forward_syslog_missed s in
  let elapsed := clock_monotonic w - last in
  let thirty_seconds := 30 * 1000000 in
  0 <= n_forward_syslog_missed s ->
  0 <= last -> last + thirty_seconds < 2 ^ 64 ->
  (n_forward_syslog_missed s = 0 ->
   exec server_maybe_warn_forward_syslog_missed w = w)
  /\ (elapsed < thirty_seconds ->
      exec server_maybe_warn_forward_syslog_missed w = w)
  /\ (0 < n_forward_syslog_missed s -> thirty_seconds <= elapsed ->
      let w' := exec server_maybe_warn_forward_syslog_missed w in
      new_events w w' = [missed_diagnostic (n_forward_syslog_missed s)]
      /\ n_forward_syslog_missed (server w') = 0
      /\ last_warn_forward_syslog_missed (server w') = clock_monotonic w
      /\ w' = with_server
                (with_last_warn_forward_syslog_missed (clock_monotonic w)
                   (with_n_forward_syslog_missed 0 s))
                (with_trace (trace w') w))
  /\ (n_forward_syslog_missed s = 0 -> elapsed < thirty_seconds ->
      Z.of_nat (length msgs) < 2 ^ 32 ->
      (forall i, (i < length msgs)%nat ->
                 sendmsg_result (sendmsg_calls w + i) = Fail EAGAIN) ->
      let w1 := exec (run_all (map send_and_check msgs)) w in
      n_forward_syslog_missed (server w1) = Z.of_nat (length msgs)
      /\ count_events is_driver_message (new_events w w1) = O
      /\ (forall t, thirty_seconds <= t - last -> msgs <> [] ->
          let w2 :=
            exec server_maybe_warn_forward_syslog_missed
              (with_clock_monotonic t w1) in
          new_events w1 w2 = [missed_diagnostic (Z.of_nat (length msgs))]
          /\ n_forward_syslog_missed (server w2) = 0)).
Proof.
  cbv zeta. intros Hn Hl Hl'.
  change (30 * 1000000) with WARN_FORWARD_SYSLOG_MISSED_USEC in *.
  repeat match goal with |- _ /\ _ => split end.
  - apply maybe_warn_idle.
  - now apply maybe_warn_too_early.
  - intros Hpos He. rewrite maybe_warn_fires by assumption. cbn.
    repeat split. now apply new_events_app.
  - intros Hz He Hmax Hs.
    destruct (losses_accumulate msgs w) as (H1 & H2 & H3 & H4);
      try assumption; [lia|].
    rewrite Hz in H1. cbn in H1.
    split; [exact H1|]. split.
    + rewrite (new_events_app _ _ _ H4).
      apply relay_sends_are_not_diagnostics.
    + intros t Ht Hne.
      assert (0 < Z.of_nat (length msgs)) by (destruct msgs; [congruence | cbn; lia]).
      rewrite maybe_warn_fires;
        cbn [server clock_monotonic with_clock_monotonic];
        rewrite ?H1, ?H2; try assumption; try lia.
      split; [|reflexivity].
      now apply new_events_app.
Qed.

(** *** The remote forwarder *)

Ltac run_remote :=
  unfold exec, forward_remote_syslog_iovec, maybe_open_remote_syslog,
    log_warning, log_error, socket, sendmsg, bind, ret, get_server,
    put_server, emit;
  cbn [fst snd server trace with_server with_trace].

Lemma forward_remote_no_target (iovec : list string) (w : World) :
  remote_syslog_fd (server w) <= 0 ->
  sin_addr (remote_syslog_dest (server w)) = INADDR_NONE ->
  exec (forward_remote_syslog_iovec iovec) w = w.
Proof.
  intros Hfd Ha. run_remote.
  replace (remote_syslog_fd (server w) >? 0) with false
    by (symmetry; destruct (Z.gtb_spec (remote_syslog_fd (server w)) 0);
        [lia | reflexivity]).
  now rewrite Ha.
Qed.

Lemma forward_remote_not_inet (iovec : list string) (w : World) :
  remote_syslog_fd (server w) <= 0 ->
  sin_addr (remote_syslog_dest (server w)) <> INADDR_NONE ->
  sin_family (remote_syslog_dest (server w)) <> AF_INET ->
  exec (forward_remote_syslog_iovec iovec) w
  = with_trace
      (trace w ++ [remote_target_warning; remote_family_warning]) w.
Proof.
  intros Hfd Ha Hf. run_remote.
  replace (remote_syslog_fd (server w) >? 0) with false
    by (symmetry; destruct (Z.gtb_spec (remote_syslog_fd (server w)) 0);
        [lia | reflexivity]).
  apply Z.eqb_neq in Ha, Hf. rewrite Ha, Hf. cbn.
  unfold with_trace. cbn. now rewrite <- app_assoc.
Qed.

Lemma both_warnings_count (msgs : list (list string)) :
  count_events is_sendmsg (both_warnings msgs) = O
  /\ count_events is_log (both_warnings msgs) = (2 * length msgs)%nat.
Proof.
  unfold count_events, both_warnings.
  induction msgs as [|m msgs [IH1 IH2]]; cbn; [auto|].
  split; [exact IH1 | rewrite IH2; lia].
Qed.

(** C8, as the code has it. While the remote socket is not open: with no
    target configured ([INADDR_NONE]) a call of the remote forwarder
    sends nothing, logs nothing and changes nothing; with a target that
    is not [AF_INET] it sends nothing and changes nothing in the server,
    and logs its two warnings at every call, so twice as many warnings
    as messages. As the server is left as it was, every later call does
    the same. *)
Theorem forward_remote_without_target (msgs : list (list string))
  (w : World) :
  let s := server w in
  let w' := exec (run_all (map forward_remote_syslog_iovec msgs)) w in
  remote_syslog_fd s <= 0 ->
  (sin_addr (remote_syslog_dest s) = INADDR_NONE -> w' = w)
  /\ (sin_addr (remote_syslog_dest s) <> INADDR_NONE ->
      sin_family (remote_syslog_dest s) <> AF_INET ->
      w' = with_trace (trace w ++ both_warnings msgs) w
      /\ server w' = s
      /\ count_events is_sendmsg (new_events w w') = O
      /\ count_events is_log (new_events w w') = (2 * length msgs)%nat).
Proof.
  cbv zeta. intros Hfd. split.
  - intros Ha. revert w Hfd Ha.
    induction msgs as [|m msgs IH]; intros w Hfd Ha; [reflexivity|].
    cbn [map run_all]. rewrite exec_seq, forward_remote_no_target by auto.
    now apply IH.
  - intros Ha Hf.
    assert (H : exec (run_all (map forward_remote_syslog_iovec msgs)) w
                = with_trace (trace w ++ both_warnings msgs) w).
    { revert w Hfd Ha Hf.
      induction msgs as [|m msgs IH]; intros w Hfd Ha Hf.
      - cbn. rewrite app_nil_r. now destruct w.
      - cbn [map run_all]. rewrite exec_seq, forward_remote_not_inet by auto.
        rewrite IH by auto. unfold with_trace. cbn.
        now rewrite <- app_assoc. }
    rewrite H. split; [reflexivity|]. split; [reflexivity|].
    rewrite (new_events_app w _ (both_warnings msgs)) by reflexivity.
    apply both_warnings_count.
Qed.

(** *** The level filter *)

(** C10. When the severity of a message (the low three bits of its
    priority) is above [max_level_syslog], [server_forward_syslog]
    returns at once: no message is built, nothing is sent or logged, and
    the server and the rest of the world are as before. The same test
    stands at the head of [forward_syslog_raw]. *)
Theorem forward_syslog_level_filter (prio : Z) (identifier : option string)
  (text buffer : string) (ucred : option ucred) (tv : option timeval)
  (w : World) :
  0 <= prio <= 999 ->
  Z.land prio 7 > max_level_syslog (server w) ->
  server_forward_syslog prio identifier text ucred tv w = (tt, w)
  /\ forward_syslog_raw prio buffer ucred tv w = (tt, w).
Proof.
  intros _ H.
  unfold server_forward_syslog, forward_syslog_raw, bind, get_server, ret,
    LOG_PRI, LOG_PRIMASK.
  apply Z.gt_lt, Z.gtb_lt in H. now rewrite H.
Qed.

(** *** The sends of a call, in their order *)

Lemma forward_syslog_iovec_sends_first (iovec : list string)
  (ucred : option ucred) (tv : option timeval) (w : World) :
  exists rest,
    trace (exec (forward_syslog_iovec iovec ucred tv) w)
    = (trace w ++ relay_send (server w) iovec ucred :: rest)%list.
Proof.
  run_relay.
  destruct (sendmsg_result (sendmsg_calls w)) as [n|e]; cbn;
    [rewrite sendmsg_ok_nonneg; cbn; now eexists|].
  destruct (e =? EAGAIN); cbn; [now eexists|].
  destruct ucred as [u|]; cbn;
    [destruct ((e =? ESRCH) || (e =? EPERM)); cbn|];
    try (destruct (negb (e =? ENOENT)); cbn; rewrite <- ?app_assoc;
         now eexists).
  destruct (sendmsg_result (S (sendmsg_calls w))) as [n2|e2]; cbn;
    [rewrite sendmsg_ok_nonneg; cbn; rewrite <- ?app_assoc; now eexists|].
  destruct (e2 =? EAGAIN); cbn; [rewrite <- ?app_assoc; now eexists|].
  destruct (negb (e2 =? ENOENT)); cbn; rewrite <- ?app_assoc; now eexists.
Qed.

Lemma forward_remote_extends_trace (iovec : list string) (w : World) :
  exists more,
    trace (exec (forward_remote_syslog_iovec iovec) w)
    = (trace w ++ more)%list.
Proof.
  run_remote.
  destruct (remote_syslog_fd (server w) >? 0); cbn.
  - destruct (remote_syslog_fd (server w) =? 0); cbn;
      [exists []; now rewrite app_nil_r|].
    destruct (sendmsg_result (sendmsg_calls w)); cbn; now eexists.
  - destruct (sin_addr (remote_syslog_dest (server w)) =? INADDR_NONE); cbn;
      [exists []; now rewrite app_nil_r|].
    destruct (negb (sin_family (remote_syslog_dest (server w)) =? AF_INET));
      cbn; [rewrite <- ?app_assoc; now eexists|].
    destruct (socket_result (socket_calls w)) as [n|e]; cbn.
    + destruct (Z.of_N n <? 0); cbn; [rewrite <- ?app_assoc; now eexists|].
      destruct (Z.of_N n =? 0); cbn; [rewrite <- ?app_assoc; now eexists|].
      destruct (sendmsg_result (sendmsg_calls w)); cbn;
        rewrite <- ?app_assoc; now eexists.
    + rewrite <- ?app_assoc; now eexists.
Qed.

Lemma forward_both_relay_first (array : list string) (n : Z)
  (ucred : option ucred) (tv : option timeval) (w : World) :
  forward_to_syslog (server w) = true ->
  exists rest,
    new_events w (exec (forward_both array n ucred tv) w)
    = relay_send (server w) (firstn (Z.to_nat n) array) ucred :: rest.
Proof.
  intros H. unfold forward_both.
  unfold exec at 1, bind at 1, get_server at 1. rewrite H.
  destruct (forward_syslog_iovec_sends_first (firstn (Z.to_nat n) array)
              ucred tv w) as [r1 H1].
  unfold exec in H1.
  destruct (forward_syslog_iovec (firstn (Z.to_nat n) array) ucred tv w)
    as [[] w1] eqn:E1.
  cbn in H1. unfold bind at 1. rewrite E1.
  unfold bind, get_server.
  destruct (forward_to_remote_syslog (server w1)).
  - destruct (forward_remote_extends_trace (firstn (Z.to_nat n) array) w1)
      as [r2 H2].
    fold (exec (forward_remote_syslog_iovec (firstn (Z.to_nat n) array)) w1).
    exists (r1 ++ r2)%list. apply new_events_app.
    rewrite H2, H1, <- app_assoc. reflexivity.
  - exists r1. now apply new_events_app.
Qed.

(** ** Further properties of the code *)

(** *** syslog_fixup_facility *)

Lemma severity_cases (p : Z) :
  let s := Z.land p 7 in
  s = 0 \/ s = 1 \/ s = 2 \/ s = 3 \/ s = 4 \/ s = 5 \/ s = 6 \/ s = 7.
Proof.
  cbv zeta. change (Z.land p 7) with (Z.land p (Z.ones 3)).
  rewrite Z.land_ones by lia.
  pose proof (Z.mod_pos_bound p (2 ^ 3)). lia.
Qed.

(** X1. [syslog_fixup_facility] always yields a priority with a facility:
    a priority that has facility bits is returned as it is; one that has
    none comes back as its severity under the user facility (and without
    any bit above the facility field). The severity never changes, and
    fixing up twice is fixing up once. *)
Theorem fixup_facility_sets_user (prio : Z) :
  Z.land (syslog_fixup_facility prio) LOG_FACMASK <> 0
  /\ LOG_PRI (syslog_fixup_facility prio) = LOG_PRI prio
  /\ (Z.land prio LOG_FACMASK <> 0 -> syslog_fixup_facility prio = prio)
  /\ (Z.land prio LOG_FACMASK = 0 ->
      syslog_fixup_facility prio = LOG_PRI prio + 8
      /\ LOG_FAC (syslog_fixup_facility prio) = 1)
  /\ syslog_fixup_facility (syslog_fixup_facility prio)
     = syslog_fixup_facility prio.
Proof.
  assert (Hzero : Z.land prio LOG_FACMASK = 0 ->
                  syslog_fixup_facility prio = LOG_PRI prio + 8
                  /\ Z.land (syslog_fixup_facility prio) LOG_FACMASK = 8
                  /\ LOG_PRI (syslog_fixup_facility prio) = LOG_PRI prio
                  /\ LOG_FAC (syslog_fixup_facility prio) = 1).
  { intros H. unfold syslog_fixup_facility, LOG_FAC. rewrite H. cbn [Z.eqb].
    unfold LOG_PRI, LOG_PRIMASK, LOG_USER, LOG_FACMASK.
    destruct (severity_cases prio) as [E|[E|[E|[E|[E|[E|[E|E]]]]]]];
      rewrite E; repeat split; reflexivity. }
  assert (Hkeep : forall p, Z.land p LOG_FACMASK <> 0 ->
                            syslog_fixup_facility p = p).
  { intros p H. unfold syslog_fixup_facility.
    apply Z.eqb_neq in H. now rewrite H. }
  destruct (Z.eq_dec (Z.land prio LOG_FACMASK) 0) as [Hz|Hnz].
  - destruct (Hzero Hz) as (E1 & E2 & E3 & E4).
    split; [rewrite E2; discriminate|].
    split; [exact E3|].
    split; [intros H; contradiction|].
    split; [intros _; now split|].
    apply Hkeep. rewrite E2. discriminate.
  - rewrite (Hkeep prio Hnz).
    split; [exact Hnz|]. split; [reflexivity|].
    split; [reflexivity|]. split; [intros H; contradiction|].
    now apply Hkeep.
Qed.

(** *** More of the synthesizer *)

Lemma fill_iovec_result (sm : SyslogMessage) (iovec : list string) (n : Z) :
  10 <= n ->
  exists sm',
    syslog_fill_iovec sm iovec n
    = (10, sm', (rfc5424_fragments sm ++ skipn 10 iovec)%list, 10)
    /\ priority sm' = limit_facility (priority sm).
Proof.
  intros Hn. unfold syslog_fill_iovec, rfc5424_fragments,
    timestamp_fragment, procid_fragment.
  replace (n <? 10) with false by (symmetry; apply Z.ltb_ge; lia).
  destruct (strftime _ _ _) as [t|]; cbn;
    [destruct t; cbn|]; destruct (procid sm =? 0); cbn;
    eexists; split; reflexivity.
Qed.

(** X2. Whatever non-negative priority a record holds, the priority that
    [syslog_fill_iovec] leaves in it and renders lies in the range 0..191
    that RFC 5424 allows. *)
Theorem fill_iovec_priority_in_range (sm : SyslogMessage)
  (iovec : list string) (n_iovec : Z) :
  0 <= priority sm ->
  10 <= n_iovec ->
  let '(_, sm', iovec', _) := syslog_fill_iovec sm iovec n_iovec in
  0 <= priority sm' <= 191
  /\ nth_error iovec' 0 = Some ("<" ++ fmt_int (priority sm') ++ ">1 ").
Proof.
  intros Hp Hn.
  destruct (fill_iovec_result sm iovec n_iovec Hn) as (sm' & -> & Hprio).
  rewrite Hprio. split; [|reflexivity].
  unfold limit_facility.
  destruct (Z.shiftr (priority sm) 3 >? 23) eqn:E.
  - change (Z.land (priority sm) 7)
      with (Z.land (priority sm) (Z.ones 3)).
    rewrite Z.land_ones by lia.
    pose proof (Z.mod_pos_bound (priority sm) (2 ^ 3)).
    change (Z.shiftl 23 3) with 184. lia.
  - assert (Z.shiftr (priority sm) 3 <= 23)
      by (destruct (Z.gtb_spec (Z.shiftr (priority sm) 3) 23);
          [discriminate | lia]).
    rewrite Z.shiftr_div_pow2 in * by lia.
    pose proof (Z.div_mod (priority sm) (2 ^ 3)).
    pose proof (Z.mod_pos_bound (priority sm) (2 ^ 3)). lia.
Qed.

Lemma substring_whole (s : string) : substring 0 (String.length s) s = s.
Proof. induction s as [|c s IH]; cbn; [reflexivity | now rewrite IH]. Qed.

(** X3. The third fragment is the host name without a leading
    [_HOSTNAME=]: a host name [_HOSTNAME=h] is sent as [h], and a host
    name that does not begin so is sent as it is. *)
Theorem fill_iovec_strips_hostname_key (sm : SyslogMessage)
  (iovec : list string) (n_iovec : Z) (h : string) :
  10 <= n_iovec ->
  let '(_, _, iovec', _) := syslog_fill_iovec sm iovec n_iovec in
  (hostname sm = "_HOSTNAME=" ++ h -> nth_error iovec' 2 = Some h)
  /\ (prefix "_HOSTNAME=" (hostname sm) = false ->
      nth_error iovec' 2 = Some (hostname sm)).
Proof.
  intros Hn.
  destruct (fill_iovec_result sm iovec n_iovec Hn) as (sm' & -> & _).
  cbn [rfc5424_fragments app nth_error]. split.
  - intros ->. cbn.
    replace (prefix EmptyString h) with true by (now destruct h).
    unfold string_drop. cbn. now rewrite Nat.sub_0_r, substring_whole.
  - intros ->. unfold string_drop. rewrite Nat.sub_0_r.
    now rewrite substring_whole.
Qed.

(** *** What a local send may change *)

Lemma relay_events_are_not_diagnostics (fd : Z) (evs : list event) :
  Forall (to_relay fd) evs -> count_events is_driver_message evs = O.
Proof.
  unfold count_events. induction 1 as [|e evs He _ IH]; [reflexivity|].
  destruct e; cbn in *; auto. contradiction.
Qed.

Ltac relay_case :=
  eexists; split; [cbn; rewrite <- ?app_assoc; reflexivity|];
  cbn; repeat split; auto; try lia;
  repeat (apply Forall_cons; [cbn; auto|]); try apply Forall_nil.

Lemma relay_run (iovec : list string) (ucred : option ucred)
  (tv : option timeval) (w : World) :
  exists evs,
    trace (exec (forward_syslog_iovec iovec ucred tv) w)
    = (trace w ++ evs)%list
    /\ Forall (carries iovec) evs
    /\ Forall (to_relay (syslog_fd (server w))) evs
    /\ (server (exec (forward_syslog_iovec iovec ucred tv) w) = server w
        \/ server (exec (forward_syslog_iovec iovec ucred tv) w)
           = one_more_missed (server w))
    /\ socket_calls (exec (forward_syslog_iovec iovec ucred tv) w)
       = socket_calls w
    /\ clock_realtime (exec (forward_syslog_iovec iovec ucred tv) w)
       = clock_realtime w
    /\ clock_monotonic (exec (forward_syslog_iovec iovec ucred tv) w)
       = clock_monotonic w
    /\ (sendmsg_calls w
        < sendmsg_calls (exec (forward_syslog_iovec iovec ucred tv) w)
        <= sendmsg_calls w + 2)%nat.
Proof.
  run_relay.
  destruct (sendmsg_result (sendmsg_calls w)) as [n|e]; cbn;
    [rewrite sendmsg_ok_nonneg; cbn; relay_case|].
  destruct (e =? EAGAIN); cbn; [relay_case|].
  destruct ucred as [u|]; cbn;
    [destruct ((e =? ESRCH) || (e =? EPERM)); cbn|];
    try (destruct (negb (e =? ENOENT)); cbn; relay_case).
  destruct (sendmsg_result (S (sendmsg_calls w))) as [n2|e2]; cbn;
    [rewrite sendmsg_ok_nonneg; cbn; relay_case|].
  destruct (e2 =? EAGAIN); cbn; [relay_case|].
  destruct (negb (e2 =? ENOENT)); cbn; relay_case.
Qed.

Ltac relay_sent :=
  rewrite <- ?app_assoc; intros Ht;
  apply app_inv_head in Ht; subst; cbn; lia.

(** X4. Whatever the kernel answers, a call of [forward_syslog_iovec]
    leaves the server as it was or with the count of missed messages one
    higher, and nothing else of it changed; it opens no socket and sends
    once or twice. Every datagram it sends carries the fragments it was
    given, to the relay address, on [syslog_fd]; all it logs is logged at
    debug level. *)
Theorem forward_syslog_iovec_frame (iovec : list string)
  (ucred : option ucred) (tv : option timeval) (w : World) :
  let w' := exec (forward_syslog_iovec iovec ucred tv) w in
  (server w' = server w \/ server w' = one_more_missed (server w))
  /\ socket_calls w' = socket_calls w
  /\ (sendmsg_calls w < sendmsg_calls w' <= sendmsg_calls w + 2)%nat
  /\ count_events is_sendmsg (new_events w w')
     = (sendmsg_calls w' - sendmsg_calls w)%nat
  /\ Forall (carries iovec) (new_events w w')
  /\ Forall (to_relay (syslog_fd (server w))) (new_events w w')
  /\ count_events is_driver_message (new_events w w') = O.
Proof.
  cbv zeta.
  destruct (relay_run iovec ucred tv w)
    as (evs & Ht & Hc & Hr & Hs & Hk & _ & _ & Hn).
  rewrite (new_events_app _ _ _ Ht).
  repeat split; auto; try lia.
  - enough (count_events is_sendmsg evs + sendmsg_calls w
            = sendmsg_calls (exec (forward_syslog_iovec iovec ucred tv) w))%nat
      by lia.
    clear Hc Hr Hs Hk Hn. revert Ht. run_relay.
    destruct (sendmsg_result (sendmsg_calls w)) as [n|e]; cbn;
      [rewrite sendmsg_ok_nonneg; cbn; relay_sent|].
    destruct (e =? EAGAIN); cbn; [relay_sent|].
    destruct ucred as [u|]; cbn;
      [destruct ((e =? ESRCH) || (e =? EPERM)); cbn|];
      try (destruct (negb (e =? ENOENT)); cbn; relay_sent).
    destruct (sendmsg_result (S (sendmsg_calls w))) as [n2|e2]; cbn;
      [rewrite sendmsg_ok_nonneg; cbn; relay_sent|].
    destruct (e2 =? EAGAIN); cbn; [relay_sent|].
    destruct (negb (e2 =? ENOENT)); cbn; relay_sent.
  - eapply relay_events_are_not_diagnostics; eauto.
Qed.

(** *** The throttle, whatever the kernel answers *)

Lemma one_more_missed_keeps (s : Server) :
  last_warn_forward_syslog_missed (one_more_missed s)
  = last_warn_forward_syslog_missed s
  /\ syslog_fd (one_more_missed s) = syslog_fd s
  /\ remote_syslog_fd (one_more_missed s) = remote_syslog_fd s
  /\ remote_syslog_dest (one_more_missed s) = remote_syslog_dest s
  /\ forward_to_remote_syslog (one_more_missed s) = forward_to_remote_syslog s.
Proof. repeat split. Qed.

Lemma window_run (msgs : list (list string * option ucred)) :
  forall w : World,
    0 <= last_warn_forward_syslog_missed (server w) ->
    last_warn_forward_syslog_missed (server w)
      + WARN_FORWARD_SYSLOG_MISSED_USEC < 2 ^ 64 ->
    clock_monotonic w - last_warn_forward_syslog_missed (server w)
      < WARN_FORWARD_SYSLOG_MISSED_USEC ->
    exists evs,
      trace (exec (run_all (map send_and_check msgs)) w)
      = (trace w ++ evs)%list
      /\ Forall (to_relay (syslog_fd (server w))) evs
      /\ last_warn_forward_syslog_missed
           (server (exec (run_all (map send_and_check msgs)) w))
         = last_warn_forward_syslog_missed (server w).
Proof.
  induction msgs as [|m msgs IH]; intros w H0 H1 H2.
  - exists []. cbn. rewrite app_nil_r. auto.
  - cbn [map run_all]. rewrite exec_seq.
    replace (exec (send_and_check m) w)
      with (exec server_maybe_warn_forward_syslog_missed
              (exec (forward_syslog_iovec (fst m) (snd m) None) w))
      by (unfold send_and_check; now rewrite exec_seq).
    destruct (relay_run (fst m) (snd m) None w)
      as (evs & Ht & _ & Hr & Hs & _ & _ & Hc & _).
    set (w1 := exec (forward_syslog_iovec (fst m) (snd m) None) w) in *.
    assert (Hl : last_warn_forward_syslog_missed (server w1)
                 = last_warn_forward_syslog_missed (server w))
      by (destruct Hs as [-> | ->]; reflexivity).
    assert (Hf : syslog_fd (server w1) = syslog_fd (server w))
      by (destruct Hs as [-> | ->]; reflexivity).
    rewrite maybe_warn_too_early by (rewrite ?Hl, ?Hc; assumption).
    destruct (IH w1) as (evs' & Ht' & Hr' & Hl');
      try (rewrite ?Hl, ?Hc; assumption).
    exists (evs ++ evs')%list. rewrite Ht', Ht, <- app_assoc, Hl', Hl.
    split; [reflexivity|]. split; [|reflexivity].
    apply Forall_app. split; [exact Hr | now rewrite <- Hf].
Qed.

(** X5. While less than 30 seconds have passed since the last warning,
    no run of local sends, each followed by a look at the throttle, emits
    a diagnostic, whatever the kernel answers to the sends; the time of
    the last warning stays. *)
Theorem no_warning_inside_window (msgs : list (list string * option ucred))
  (w : World) :
  let last := last_warn_forward_syslog_missed (server w) in
  let w' := exec (run_all (map send_and_check msgs)) w in
  0 <= last ->
  last + 30 * 1000000 < 2 ^ 64 ->
  clock_monotonic w - last < 30 * 1000000 ->
  count_events is_driver_message (new_events w w') = O
  /\ last_warn_forward_syslog_missed (server w') = last.
Proof.
  cbv zeta. intros H0 H1 H2.
  destruct (window_run msgs w H0 H1 H2) as (evs & Ht & Hr & Hl).
  rewrite (new_events_app _ _ _ Ht). split; [|exact Hl].
  eapply relay_events_are_not_diagnostics; eauto.
Qed.

(** *** The remote forwarder with a target *)

Lemma remote_send_when_open (iovec : list string) (w : World) :
  remote_syslog_fd (server w) > 0 ->
  let w' := exec (forward_remote_syslog_iovec iovec) w in
  server w' = server w
  /\ trace w'
     = (trace w ++ [remote_send (server w) (remote_syslog_fd (server w)) iovec])%list
  /\ socket_calls w' = socket_calls w
  /\ sendmsg_calls w' = S (sendmsg_calls w).
Proof.
  intros Hfd. cbv zeta. run_remote.
  replace (remote_syslog_fd (server w) >? 0) with true
    by (symmetry; apply Z.gtb_lt; lia).
  cbn.
  replace (remote_syslog_fd (server w) =? 0) with false
    by (symmetry; apply Z.eqb_neq; lia).
  cbn. destruct (sendmsg_result (sendmsg_calls w)); cbn; auto.
Qed.

Lemma remote_sends_when_open (msgs : list (list string)) :
  forall w : World,
    remote_syslog_fd (server w) > 0 ->
    let w' := exec (run_all (map forward_remote_syslog_iovec msgs)) w in
    server w' = server w
    /\ trace w'
       = (trace w
          ++ map (remote_send (server w) (remote_syslog_fd (server w))) msgs)%list
    /\ socket_calls w' = socket_calls w.
Proof.
  induction msgs as [|m msgs IH]; intros w Hfd; cbv zeta.
  - cbn. rewrite app_nil_r. auto.
  - cbn [map run_all]. rewrite exec_seq.
    destruct (remote_send_when_open m w Hfd) as (Hs & Ht & Hk & _).
    destruct (IH (exec (forward_remote_syslog_iovec m) w)) as (Hs' & Ht' & Hk');
      [now rewrite Hs|].
    rewrite Hs', Ht', Hk', Hs, Ht, Hk, <- app_assoc. auto.
Qed.

(** X6. The remote socket is opened once. With an IPv4 target set and no
    socket open yet, the first message makes the forwarder log that a
    target is configured, call [socket()] and, given a descriptor above
    0, keep it in the server; that message and every later one is then
    sent in one datagram to the target, without credentials, and nothing
    more is logged or opened, whatever the sends answer. *)
Theorem forward_remote_opens_once (m : list string)
  (msgs : list (list string)) (n : N) (w : World) :
  let s := server w in
  let fd := Z.of_N n in
  let w' := exec (run_all (map forward_remote_syslog_iovec (m :: msgs))) w in
  remote_syslog_fd s <= 0 ->
  sin_addr (remote_syslog_dest s) <> INADDR_NONE ->
  sin_family (remote_syslog_dest s) = AF_INET ->
  socket_result (socket_calls w) = Ok n ->
  0 < fd ->
  server w' = with_remote_syslog_fd fd s
  /\ new_events w w'
     = remote_target_warning :: remote_socket
       :: map (remote_send s fd) (m :: msgs)
  /\ socket_calls w' = S (socket_calls w).
Proof.
  cbv zeta. intros Hfd Ha Hf Hsock Hpos.
  cbn [map run_all]. rewrite exec_seq.
  assert (H1 : exec (forward_remote_syslog_iovec m) w
               = (let w1 :=
                    with_sendmsg_calls (S (sendmsg_calls w))
                      (with_trace
                         (trace w ++ [remote_target_warning; remote_socket;
                                      remote_send (server w) (Z.of_N n) m])
                         (with_server
                            (with_remote_syslog_fd (Z.of_N n) (server w))
                            (with_socket_calls (S (socket_calls w)) w))) in
                  match sendmsg_result (sendmsg_calls w) with
                  | Ok _ => w1
                  | Fail e => with_errno e w1
                  end)).
  { run_remote.
    replace (remote_syslog_fd (server w) >? 0) with false
      by (symmetry; destruct (Z.gtb_spec (remote_syslog_fd (server w)) 0);
          [lia | reflexivity]).
    apply Z.eqb_neq in Ha. rewrite Ha, Hf. cbn. rewrite Hsock. cbn.
    replace (Z.of_N n <? 0) with false by (symmetry; apply Z.ltb_ge; lia).
    cbn.
    replace (Z.of_N n =? 0) with false by (symmetry; apply Z.eqb_neq; lia).
    cbn. unfold with_trace, with_sendmsg_calls, remote_send. cbn.
    rewrite <- !app_assoc. cbn.
    destruct (sendmsg_result (sendmsg_calls w)); reflexivity. }
  set (w1 := exec (forward_remote_syslog_iovec m) w) in *.
  assert (Hs1 : server w1 = with_remote_syslog_fd (Z.of_N n) (server w))
    by (rewrite H1; cbv zeta; now destruct (sendmsg_result _)).
  assert (Ht1 : trace w1
                = (trace w ++ [remote_target_warning; remote_socket;
                               remote_send (server w) (Z.of_N n) m])%list)
    by (rewrite H1; cbv zeta; now destruct (sendmsg_result _)).
  assert (Hk1 : socket_calls w1 = S (socket_calls w))
    by (rewrite H1; cbv zeta; now destruct (sendmsg_result _)).
  destruct (remote_sends_when_open msgs w1) as (Hs & Ht & Hk);
    [rewrite Hs1; cbn; lia|].
  rewrite Hs, Hk, Hs1, Hk1. split; [reflexivity|]. split; [|reflexivity].
  apply new_events_app. rewrite Ht, Ht1, Hs1, <- app_assoc. reflexivity.
Qed.

(** X7. When [socket()] gives the remote forwarder nothing it can use,
    the message is not sent. If the call fails, the failure is logged as
    an error and the server stays as it was; if it returns descriptor 0,
    that is stored but taken for no socket. Either way the socket counts
    as not open, so the next message calls [socket()] again. *)
Theorem forward_remote_without_socket (iovec : list string) (w : World) :
  let s := server w in
  let w' := exec (forward_remote_syslog_iovec iovec) w in
  remote_syslog_fd s <= 0 ->
  sin_addr (remote_syslog_dest s) <> INADDR_NONE ->
  sin_family (remote_syslog_dest s) = AF_INET ->
  (forall e, socket_result (socket_calls w) = Fail e ->
     server w' = s
     /\ new_events w w'
        = [remote_target_warning; remote_socket; remote_socket_failed]
     /\ errno w' = e)
  /\ (socket_result (socket_calls w) = Ok 0%N ->
      server w' = with_remote_syslog_fd 0 s
      /\ new_events w w' = [remote_target_warning; remote_socket])
  /\ (socket_result (socket_calls w) = Ok 0%N
      \/ (exists e, socket_result (socket_calls w) = Fail e) ->
      remote_syslog_fd (server w') <= 0
      /\ sendmsg_calls w' = sendmsg_calls w
      /\ socket_calls w' = S (socket_calls w)).
Proof.
  cbv zeta. intros Hfd Ha Hf.
  assert (Hclosed : (remote_syslog_fd (server w) >? 0) = false)
    by (destruct (Z.gtb_spec (remote_syslog_fd (server w)) 0);
        [lia | reflexivity]).
  apply Z.eqb_neq in Ha.
  split; [|split].
  - intros e He. run_remote. rewrite Hclosed, Ha, Hf. cbn. rewrite He. cbn.
    repeat split. apply new_events_app. cbn.
    now rewrite <- !app_assoc.
  - intros He. run_remote. rewrite Hclosed, Ha, Hf. cbn. rewrite He. cbn.
    split; [reflexivity|]. apply new_events_app. cbn.
    now rewrite <- !app_assoc.
  - intros [He | [e He]]; run_remote; rewrite Hclosed, Ha, Hf; cbn;
      rewrite He; cbn; repeat split; lia.
Qed.

Ltac remote_case :=
  cbn; rewrite <- ?app_assoc;
  first [ exists []; split; [now rewrite app_nil_r|]
        | eexists; split; [reflexivity|] ];
  cbn; split; [repeat constructor|]; split; [lia|]; eauto.

Lemma remote_run (iovec : list string) (w : World) :
  exists evs,
    trace (exec (forward_remote_syslog_iovec iovec) w) = (trace w ++ evs)%list
    /\ Forall (carries iovec) evs
    /\ (count_events is_sendmsg evs <= 1)%nat
    /\ (server (exec (forward_remote_syslog_iovec iovec) w) = server w
        \/ exists fd,
             server (exec (forward_remote_syslog_iovec iovec) w)
             = with_remote_syslog_fd fd (server w)).
Proof.
  run_remote.
  destruct (remote_syslog_fd (server w) >? 0); cbn.
  - destruct (remote_syslog_fd (server w) =? 0); [remote_case|].
    destruct (sendmsg_result (sendmsg_calls w)); remote_case.
  - destruct (sin_addr (remote_syslog_dest (server w)) =? INADDR_NONE);
      [remote_case|].
    destruct (negb (sin_family (remote_syslog_dest (server w)) =? AF_INET));
      [remote_case|].
    cbn. destruct (socket_result (socket_calls w)) as [n|e]; cbn;
      [|remote_case].
    destruct (Z.of_N n <? 0); [remote_case|].
    cbn. destruct (Z.of_N n =? 0); [remote_case|].
    cbn. destruct (sendmsg_result (sendmsg_calls w)); remote_case.
Qed.

(** X8. Whatever the kernel answers, a call of the remote forwarder
    sends at most one datagram, carrying the fragments it was given, and
    changes nothing of the server but, at most, the descriptor of the
    remote socket: a remote send that fails is never counted as a missed
    message. *)
Theorem forward_remote_frame (iovec : list string) (w : World) :
  let w' := exec (forward_remote_syslog_iovec iovec) w in
  (count_events is_sendmsg (new_events w w') <= 1)%nat
  /\ Forall (carries iovec) (new_events w w')
  /\ (server w' = server w
      \/ exists fd, server w' = with_remote_syslog_fd fd (server w))
  /\ n_forward_syslog_missed (server w') = n_forward_syslog_missed (server w)
  /\ last_warn_forward_syslog_missed (server w')
     = last_warn_forward_syslog_missed (server w)
  /\ syslog_fd (server w') = syslog_fd (server w).
Proof.
  cbv zeta.
  destruct (remote_run iovec w) as (evs & Ht & Hc & Hn & Hs).
  rewrite (new_events_app _ _ _ Ht).
  split; [exact Hn|]. split; [exact Hc|]. split; [exact Hs|].
  destruct Hs as [-> | [fd ->]]; repeat split.
Qed.

(** *** What server_forward_syslog sends *)

Lemma forward_both_exec (array : list string) (n : Z) (ucred : option ucred)
  (tv : option timeval) (w : World) :
  exec (forward_both array n ucred tv) w
  = (let w1 :=
       if forward_to_syslog (server w)
       then exec (forward_syslog_iovec (firstn (Z.to_nat n) array) ucred tv) w
       else w in
     if forward_to_remote_syslog (server w1)
     then exec (forward_remote_syslog_iovec (firstn (Z.to_nat n) array)) w1
     else w1).
Proof.
  unfold forward_both, exec, bind, get_server, ret. cbn [fst snd].
  destruct (forward_to_syslog (server w)).
  - destruct (forward_syslog_iovec (firstn (Z.to_nat n) array) ucred tv w)
      as [[] w1]. cbn [snd].
    now destruct (forward_to_remote_syslog (server w1)).
  - now destruct (forward_to_remote_syslog (server w)).
Qed.

Lemma forward_both_carries (array : list string) (n : Z)
  (ucred : option ucred) (tv : option timeval) (w : World) :
  exists evs,
    trace (exec (forward_both array n ucred tv) w) = (trace w ++ evs)%list
    /\ Forall (carries (firstn (Z.to_nat n) array)) evs.
Proof.
  rewrite forward_both_exec. cbv zeta.
  assert (Hw : exists evs1 w1,
             w1 = (if forward_to_syslog (server w)
                   then exec (forward_syslog_iovec
                                (firstn (Z.to_nat n) array) ucred tv) w
                   else w)
             /\ trace w1 = (trace w ++ evs1)%list
             /\ Forall (carries (firstn (Z.to_nat n) array)) evs1).
  { destruct (forward_to_syslog (server w)).
    - destruct (relay_run (firstn (Z.to_nat n) array) ucred tv w)
        as (evs & Ht & Hc & _). eauto.
    - exists [], w. rewrite app_nil_r. auto. }
  destruct Hw as (evs1 & w1 & <- & Ht1 & Hc1).
  destruct (forward_to_remote_syslog (server w1)).
  - destruct (remote_run (firstn (Z.to_nat n) array) w1)
      as (evs2 & Ht2 & Hc2 & _).
    exists (evs1 ++ evs2)%list. rewrite Ht2, Ht1, <- app_assoc.
    split; [reflexivity | now apply Forall_app].
  - eauto.
Qed.

Lemma server_forward_syslog_exec (prio : Z) (identifier : option string)
  (text : string) (ucred : option ucred) (tv : option timeval) (w : World)
  (lt : tm) :
  Z.land prio 7 <= max_level_syslog (server w) ->
  localtime_r (message_time_of tv w) = Some lt ->
  exec (server_forward_syslog prio identifier text ucred tv) w
  = exec (forward_both
            (forwarded_fragments (server w) prio identifier text ucred lt
             ++ skipn 10 (firstn 10 stack_iovec))%list
            10 ucred tv) w.
Proof.
  intros Hlevel Hlt.
  assert (Hpass : (LOG_PRI prio >? max_level_syslog (server w)) = false).
  { unfold LOG_PRI, LOG_PRIMASK.
    destruct (Z.gtb_spec (Z.land prio 7) (max_level_syslog (server w)));
      [lia | reflexivity]. }
  assert (Htime : forall (A : Type) (k : Z -> M A),
             bind (message_time tv) k w = k (message_time_of tv w) w).
  { intros A k. unfold message_time, message_time_of, bind, now_realtime, ret.
    now destruct tv. }
  unfold exec at 1, server_forward_syslog.
  unfold bind at 1, get_server at 1. rewrite Hpass, Htime, Hlt.
  match goal with
  | |- context [syslog_fill_iovec ?S ?I ?N] =>
      destruct (fill_iovec_result S I N) as (sm' & Hfill & _);
        [lia | rewrite Hfill];
        replace (rfc5424_fragments S)
          with (forwarded_fragments (server w) prio identifier text ucred lt)
  end.
  - reflexivity.
  - unfold forwarded_fragments, rfc5424_fragments, forwarded_hostname,
      forwarded_appname, forwarded_procid.
    destruct (hostname_field (server w)) as [h|]; cbn [isempty negb];
      [destruct (String.eqb h EmptyString); cbn [negb]|];
      destruct ucred as [uc|]; destruct identifier as [i|];
      try destruct (get_process_comm (pid uc)); reflexivity.
Qed.

Lemma forward_both_remote_last (array : list string) (n : Z)
  (ucred : option ucred) (tv : option timeval) (w : World) :
  forward_to_remote_syslog (server w) = true ->
  remote_syslog_fd (server w) > 0 ->
  exists before,
    new_events w (exec (forward_both array n ucred tv) w)
    = (before
       ++ [remote_send (server w) (remote_syslog_fd (server w))
             (firstn (Z.to_nat n) array)])%list.
Proof.
  intros Hon Hfd. rewrite forward_both_exec. cbv zeta.
  assert (Hw : exists evs1 w1,
             w1 = (if forward_to_syslog (server w)
                   then exec (forward_syslog_iovec
                                (firstn (Z.to_nat n) array) ucred tv) w
                   else w)
             /\ trace w1 = (trace w ++ evs1)%list
             /\ (server w1 = server w
                 \/ server w1 = one_more_missed (server w))).
  { destruct (forward_to_syslog (server w)).
    - destruct (relay_run (firstn (Z.to_nat n) array) ucred tv w)
        as (evs & Ht & _ & _ & Hs & _). eauto.
    - exists [], w. rewrite app_nil_r. auto. }
  destruct Hw as (evs1 & w1 & <- & Ht1 & Hs1).
  assert (Hkeep : forward_to_remote_syslog (server w1) = true
                  /\ remote_syslog_fd (server w1) = remote_syslog_fd (server w)
                  /\ remote_syslog_dest (server w1)
                     = remote_syslog_dest (server w))
    by (destruct Hs1 as [-> | ->]; repeat split; exact Hon).
  destruct Hkeep as (Hon1 & Hfd1 & Hdest1). rewrite Hon1.
  destruct (remote_send_when_open (firstn (Z.to_nat n) array) w1)
    as (_ & Ht2 & _); [now rewrite Hfd1|].
  exists evs1. apply new_events_app.
  rewrite Ht2, Ht1, <- app_assoc. unfold remote_send.
  now rewrite Hfd1, Hdest1.
Qed.

(** X9. A message that passes the level filter and whose time converts
    is sent as these ten fragments: the priority with its facility
    limited, the time, the host name of the server (["-"] when it has
    none), a space, the identifier given (or else the command name of
    the sender, or ["-"]), a space, the pid of the sender in brackets
    (["- "] without credentials), ["-"], [" - "] and the text. With local
    forwarding on, the first thing sent is that message with the
    credentials of the sender; with remote forwarding on and the remote
    socket open, the last thing sent is the same message to the remote
    target; every datagram of the call carries these fragments. *)
Theorem server_forward_syslog_datagram (prio : Z)
  (identifier : option string) (text : string) (ucred : option ucred)
  (tv : option timeval) (w : World) (lt : tm) :
  let s := server w in
  let w' := exec (server_forward_syslog prio identifier text ucred tv) w in
  let fragments := forwarded_fragments s prio identifier text ucred lt in
  Z.land prio 7 <= max_level_syslog s ->
  localtime_r (message_time_of tv w) = Some lt ->
  (forward_to_syslog s = true ->
   exists rest, new_events w w' = relay_send s fragments ucred :: rest)
  /\ (forward_to_remote_syslog s = true -> remote_syslog_fd s > 0 ->
      exists before,
        new_events w w'
        = (before ++ [remote_send s (remote_syslog_fd s) fragments])%list)
  /\ Forall (carries fragments) (new_events w w').
Proof.
  cbv zeta. intros Hlevel Hlt.
  rewrite (server_forward_syslog_exec _ _ _ _ _ _ lt Hlevel Hlt).
  set (array := (forwarded_fragments (server w) prio identifier text ucred lt
                 ++ skipn 10 (firstn 10 stack_iovec))%list).
  assert (Hten : firstn (Z.to_nat 10) array
                 = forwarded_fragments (server w) prio identifier text ucred lt)
    by reflexivity.
  split; [|split].
  - intros Hon.
    destruct (forward_both_relay_first array 10 ucred tv w Hon) as [rest H].
    exists rest. now rewrite H, Hten.
  - intros Hon Hfd.
    destruct (forward_both_remote_last array 10 ucred tv w Hon Hfd)
      as [before H].
    exists before. now rewrite H, Hten.
  - destruct (forward_both_carries array 10 ucred tv w) as (evs & Ht & Hc).
    rewrite (new_events_app _ _ _ Ht). now rewrite <- Hten.
Qed.

(** X10. With local and remote forwarding both switched off, neither
    [server_forward_syslog] nor the forwarding half of
    [server_process_syslog_message] does anything: the world is as
    before, whatever the message. *)
Theorem forwarding_switched_off (prio : Z) (identifier : option string)
  (text : string) (sm : SyslogMessage) (iovec : list string)
  (ucred : option ucred) (tv : option timeval) (w : World) :
  forward_to_syslog (server w) = false ->
  forward_to_remote_syslog (server w) = false ->
  exec (server_forward_syslog prio identifier text ucred tv) w = w
  /\ exec (process_syslog_forward sm iovec ucred tv) w = w.
Proof.
  intros Hoff Hoff'.
  assert (Hboth : forall array n, exec (forward_both array n ucred tv) w = w)
    by (intros; rewrite forward_both_exec; cbv zeta; now rewrite Hoff, Hoff').
  assert (Htime : forall (A : Type) (k : Z -> M A),
             bind (message_time tv) k w = k (message_time_of tv w) w).
  { intros A k. unfold message_time, message_time_of, bind, now_realtime, ret.
    now destruct tv. }
  split.
  - unfold exec at 1, server_forward_syslog.
    unfold bind at 1, get_server at 1.
    destruct (LOG_PRI prio >? max_level_syslog (server w)); [reflexivity|].
    rewrite Htime.
    destruct (localtime_r (message_time_of tv w)); [|reflexivity].
    match goal with
    | |- context [syslog_fill_iovec ?S ?I ?N] =>
        destruct (syslog_fill_iovec S I N) as [[[r sm1] iov1] n1]
    end.
    destruct (r <=? 0); [reflexivity | apply Hboth].
  - unfold exec at 1, process_syslog_forward. rewrite Htime.
    destruct (localtime_r (message_time_of tv w)); [|reflexivity].
    match goal with
    | |- context [syslog_fill_iovec ?S ?I ?N] =>
        destruct (syslog_fill_iovec S I N) as [[[r sm1] iov1] n1]
    end.
    destruct (r <=? 0); [reflexivity | apply Hboth].
Qed.

(** *** The parser stays inside its buffer *)

(** X11. [syslog_skip_date] keeps the buffer and leaves the cursor where
    it was or sixteen bytes on; in the second case those sixteen bytes
    all lie before the terminator, so a cursor inside the buffer stays
    inside. *)
Theorem skip_date_stays_inside (buf : cursor) :
  let buf' := syslog_skip_date buf in
  base buf' = base buf
  /\ (off buf' = off buf
      \/ off buf' = (off buf + 16)%nat
         /\ (off buf + 16 <= length (base buf))%nat
         /\ forall i, (i < 16)%nat -> mem_at (base buf) (off buf + i) <> NUL).
Proof.
  cbv zeta. unfold syslog_skip_date.
  destruct (skip_date_loop sequence (base buf) (off buf)) as [q|] eqn:E;
    [|auto].
  pose proof (skip_date_loop_sound _ _ _ _ E) as Hm.
  rewrite (skip_date_loop_complete _ _ _ Hm) in E. injection E as <-.
  cbn. split; [reflexivity|]. right. split; [reflexivity|]. split.
  - destruct (Hm 15%nat SPACE eq_refl) as (Hlt & _). lia.
  - intros i Hi.
    destruct (nth_error sequence i) as [c|] eqn:Hc.
    + now destruct (Hm i c Hc) as (_ & Hn & _).
    + apply nth_error_None in Hc. cbn in Hc. lia.
Qed.

Lemma strspn_le (s accept : list ascii) : (strspn s accept <= length s)%nat.
Proof.
  induction s as [|c s IH]; cbn; [lia|].
  destruct (is_nul c); [lia|]. destruct (char_in c accept); lia.
Qed.

Lemma strcspn_le (s reject : list ascii) : (strcspn s reject <= length s)%nat.
Proof.
  induction s as [|c s IH]; cbn; [lia|].
  destruct (is_nul c); [lia|]. destruct (char_in c reject); lia.
Qed.

(** X12. Whenever [syslog_parse_identifier] returns, the cursor it
    leaves points into the same buffer, not before the place it started
    from and not past the terminator; the count it returns is not more
    than the cursor moved. It returns 0 only when it recognised nothing,
    and then the cursor, the identifier and the pid are untouched. *)
Theorem parse_identifier_stays_inside (alloc_pid alloc_identifier : bool)
  (buf : cursor) (identifier pid : option string) (r : parsed) :
  (off buf <= length (base buf))%nat ->
  Z.of_nat (length (base buf)) < 2 ^ 64 ->
  syslog_parse_identifier alloc_pid alloc_identifier buf identifier pid
  = Returns r ->
  base (buf_out r) = base buf
  /\ (off buf <= off (buf_out r) <= length (base buf))%nat
  /\ 0 <= consumed r <= Z.of_nat (off (buf_out r) - off buf)
  /\ (consumed r = 0 ->
      buf_out r = buf /\ identifier_out r = identifier /\ pid_out r = pid).
Proof.
  intros Hoff Hsz. unfold syslog_parse_identifier. cbv zeta.
  set (b := base buf) in *.
  set (p := (off buf + strspn (skipn (off buf) b) WHITESPACE)%nat).
  set (l := strcspn (skipn p b) WHITESPACE).
  set (s2 := strspn (skipn (p + Z.to_nat (Z.of_nat l)) b) WHITESPACE).
  assert (H1 : (p <= length b)%nat).
  { unfold p. pose proof (strspn_le (skipn (off buf) b) WHITESPACE) as H.
    rewrite length_skipn in H. lia. }
  assert (H2 : (p + l <= length b)%nat).
  { unfold l. pose proof (strcspn_le (skipn p b) WHITESPACE) as H.
    rewrite length_skipn in H. lia. }
  assert (H3 : (p + l + s2 <= length b)%nat).
  { unfold s2. rewrite Nat2Z.id.
    pose proof (strspn_le (skipn (p + l) b) WHITESPACE) as H.
    rewrite length_skipn in H. lia. }
  assert (Hp : (off buf <= p)%nat) by (unfold p; lia).
  assert (Hw : wrap64 (Z.of_nat l + Z.of_nat s2) = Z.of_nat (l + s2)).
  { unfold wrap64. rewrite Z.mod_small; lia. }
  destruct ((Z.of_nat l <=? 0) || _) eqn:Hguard.
  - intros [= <-]. cbn. repeat split; auto; lia.
  - apply orb_false_iff in Hguard as [Hl _]. apply Z.leb_gt in Hl.
    assert (Hfinish : forall l' pid' r',
      Returns
        (mk_parsed (wrap64 (Z.of_nat l + Z.of_nat s2))
           (mk_cursor b (p + Z.to_nat (wrap64 (Z.of_nat l + Z.of_nat s2))))
           match strndup alloc_identifier (skipn p b) l' with
           | Some t => Some t
           | None => identifier
           end pid') = Returns r' ->
      base (buf_out r') = b
      /\ (off buf <= off (buf_out r') <= length b)%nat
      /\ 0 <= consumed r' <= Z.of_nat (off (buf_out r') - off buf)
      /\ (consumed r' = 0 ->
          buf_out r' = buf /\ identifier_out r' = identifier
          /\ pid_out r' = pid)).
    { intros l' pid' r' [= <-]. cbn. rewrite Hw, Nat2Z.id.
      repeat split; try lia. }
    destruct (deref b p (wrap64 (Z.of_nat l - 1 - 1))) as [ch|];
      [|discriminate].
    destruct (Ascii.eqb ch "]"); [|apply Hfinish].
    destruct (find_open_bracket _ _ _) as [[[a k]|]|];
      [apply Hfinish | apply Hfinish | discriminate].
Qed.

(** *** Tokens that end in a colon *)

Lemma find_open_bracket_returns (b : list ascii) (p : nat) :
  forall n, exists res,
    find_open_bracket b (p + n) (Z.of_nat n) = Returns res.
Proof.
  induction n as [|n [res IH]]; rewrite find_open_bracket_eq.
  - destruct (Ascii.eqb _ _); [eauto|]. cbn. eauto.
  - destruct (Ascii.eqb _ _); [eauto|].
    replace (Z.of_nat (S n) =? 0) with false
      by (symmetry; apply Z.eqb_neq; lia).
    rewrite Nat.add_succ_r.
    replace (Z.of_nat (S n) - 1) with (Z.of_nat n) by lia.
    eauto.
Qed.

Lemma find_open_bracket_none (b : list ascii) (p : nat) :
  forall n,
    (forall i, (i <= n)%nat -> mem_at b (p + i) <> "["%char) ->
    find_open_bracket b (p + n) (Z.of_nat n) = Returns None.
Proof.
  induction n as [|n IH]; intros Hno; rewrite find_open_bracket_eq.
  - replace (Ascii.eqb (mem_at b (p + 0)) "[") with false
      by (symmetry; apply Ascii.eqb_neq, Hno; lia).
    reflexivity.
  - replace (Ascii.eqb (mem_at b (p + S n)) "[") with false
      by (symmetry; apply Ascii.eqb_neq, Hno; lia).
    replace (Z.of_nat (S n) =? 0) with false
      by (symmetry; apply Z.eqb_neq; lia).
    rewrite Nat.add_succ_r.
    replace (Z.of_nat (S n) - 1) with (Z.of_nat n) by lia.
    apply IH. intros i Hi. apply Hno. lia.
Qed.

Lemma parse_identifier_guard (alloc_pid alloc_identifier : bool)
  (buf : cursor) (ws token tail : list ascii) (identifier pid : option string) :
  token_at buf ws token tail ->
  token = [] \/ last token NUL <> ":"%char ->
  syslog_parse_identifier alloc_pid alloc_identifier buf identifier pid
  = Returns (mk_parsed 0 buf identifier pid).
Proof.
  intros Hat Htok.
  destruct (token_at_scans _ _ _ _ Hat) as (Hp & Hs & Hl).
  unfold syslog_parse_identifier. cbv zeta. rewrite Hl.
  destruct token as [|c token]; [reflexivity|].
  destruct Htok as [|Hlast]; [discriminate|].
  rewrite Hp in Hs |- *.
  replace (Z.to_nat (Z.of_nat (length (c :: token)) - 1))
    with (length (c :: token) - 1)%nat by lia.
  rewrite mem_at_skipn, Hs, nth_last_app by discriminate.
  apply Ascii.eqb_neq in Hlast. rewrite Hlast.
  now rewrite orb_true_r.
Qed.

Lemma last_app_one (body : list ascii) (c : ascii) :
  last (body ++ [c]) NUL = c.
Proof. apply last_last. Qed.

(** What the function comes to on a token [body:] with a body. *)
Lemma parse_identifier_colon (alloc_pid alloc_identifier : bool)
  (buf : cursor) (ws body tail : list ascii) (identifier pid : option string) :
  token_at buf ws (body ++ [":"%char]) tail ->
  body <> [] ->
  let b := base buf in
  let q := (off buf + length ws)%nat in
  let e := (length body + 1 + strspn tail WHITESPACE)%nat in
  let finish (l : Z) (pid : option string) :=
    Returns
      (mk_parsed (Z.of_nat e) (mk_cursor b (q + e))
         match strndup alloc_identifier (body ++ ":"%char :: tail) l with
         | Some t => Some t
         | None => identifier
         end pid) in
  syslog_parse_identifier alloc_pid alloc_identifier buf identifier pid
  = if Ascii.eqb (last body NUL) "]" then
      match find_open_bracket b (q + (length body - 1))
              (Z.of_nat (length body - 1)) with
      | OutOfBounds => OutOfBounds
      | Returns (Some (a, k)) =>
          finish k
            match strndup alloc_pid (skipn (S a) b)
                    (wrap64 (Z.of_nat (length body) - k - 2)) with
            | Some t => Some t
            | None => pid
            end
      | Returns None => finish (Z.of_nat (length body)) pid
      end
    else finish (Z.of_nat (length body)) pid.
Proof.
  intros Hat Hbody. cbv zeta.
  destruct (token_at_scans _ _ _ _ Hat) as (Hp & Hs & Hl).
  pose proof (token_at_length _ _ _ _ Hat) as Hlen.
  pose proof (ta_size _ _ _ _ Hat) as Hsz.
  rewrite Hp in Hs.
  rewrite length_app in Hlen, Hl. cbn [length] in Hlen, Hl.
  assert (Hb1 : (1 <= length body)%nat)
    by (destruct body; [congruence | cbn; lia]).
  assert (Hw : forall z, 0 <= z < 2 ^ 64 -> wrap64 z = z)
    by (intros; apply Z.mod_small; auto).
  unfold syslog_parse_identifier. cbv zeta.
  rewrite Hl, Hp, Hs.
  replace (Z.of_nat (length body + 1) <=? 0) with false
    by (symmetry; apply Z.leb_gt; lia).
  replace (Z.to_nat (Z.of_nat (length body + 1) - 1))
    with (length (body ++ [":"%char]) - 1)%nat
    by (rewrite length_app; cbn; lia).
  rewrite mem_at_skipn, Hs, nth_last_app, last_app_one
    by (destruct body; discriminate).
  rewrite Ascii.eqb_refl. cbn [negb orb].
  rewrite (Hw (Z.of_nat (length body + 1) - 1 - 1)) by lia.
  unfold deref. rewrite Hw by lia.
  replace (Z.of_nat (off buf + length ws)
           + (Z.of_nat (length body + 1) - 1 - 1)
           <=? Z.of_nat (length (base buf))) with true
    by (symmetry; apply Z.leb_le; lia).
  replace (Z.to_nat (Z.of_nat (off buf + length ws)
                     + (Z.of_nat (length body + 1) - 1 - 1)))
    with (off buf + length ws + (length body - 1))%nat by lia.
  rewrite mem_at_skipn, Hs, <- app_assoc,
    (nth_last_app body ([":"%char] ++ tail)) by exact Hbody.
  replace (Z.of_nat (length body + 1) - 1 - 1)
    with (Z.of_nat (length body - 1)) by lia.
  rewrite Nat2Z.id.
  replace (skipn (off buf + length ws + (length body + 1)) (base buf))
    with tail
    by (rewrite skipn_add, Hs;
        replace (length body + 1)%nat with (length (body ++ [":"%char]))
          by (rewrite length_app; cbn; lia);
        now rewrite skipn_length_app).
  pose proof (strspn_le tail WHITESPACE) as Hsp.
  rewrite (Hw (Z.of_nat (length body + 1)
               + Z.of_nat (strspn tail WHITESPACE))) by lia.
  replace (Z.to_nat (Z.of_nat (length body + 1)
                     + Z.of_nat (strspn tail WHITESPACE)))
    with (length body + 1 + strspn tail WHITESPACE)%nat by lia.
  replace (Z.of_nat (length body + 1) + Z.of_nat (strspn tail WHITESPACE))
    with (Z.of_nat (length body + 1 + strspn tail WHITESPACE)) by lia.
  replace (Z.of_nat (length body + 1) - 1) with (Z.of_nat (length body))
    by lia.
  cbn [app]. reflexivity.
Qed.

(** X13. On a text whose first token is not of length 1,
    [syslog_parse_identifier] reads nothing outside the buffer: it
    returns. (A token of length 1 that is not the colon is turned away
    by the guard; the colon alone is the one token that makes the
    function look at the byte before it.) *)
Theorem parse_identifier_reads_inside (alloc_pid alloc_identifier : bool)
  (buf : cursor) (ws token tail : list ascii) (identifier pid : option string) :
  token_at buf ws token tail ->
  token <> [":"%char] ->
  exists r,
    syslog_parse_identifier alloc_pid alloc_identifier buf identifier pid
    = Returns r.
Proof.
  intros Hat Hone.
  destruct token as [|c0 token0] eqn:Etok.
  { rewrite (parse_identifier_guard _ _ _ _ _ _ _ _ Hat); eauto. }
  destruct (exists_last (l := c0 :: token0)) as (body & c & Ebody);
    [discriminate|].
  rewrite Ebody in Hat, Hone.
  destruct (Ascii.eqb_spec c ":") as [->|Hc].
  - assert (Hbody : body <> []) by (intros ->; now apply Hone).
    rewrite (parse_identifier_colon _ _ _ _ _ _ _ _ Hat Hbody). cbv zeta.
    destruct (Ascii.eqb (last body NUL) "]"); [|eauto].
    destruct (find_open_bracket_returns (base buf) (off buf + length ws)
                (length body - 1)) as [[[a k]|] ->]; eauto.
  - rewrite (parse_identifier_guard _ _ _ _ _ _ _ _ Hat); [eauto|].
    right. now rewrite last_app_one.
Qed.

(** X14. On a text that begins, at the very start of its buffer, with a
    token that is the colon alone, [syslog_parse_identifier] passes its
    guard and then reads [p[l-1]] with [l = 0]: the byte before the
    buffer. *)
Theorem parse_identifier_colon_at_start (alloc_pid alloc_identifier : bool)
  (buf : cursor) (tail : list ascii) (identifier pid : option string) :
  token_at buf [] [":"%char] tail ->
  off buf = O ->
  Z.of_nat (length (base buf)) < 2 ^ 64 - 1 ->
  syslog_parse_identifier alloc_pid alloc_identifier buf identifier pid
  = OutOfBounds.
Proof.
  intros Hat Hoff Hsz.
  destruct (token_at_scans _ _ _ _ Hat) as (Hp & Hs & Hl).
  unfold syslog_parse_identifier. cbv zeta.
  rewrite Hl, Hp. rewrite Hp in Hs. rewrite Hoff in *.
  cbn [length Nat.add skipn app] in Hs |- *.
  change (Z.to_nat (Z.of_nat 1 - 1)) with O.
  change (Z.of_nat 1 <=? 0) with false.
  unfold deref.
  change (wrap64 (Z.of_nat 0 + wrap64 (Z.of_nat 1 - 1 - 1)))
    with (2 ^ 64 - 1).
  replace (2 ^ 64 - 1 <=? Z.of_nat (length (base buf))) with false
    by (symmetry; apply Z.leb_gt; lia).
  rewrite Hs. cbn [mem_at nth]. rewrite Ascii.eqb_refl. reflexivity.
Qed.

(** X15. A token [body:] whose body is not empty and holds no opening
    bracket (whether or not it ends in a closing one) gives the whole
    body for the identifier and leaves the pid alone; the cursor moves
    past the token and the white space after it. *)
Theorem parse_identifier_plain (alloc_pid alloc_identifier : bool)
  (buf : cursor) (ws body ws2 rest : list ascii)
  (identifier pid : option string) :
  token_at buf ws (body ++ [":"%char]) (ws2 ++ rest) ->
  body <> [] ->
  ~ In "["%char body ->
  forallb is_space ws2 = true ->
  match rest with [] => True | ch :: _ => is_space ch = false end ->
  let e := (length body + 1 + length ws2)%nat in
  syslog_parse_identifier alloc_pid alloc_identifier buf identifier pid
  = Returns
      (mk_parsed (Z.of_nat e)
         (mk_cursor (base buf) (off buf + length ws + e))
         (if alloc_identifier then Some (string_of_list_ascii body)
          else identifier)
         pid).
Proof.
  intros Hat Hbody Hno Hws2 Hrest. cbv zeta.
  rewrite (parse_identifier_colon _ _ _ _ _ _ _ _ Hat Hbody). cbv zeta.
  rewrite strspn_spaces by auto.
  pose proof (ta_token _ _ _ _ Hat) as Htext.
  rewrite forallb_app in Htext. apply andb_prop in Htext as [Htext _].
  assert (Hid : match strndup alloc_identifier
                        (body ++ ":"%char :: ws2 ++ rest)
                        (Z.of_nat (length body)) with
                | Some t => Some t
                | None => identifier
                end
                = if alloc_identifier then Some (string_of_list_ascii body)
                  else identifier).
  { unfold strndup. rewrite strn_chars_prefix by exact Htext.
    now destruct alloc_identifier. }
  rewrite Hid.
  destruct (Ascii.eqb (last body NUL) "]"); [|reflexivity].
  rewrite find_open_bracket_none; [reflexivity|].
  intros i Hi.
  destruct (token_at_scans _ _ _ _ Hat) as (Hp & Hs & _).
  rewrite Hp in Hs. rewrite mem_at_skipn, Hs, <- app_assoc.
  assert (Hlt : (i < length body)%nat)
    by (destruct body; [congruence | cbn in *; lia]).
  rewrite app_nth1 by exact Hlt.
  intros Heq. apply Hno. rewrite <- Heq. now apply nth_In.
Qed.

(** X16. The two parsers in a row, as [server_process_syslog_message]
    runs them. After a date, a token [ident[pid]:] gives the identifier
    and the pid; but a first token without a colon at its end (the host
    name of an RFC 3164 header, say) gives neither, and the cursor stays
    right behind the date. *)
Theorem skip_date_then_identifier (alloc_pid alloc_identifier : bool)
  (b : list ascii) (o : nat) (ws ident pidtxt ws2 rest token tail : list ascii)
  (identifier pid : option string) :
  matches_classes sequence b o ->
  let dated := mk_cursor b (o + 16) in
  let parse :=
    syslog_parse_identifier alloc_pid alloc_identifier
      (syslog_skip_date (mk_cursor b o)) identifier pid in
  (token_at dated ws (bracketed_token ident pidtxt) (ws2 ++ rest) ->
   ~ In "["%char pidtxt ->
   forallb is_space ws2 = true ->
   match rest with [] => True | ch :: _ => is_space ch = false end ->
   let e := (length (bracketed_token ident pidtxt) + length ws2)%nat in
   parse
   = Returns
       (mk_parsed (Z.of_nat e) (mk_cursor b (o + 16 + length ws + e))
          (if alloc_identifier then Some (string_of_list_ascii ident)
           else identifier)
          (if alloc_pid then Some (string_of_list_ascii pidtxt) else pid)))
  /\ (token_at dated ws token tail ->
      token = [] \/ last token NUL <> ":"%char ->
      parse = Returns (mk_parsed 0 dated identifier pid)).
Proof.
  intros Hdate. cbv zeta.
  assert (Hskip : syslog_skip_date (mk_cursor b o) = mk_cursor b (o + 16)).
  { unfold syslog_skip_date. cbn [base off].
    now rewrite (skip_date_loop_complete _ _ _ Hdate). }
  rewrite Hskip. split.
  - intros Hat Hno Hws2 Hrest.
    now destruct (parse_identifier_bracketed alloc_pid alloc_identifier
                    _ _ _ _ _ _ identifier pid Hat Hno Hws2 Hrest).
  - intros Hat Htok. now apply parse_identifier_guard with ws token tail.
Qed.

(** *** The journal half of server_process_syslog_message *)

Lemma bind_run {A B} (c : M A) (k : A -> M B) (w : World) :
  bind c k w = k (fst (c w)) (snd (c w)).
Proof. unfold bind. now destruct (c w). Qed.

(** X17. Whenever the journal half of [server_process_syslog_message]
    returns, the structured fields it built are between three and six,
    so they fit the array with [N_IOVEC_META_FIELDS] slots to spare; the
    first is [_TRANSPORT=syslog], the second is [PRIORITY=] with the
    severity, a digit from 0 to 7, and the last is [MESSAGE=] with the
    very text that the record for forwarding holds as its message. The
    record has the host name of the server and ["-"] for its message
    id. *)
Theorem process_syslog_journal_fields (alloc_pid alloc_identifier : bool)
  (buf : cursor) (ucred : option ucred) (tv : option timeval)
  (label : option string) (w w' : World) (sm : SyslogMessage)
  (iovec : list string) :
  process_syslog_journal alloc_pid alloc_identifier buf ucred tv label w
  = (Returns (sm, iovec), w') ->
  exists fields,
    iovec
    = (fields
       ++ skipn (length fields)
            (firstn (Z.to_nat (N_IOVEC_META_FIELDS + 6)) stack_iovec))%list
    /\ (3 <= length fields <= 6)%nat
    /\ nth_error fields 0 = Some "_TRANSPORT=syslog"
    /\ nth_error fields 1
       = Some ("PRIORITY=" ++ fmt_int (Z.land (priority sm) 7))
    /\ 0 <= Z.land (priority sm) 7 <= 7
    /\ last fields EmptyString = "MESSAGE=" ++ message sm
    /\ hostname sm = forwarded_hostname (server w)
    /\ msgid sm = "-".
Proof.
  unfold process_syslog_journal, forwarded_hostname.
  rewrite bind_run. unfold get_server at 1. cbn [fst snd].
  destruct (syslog_parse_priority buf (Z.lor LOG_USER LOG_INFO))
    as [buf1 prio1].
  destruct (syslog_parse_identifier alloc_pid alloc_identifier
              (syslog_skip_date buf1) None None) as [parsed|];
    [|intros [=]].
  repeat (rewrite bind_run; cbn beta; unfold get_server; cbn [fst snd]).
  unfold ret at 1.
  assert (Hsev : 0 <= Z.land prio1 7 <= 7)
    by (destruct (severity_cases prio1) as [E|[E|[E|[E|[E|[E|[E|E]]]]]]];
        rewrite E; lia).
  destruct (hostname_field (server w)) as [h|]; cbn [isempty negb];
    [destruct (String.eqb h EmptyString); cbn [negb]|];
    destruct (negb (Z.land prio1 LOG_FACMASK =? 0));
    destruct (identifier_out parsed) as [i|];
    destruct (pid_out parsed) as [p|];
    try destruct (parse_pid p);
    cbn beta;
    match goal with
    | |- context [server_dispatch_message ?f _ _ _ _ _] =>
        intros [= <- <- _]; exists f
    end;
    (split; [reflexivity|]);
    (split; [cbn; lia|]);
    (split; [reflexivity|]); (split; [reflexivity|]);
    (split; [exact Hsev|]); repeat split.
Qed.

(** *** The raw forwarder *)

(** X24. [forward_syslog_raw] looks at the level only, not at the switch
    [forward_to_syslog]: a buffer whose severity is within the level goes
    to the local relay as one fragment, with the credentials given, and
    nowhere else; the call opens no socket and leaves the remote socket
    alone. *)
Theorem forward_syslog_raw_relay_only (prio : Z) (buffer : string)
  (ucred : option ucred) (tv : option timeval) (w : World) :
  let w' := exec (forward_syslog_raw prio buffer ucred tv) w in
  LOG_PRI prio <= max_level_syslog (server w) ->
  (exists rest, new_events w w' = relay_send (server w) [buffer] ucred :: rest)
  /\ Forall (carries [buffer]) (new_events w w')
  /\ Forall (to_relay (syslog_fd (server w))) (new_events w w')
  /\ socket_calls w' = socket_calls w
  /\ remote_syslog_fd (server w') = remote_syslog_fd (server w).
Proof.
  cbv zeta. intros Hlevel.
  assert (Heq : exec (forward_syslog_raw prio buffer ucred tv) w
                = exec (forward_syslog_iovec [buffer] ucred tv) w).
  { unfold exec at 1, forward_syslog_raw, bind, get_server. cbn [fst snd].
    replace (LOG_PRI prio >? max_level_syslog (server w)) with false
      by (symmetry; rewrite Z.gtb_ltb; apply Z.ltb_ge; exact Hlevel).
    reflexivity. }
  rewrite Heq.
  destruct (relay_run [buffer] ucred tv w)
    as (evs & Ht & Hc & Hr & Hs & Hk & _).
  destruct (forward_syslog_iovec_sends_first [buffer] ucred tv w)
    as (rest & Hfirst).
  split.
  - exists rest. apply new_events_app. exact Hfirst.
  - rewrite (new_events_app _ _ _ Ht).
    repeat split; auto.
    destruct Hs as [-> | ->]; reflexivity.
Qed.

(** *** What server_process_syslog_message forwards *)

(** X25. The forwarding half of [server_process_syslog_message] does not
    look at [max_level_syslog]. When the time converts and the array has
    its ten slots, the ten fragments of the record overwrite the journal
    fields at the head of the array and those ten are what is sent: first
    to the local relay, when local forwarding is on, and last to the
    remote target, when remote forwarding is on and its socket open. An
    array of fewer than ten slots forwards nothing. *)
Theorem process_syslog_forward_datagram (sm : SyslogMessage)
  (iovec : list string) (ucred : option ucred) (tv : option timeval)
  (w : World) (lt : tm) :
  let s := server w in
  let w' := exec (process_syslog_forward sm iovec ucred tv) w in
  let fragments := rfc5424_fragments (with_timestamp lt sm) in
  localtime_r (message_time_of tv w) = Some lt ->
  (N_IOVEC_META_FIELDS + 6 < 10 -> w' = w)
  /\ (10 <= N_IOVEC_META_FIELDS + 6 ->
      (forward_to_syslog s = true ->
       exists rest, new_events w w' = relay_send s fragments ucred :: rest)
      /\ (forward_to_remote_syslog s = true -> remote_syslog_fd s > 0 ->
          exists before,
            new_events w w'
            = (before ++ [remote_send s (remote_syslog_fd s) fragments])%list)
      /\ Forall (carries fragments) (new_events w w')).
Proof.
  cbv zeta. intros Hlt.
  assert (Htime : forall (A : Type) (k : Z -> M A),
             bind (message_time tv) k w = k (message_time_of tv w) w).
  { intros A k. unfold message_time, message_time_of, bind, now_realtime, ret.
    now destruct tv. }
  split.
  - intros Hsmall. unfold exec, process_syslog_forward.
    rewrite Htime, Hlt. unfold syslog_fill_iovec.
    replace (N_IOVEC_META_FIELDS + 6 <? 10) with true
      by (symmetry; apply Z.ltb_lt; exact Hsmall).
    reflexivity.
  - intros Hroom.
    assert (Hexec : exec (process_syslog_forward sm iovec ucred tv) w
                    = exec (forward_both
                              (rfc5424_fragments (with_timestamp lt sm)
                               ++ skipn 10 iovec)%list 10 ucred tv) w).
    { unfold exec at 1, process_syslog_forward. rewrite Htime, Hlt.
      destruct (fill_iovec_result (with_timestamp lt sm) iovec
                  (N_IOVEC_META_FIELDS + 6) Hroom) as (sm' & Hfill & _).
      rewrite Hfill. reflexivity. }
    rewrite Hexec.
    set (array := (rfc5424_fragments (with_timestamp lt sm)
                   ++ skipn 10 iovec)%list).
    assert (Hten : firstn (Z.to_nat 10) array
                   = rfc5424_fragments (with_timestamp lt sm))
      by reflexivity.
    split; [|split].
    + intros Hon.
      destruct (forward_both_relay_first array 10 ucred tv w Hon) as [rest H].
      exists rest. now rewrite H, Hten.
    + intros Hon Hfd.
      destruct (forward_both_remote_last array 10 ucred tv w Hon Hfd)
        as [before H].
      exists before. now rewrite H, Hten.
    + destruct (forward_both_carries array 10 ucred tv w) as (evs & Ht & Hc).
      rewrite (new_events_app _ _ _ Ht). now rewrite <- Hten.
Qed.


(** *** Timestamps that cannot be had *)

Lemma timestamp_fragment_dash (lt : tm) :
  strftime sizeof_timestamp "%Y-%m-%dT%H:%M:%S%z " lt = None ->
  timestamp_fragment lt = "- ".
Proof. unfold timestamp_fragment. now intros ->. Qed.

Lemma process_syslog_forward_exec (sm : SyslogMessage) (iovec : list string)
  (ucred : option ucred) (tv : option timeval) (w : World) (lt : tm) :
  10 <= N_IOVEC_META_FIELDS + 6 ->
  localtime_r (message_time_of tv w) = Some lt ->
  exec (process_syslog_forward sm iovec ucred tv) w
  = exec (forward_both
            (rfc5424_fragments (with_timestamp lt sm) ++ skipn 10 iovec)%list
            10 ucred tv) w.
Proof.
  intros Hroom Hlt.
  assert (Htime : forall (A : Type) (k : Z -> M A),
             bind (message_time tv) k w = k (message_time_of tv w) w).
  { intros A k. unfold message_time, message_time_of, bind, now_realtime, ret.
    now destruct tv. }
  unfold exec at 1, process_syslog_forward. rewrite Htime, Hlt.
  destruct (fill_iovec_result (with_timestamp lt sm) iovec
              (N_IOVEC_META_FIELDS + 6) Hroom) as (sm' & Hfill & _).
  rewrite Hfill. reflexivity.
Qed.

(** What the two sends that close both callers do with the ten fragments
    at the head of the array. *)
Lemma forward_both_sends (array fragments : list string)
  (ucred : option ucred) (tv : option timeval) (w : World) :
  firstn 10 array = fragments ->
  let w' := exec (forward_both array 10 ucred tv) w in
  (forward_to_syslog (server w) = true ->
   exists rest,
     new_events w w' = relay_send (server w) fragments ucred :: rest)
  /\ (forward_to_remote_syslog (server w) = true ->
      remote_syslog_fd (server w) > 0 ->
      exists before,
        new_events w w'
        = (before
           ++ [remote_send (server w) (remote_syslog_fd (server w))
                 fragments])%list)
  /\ Forall (carries fragments) (new_events w w').
Proof.
  intros <-. cbv zeta. split; [|split].
  - intros Hon. exact (forward_both_relay_first array 10 ucred tv w Hon).
  - intros Hon Hfd. exact (forward_both_remote_last array 10 ucred tv w Hon Hfd).
  - destruct (forward_both_carries array 10 ucred tv w) as (evs & Ht & Hc).
    rewrite (new_events_app _ _ _ Ht). exact Hc.
Qed.

(** The record that the journal half of [server_process_syslog_message]
    yields holds, for its message, the text the parsers left. *)
Lemma journal_record_message (alloc_pid alloc_identifier : bool)
  (buf : cursor) (ucred : option ucred) (tv : option timeval)
  (label : option string) (w w' : World) (sm : SyslogMessage)
  (iovec : list string) :
  process_syslog_journal alloc_pid alloc_identifier buf ucred tv label w
  = (Returns (sm, iovec), w') ->
  exists parsed,
    syslog_parse_identifier alloc_pid alloc_identifier
      (syslog_skip_date
         (fst (syslog_parse_priority buf (Z.lor LOG_USER LOG_INFO))))
      None None
    = Returns parsed
    /\ message sm = cursor_text (buf_out parsed).
Proof.
  unfold process_syslog_journal.
  rewrite bind_run. unfold get_server at 1. cbn [fst snd].
  destruct (syslog_parse_priority buf (Z.lor LOG_USER LOG_INFO))
    as [buf1 prio1]. cbn [fst].
  destruct (syslog_parse_identifier alloc_pid alloc_identifier
              (syslog_skip_date buf1) None None) as [parsed|];
    [|intros [=]].
  repeat (rewrite bind_run; cbn beta; unfold get_server; cbn [fst snd]).
  unfold ret at 1.
  destruct (hostname_field (server w)) as [h|]; cbn [isempty negb];
    [destruct (String.eqb h EmptyString); cbn [negb]|];
    destruct (negb (Z.land prio1 LOG_FACMASK =? 0));
    destruct (identifier_out parsed) as [i|];
    destruct (pid_out parsed) as [p|];
    try destruct (parse_pid p);
    cbn beta; intros [= <- _ _]; exists parsed; split; reflexivity.
Qed.

(** C9, as the code has it. When [localtime_r] cannot convert the time of
    a message, [server_forward_syslog] and the forwarding half of
    [server_process_syslog_message] return without sending anything: the
    message is not forwarded. When the time converts and [strftime]
    cannot render it, the message is still produced and forwarded: its
    ten fragments are the priority, ["- "] for the time, the host name,
    the identifier, the pid, the message id and, last, the text of the
    message; these ten are handed to both forwarders, the local relay
    (when local forwarding is on) gets them first, with the credentials
    of the sender, the remote target (when remote forwarding is on and
    its socket open) gets them last, and no datagram of the call carries
    anything else. [server_process_syslog_message] is its forwarding half
    run on what its journal half yields, a record whose message is the
    text the parsers left. *)
Theorem timestamp_failure_handling (prio : Z) (identifier : option string)
  (text : string) (sm : SyslogMessage) (iovec : list string)
  (ucred : option ucred) (tv : option timeval) (w : World) :
  let s := server w in
  let t := message_time_of tv w in
  let sent (fragments : list string) (w' : World) :=
    (exists array,
       firstn 10 array = fragments
       /\ w' = exec (forward_both array 10 ucred tv) w)
    /\ (forward_to_syslog s = true ->
        exists rest,
          new_events w w' = relay_send s fragments ucred :: rest)
    /\ (forward_to_remote_syslog s = true -> remote_syslog_fd s > 0 ->
        exists before,
          new_events w w'
          = (before ++ [remote_send s (remote_syslog_fd s) fragments])%list)
    /\ Forall (carries fragments) (new_events w w') in
  Z.land prio 7 <= max_level_syslog s ->
  10 <= N_IOVEC_META_FIELDS + 6 ->
  (localtime_r t = None ->
   exec (server_forward_syslog prio identifier text ucred tv) w = w
   /\ exec (process_syslog_forward sm iovec ucred tv) w = w)
  /\ (forall lt, localtime_r t = Some lt ->
      strftime sizeof_timestamp "%Y-%m-%dT%H:%M:%S%z " lt = None ->
      sent [ "<" ++ fmt_int (limit_facility prio) ++ ">1 "; "- ";
             string_drop
               (if prefix "_HOSTNAME=" (forwarded_hostname s) then 10 else 0)
               (forwarded_hostname s);
             " "; forwarded_appname identifier ucred; " ";
             procid_fragment (forwarded_procid ucred); "-"; " - "; text ]
        (exec (server_forward_syslog prio identifier text ucred tv) w)
      /\ sent [ "<" ++ fmt_int (limit_facility (priority sm)) ++ ">1 "; "- ";
                string_drop
                  (if prefix "_HOSTNAME=" (hostname sm) then 10 else 0)
                  (hostname sm);
                " "; appname sm; " "; procid_fragment (procid sm);
                msgid sm; " - "; message sm ]
           (exec (process_syslog_forward sm iovec ucred tv) w))
  /\ (forall alloc_pid alloc_identifier buf label w0,
      process_syslog_journal alloc_pid alloc_identifier buf ucred tv label w0
      = (Returns (sm, iovec), w) ->
      exec (server_process_syslog_message alloc_pid alloc_identifier buf
              ucred tv label) w0
      = exec (process_syslog_forward sm iovec ucred tv) w
      /\ exists parsed,
           syslog_parse_identifier alloc_pid alloc_identifier
             (syslog_skip_date
                (fst (syslog_parse_priority buf (Z.lor LOG_USER LOG_INFO))))
             None None
           = Returns parsed
           /\ message sm = cursor_text (buf_out parsed)).
Proof.
  cbv zeta. intros Hlevel Hcap.
  rewrite <- and_assoc. split.
  2:{ intros ap ai buf label w0 H. split.
      - unfold server_process_syslog_message, exec, bind. rewrite H.
        now destruct (process_syslog_forward sm iovec ucred tv w).
      - exact (journal_record_message ap ai buf ucred tv label w0 w sm
                 iovec H). }
  assert (Hpass : (LOG_PRI prio >? max_level_syslog (server w)) = false).
  { unfold LOG_PRI, LOG_PRIMASK.
    destruct (Z.gtb_spec (Z.land prio 7) (max_level_syslog (server w)));
      [lia | reflexivity]. }
  assert (Htime : forall (A : Type) (k : Z -> M A),
             bind (message_time tv) k w = k (message_time_of tv w) w).
  { intros A k. unfold message_time, message_time_of, bind, now_realtime, ret.
    now destruct tv. }
  split.
  - intros Hnone. split.
    + unfold exec, server_forward_syslog.
      unfold bind at 1, get_server at 1. rewrite Hpass, Htime, Hnone.
      reflexivity.
    + unfold exec, process_syslog_forward. rewrite Htime, Hnone. reflexivity.
  - intros lt Hlt Hfmt.
    pose proof (timestamp_fragment_dash lt Hfmt) as Hdash.
    split.
    + rewrite (server_forward_syslog_exec _ _ _ _ _ _ lt Hlevel Hlt).
      unfold forwarded_fragments. rewrite Hdash.
      match goal with
      | |- context [exec (forward_both ?A 10 ucred tv) w] =>
          split; [exists A; split; reflexivity
                 | apply (forward_both_sends A); reflexivity]
      end.
    + rewrite (process_syslog_forward_exec _ _ _ _ _ lt Hcap Hlt).
      unfold rfc5424_fragments. cbn [timestamp with_timestamp priority
        hostname appname procid msgid message]. rewrite Hdash.
      match goal with
      | |- context [exec (forward_both ?A 10 ucred tv) w] =>
          split; [exists A; split; reflexivity
                 | apply (forward_both_sends A); reflexivity]
      end.
Qed.

End Journald.

(** ** The statements at work on the sample worlds *)

Local Abbreviation text := list_ascii_of_string.

(** Priority 323 is facility 40 with severity 3. *)
Lemma fill_iovec_limits_facility_witness :
  let '(_, sm', iovec', _) :=
    syslog_fill_iovec Sample.no_rendering 32 16
      (with_priority 323 Sample.blank) [] 10 in
  priority sm' = limit_facility 323
  /\ Z.shiftr (priority sm') 3 <= 23
  /\ Z.land (priority sm') 7 = Z.land 323 7
  /\ (Z.shiftr 323 3 <= 23 -> priority sm' = 323)
  /\ nth_error iovec' 0 = Some ("<" ++ fmt_int (priority sm') ++ ">1 ").
Proof.
  apply (fill_iovec_limits_facility Sample.no_rendering 32 16
           (with_priority 323 Sample.blank) [] 10); cbn; lia.
Defined.

Lemma fill_iovec_fragments_witness :
  syslog_fill_iovec Sample.no_rendering 32 16 Sample.blank Sample.line 5
  = (-1, Sample.blank, Sample.line, 5)
  /\ (let '(_, _, iovec', _) :=
        syslog_fill_iovec Sample.no_rendering 32 16
          (syslog_init_message Sample.blank) Sample.line 10 in
      firstn 10 iovec' =
        [ "<14>1 ";
          timestamp_fragment Sample.no_rendering 32 (timestamp Sample.blank);
          "-"; " "; "-"; " "; "- "; "-"; " - "; "-" ]
      /\ (timestamp_fragment Sample.no_rendering 32 (timestamp Sample.blank)
          = "- "
          \/ Sample.no_rendering 32 "%Y-%m-%dT%H:%M:%S%z "
               (timestamp Sample.blank)
             = Some (timestamp_fragment Sample.no_rendering 32
                       (timestamp Sample.blank)))).
Proof.
  split.
  - apply (fill_iovec_fragments Sample.no_rendering 32 16
             Sample.blank Sample.line 5). lia.
  - apply (fill_iovec_fragments Sample.no_rendering 32 16
             Sample.blank Sample.line 10). lia.
Defined.

Lemma skip_date_all_or_nothing_witness :
  syslog_skip_date (cursor_of_string "Jan  1 00:00:00 rest")
  = mk_cursor (text "Jan  1 00:00:00 rest") 16
  /\ syslog_skip_date (cursor_of_string "garbage text")
     = cursor_of_string "garbage text".
Proof.
  split.
  - apply (skip_date_all_or_nothing (cursor_of_string "Jan  1 00:00:00 rest")).
    intros i c Hi.
    do 16 (destruct i as [|i];
           [injection Hi as <-;
            split; [cbn; lia | split; [vm_compute; discriminate | reflexivity]]
           |]).
    destruct i; discriminate.
  - apply (skip_date_all_or_nothing (cursor_of_string "garbage text")).
    intros H. destruct (H 3%nat SPACE eq_refl) as (_ & _ & Hc).
    discriminate Hc.
Defined.

(** Fifteen positions are not the whole of the date: the sixteenth, a
    space, is looked at and stepped over as well. *)
Lemma skip_date_sixteen_positions :
  length sequence <> 15%nat
  /\ off (syslog_skip_date (cursor_of_string "Jan  1 00:00:00 rest"))
     <> 15%nat
  /\ cursor_text (syslog_skip_date (cursor_of_string "Jan  1 00:00:00 rest"))
     = "rest"
  /\ syslog_skip_date (cursor_of_string "Jan  1 00:00:00rest")
     = cursor_of_string "Jan  1 00:00:00rest".
Proof.
  split; [vm_compute; discriminate|].
  split; [vm_compute; discriminate|].
  split; reflexivity.
Qed.

Lemma parse_identifier_bracketed_pid_witness :
  (exists r,
     syslog_parse_identifier Sample.WHITESPACE true true
       (cursor_of_string "myapp[123]: hello") None None = Returns r
     /\ identifier_out r = Some "myapp"
     /\ pid_out r = Some "123"
     /\ consumed r = 12
     /\ off (buf_out r) = 12%nat
     /\ cursor_text (buf_out r) = "hello")
  /\ syslog_parse_identifier Sample.WHITESPACE true true
       (cursor_of_string " su[1234]:  'su root' failed") None None
     = Returns
         (mk_parsed 11
            (mk_cursor (text " su[1234]:  'su root' failed") 12)
            (Some "su") (Some "1234")).
Proof.
  split.
  - apply (parse_identifier_bracketed_pid Sample.WHITESPACE true true
             (mk_cursor [] 0) [] [] [] [] [] None None); reflexivity.
  - apply (parse_identifier_bracketed_pid Sample.WHITESPACE true true
             (cursor_of_string " su[1234]:  'su root' failed")
             (text " ") (text "su") (text "1234") (text "  ")
             (text "'su root' failed") None None).
    + split; [cbn; lia | reflexivity | cbn; lia | reflexivity | reflexivity |].
      split; [reflexivity | discriminate].
    + cbn. intros [E|[E|[E|[E|[]]]]]; discriminate.
    + reflexivity.
    + reflexivity.
Defined.

Lemma parse_identifier_no_header_witness :
  syslog_parse_identifier Sample.WHITESPACE true true
    (cursor_of_string "nocolon hello") None None
  = Returns (mk_parsed 0 (cursor_of_string "nocolon hello") None None).
Proof.
  apply (parse_identifier_no_header Sample.WHITESPACE true true
           (cursor_of_string "nocolon hello")
           [] (text "nocolon") (text " hello") None None).
  - split; [cbn; lia | reflexivity | cbn; lia | reflexivity | reflexivity |].
    split; [reflexivity | discriminate].
  - right. vm_compute. discriminate.
Defined.

(** A token that is the colon alone has length 1, and is taken for a
    header with an empty identifier. *)
Lemma parse_identifier_lone_colon :
  let buf := cursor_of_string " : hello" in
  token_at Sample.WHITESPACE buf (text " ") (text ":") (text " hello")
  /\ (length (text ":") <= 1)%nat
  /\ syslog_parse_identifier Sample.WHITESPACE true true buf None None
     = Returns (mk_parsed 2 (mk_cursor (base buf) 3) (Some EmptyString) None)
  /\ syslog_parse_identifier Sample.WHITESPACE true true buf None None
     <> Returns (mk_parsed 0 buf None None).
Proof.
  cbv zeta. split; [|split; [|split]].
  - split; [cbn; lia | reflexivity | cbn; lia | reflexivity | reflexivity |].
    split; [reflexivity | discriminate].
  - cbn. lia.
  - reflexivity.
  - vm_compute. discriminate.
Qed.

Local Abbreviation relay answers :=
  (forward_syslog_iovec (Sample.answers answers) 1).

Lemma forward_syslog_iovec_outcomes_witness :
  let w := Sample.world Sample.journald 0 in
  let s := Sample.journald in
  let u := Some Sample.sender in
  let own := Some (mk_ucred 1 1000 1000) in
  let run answers := exec (relay answers Sample.line u None) w in
  (server (run [Ok 42%N]) = s
   /\ new_events w (run [Ok 42%N]) = [relay_send s Sample.line u])
  /\ (server (run [Fail EAGAIN]) = one_more_missed s
      /\ new_events w (run [Fail EAGAIN]) = [relay_send s Sample.line u])
  /\ (server (run [Fail EPERM; Fail EAGAIN]) = one_more_missed s
      /\ new_events w (run [Fail EPERM; Fail EAGAIN])
         = [relay_send s Sample.line u; relay_send s Sample.line own])
  /\ (server (run [Fail ESRCH; Fail ENOENT]) = s
      /\ new_events w (run [Fail ESRCH; Fail ENOENT])
         = [relay_send s Sample.line u; relay_send s Sample.line own])
  /\ (server (run [Fail ENOENT]) = s
      /\ new_events w (run [Fail ENOENT]) = [relay_send s Sample.line u])
  /\ (server (run [Fail 111]) = s
      /\ new_events w (run [Fail 111])
         = [relay_send s Sample.line u; relay_failure_logged 111])
  /\ n_forward_syslog_missed (one_more_missed s) = 1.
Proof.
  cbv zeta.
  pose (T answers :=
          forward_syslog_iovec_outcomes (Sample.answers answers) 1
            Sample.line (Some Sample.sender) None
            (Sample.world Sample.journald 0)).
  split; [|split; [|split; [|split; [|split; [|split]]]]].
  - apply (proj1 (T [Ok 42%N]) 42%N). reflexivity.
  - apply (proj1 (proj2 (T [Fail EAGAIN]))). reflexivity.
  - apply (proj1 (proj2 (proj1 (proj2 (proj2 (T [Fail EPERM; Fail EAGAIN])))
                          EPERM Sample.sender eq_refl (or_introl eq_refl)
                          eq_refl))).
    reflexivity.
  - apply (proj1 (proj2 (proj2
             (proj1 (proj2 (proj2 (T [Fail ESRCH; Fail ENOENT])))
                ESRCH Sample.sender eq_refl (or_intror eq_refl) eq_refl)))).
    reflexivity.
  - apply (proj1 (proj2 (proj2 (proj2 (T [Fail ENOENT]))))). reflexivity.
  - apply (proj1 (proj2 (proj2 (proj2 (proj2 (T [Fail 111]))))) 111);
      [reflexivity | discriminate | discriminate | right; split; discriminate].
  - apply (proj1 (proj2 (proj2 (proj2 (proj2 (proj2 (T []))))))).
    cbn. lia.
Defined.

(** A second attempt that fails with [EPERM] again is not dropped without
    a word: the failure is logged. *)
Lemma forward_syslog_iovec_retry_failure_is_logged :
  let w := Sample.world Sample.journald 0 in
  let w' :=
    exec (relay [Fail EPERM; Fail EPERM] Sample.line (Some Sample.sender) None)
      w in
  new_events w w'
  = [ relay_send Sample.journald Sample.line (Some Sample.sender);
      relay_send Sample.journald Sample.line (Some (mk_ucred 1 1000 1000));
      relay_failure_logged EPERM ]
  /\ count_events is_log (new_events w w') <> O.
Proof. split; [reflexivity | vm_compute; discriminate]. Qed.

Lemma maybe_warn_forward_syslog_missed_throttle_witness :
  let throttle := exec server_maybe_warn_forward_syslog_missed in
  let msgs :=
    [(Sample.line, None); (Sample.line, Some Sample.sender);
     (Sample.line, None)] in
  let busy := Sample.answers [Fail EAGAIN; Fail EAGAIN; Fail EAGAIN] in
  throttle (Sample.world Sample.journald 0) = Sample.world Sample.journald 0
  /\ throttle (Sample.world Sample.journald_behind 2000000)
     = Sample.world Sample.journald_behind 2000000
  /\ (let w := Sample.world Sample.journald_behind 31000000 in
      new_events w (throttle w) = [missed_diagnostic 5]
      /\ n_forward_syslog_missed (server (throttle w)) = 0
      /\ last_warn_forward_syslog_missed (server (throttle w)) = 31000000)
  /\ (let w := Sample.world Sample.journald 0 in
      let w1 := exec (run_all (map (send_and_check busy 1) msgs)) w in
      let w2 := throttle (with_clock_monotonic 30000000 w1) in
      n_forward_syslog_missed (server w1) = 3
      /\ count_events is_driver_message (new_events w w1) = O
      /\ new_events w1 w2 = [missed_diagnostic 3]
      /\ n_forward_syslog_missed (server w2) = 0).
Proof.
  cbv zeta.
  pose (T s now :=
          maybe_warn_forward_syslog_missed_throttle
            (Sample.answers [Fail EAGAIN; Fail EAGAIN; Fail EAGAIN]) 1
            (Sample.world s now)
            [(Sample.line, None); (Sample.line, Some Sample.sender);
             (Sample.line, None)]).
  assert (H0 : 0 <= 0) by lia.
  assert (H1 : 0 <= 5) by lia.
  assert (H2 : 0 + 30 * 1000000 < 2 ^ 64) by lia.
  assert (H3 : 0 <= 1000000) by lia.
  assert (H4 : 1000000 + 30 * 1000000 < 2 ^ 64) by lia.
  split; [|split; [|split]].
  - apply (proj1 (T Sample.journald 0 H0 H0 H2)). reflexivity.
  - apply (proj1 (proj2 (T Sample.journald_behind 2000000 H1 H3 H4))).
    cbn. lia.
  - destruct (proj1 (proj2 (proj2 (T Sample.journald_behind 31000000 H1 H3 H4))))
      as (E1 & E2 & E3 & _); [cbn; lia | cbn; lia |].
    repeat split; assumption.
  - destruct (proj2 (proj2 (proj2 (T Sample.journald 0 H0 H0 H2))))
      as (E1 & E2 & E3).
    + reflexivity.
    + cbn. lia.
    + cbn. lia.
    + intros i Hi. destruct i as [|[|[|i]]]; try reflexivity.
      cbn in Hi. lia.
    + destruct (E3 30000000) as (E4 & E5); [cbn; lia | discriminate |].
      repeat split; assumption.
Defined.

Local Abbreviation remote :=
  (forward_remote_syslog_iovec (Sample.answers []) (Sample.answers [])).

Lemma forward_remote_without_target_witness :
  let msgs := [Sample.line; Sample.line; Sample.line] in
  let run w := exec (run_all (map remote msgs)) w in
  run (Sample.world Sample.journald 0) = Sample.world Sample.journald 0
  /\ (let w := Sample.world Sample.journald_inet6 0 in
      run w = with_trace (trace w ++ both_warnings msgs) w
      /\ server (run w) = Sample.journald_inet6
      /\ count_events is_sendmsg (new_events w (run w)) = O
      /\ count_events is_log (new_events w (run w)) = 6%nat).
Proof.
  cbv zeta.
  pose (T s :=
          forward_remote_without_target (Sample.answers []) (Sample.answers [])
            [Sample.line; Sample.line; Sample.line] (Sample.world s 0)).
  assert (Hfd : -1 <= 0) by lia.
  split.
  - apply (proj1 (T Sample.journald Hfd)). reflexivity.
  - apply (proj2 (T Sample.journald_inet6 Hfd)); discriminate.
Defined.

(** With a target that is not an IPv4 one the warnings come with every
    message, not once; with no target there is no warning at all. *)
Lemma forward_remote_warns_per_message :
  let msgs := [Sample.line; Sample.line; Sample.line] in
  let run w := exec (run_all (map remote msgs)) w in
  (let w := Sample.world Sample.journald_inet6 0 in
   new_events w (run w)
   = [ remote_target_warning; remote_family_warning;
       remote_target_warning; remote_family_warning;
       remote_target_warning; remote_family_warning ]
   /\ count_events is_log (new_events w (run w)) <> 1%nat)
  /\ (let w := Sample.world Sample.journald 0 in
      count_events is_log (new_events w (run w)) <> 1%nat).
Proof.
  cbv zeta. split; [split|]; [reflexivity | |]; vm_compute; discriminate.
Qed.

Local Abbreviation forward_with localtime :=
  (server_forward_syslog (Sample.answers []) (Sample.answers []) 1 localtime
     Sample.no_rendering Sample.no_comm 32 16 Sample.blank []).

Local Abbreviation both_sinks :=
  (forward_both (Sample.answers []) (Sample.answers []) 1).

Lemma timestamp_failure_handling_witness :
  let quiet := Sample.world Sample.journald 0 in
  let s := SampleTarget.journald_connected in
  let w := Sample.world s 0 in
  let w' :=
    exec (forward_with Sample.any_time 14 (Some "app") "hello" None None) w in
  let fragments :=
    [ "<14>1 "; "- "; "host"; " "; "app"; " "; "- "; "-"; " - "; "hello" ] in
  exec (forward_with Sample.no_time 14 (Some "app") "hello" None None) quiet
  = quiet
  /\ (exists array,
        firstn 10 array = fragments
        /\ w' = exec (both_sinks array 10 None None) w)
  /\ (exists rest, new_events w w' = relay_send s fragments None :: rest)
  /\ (exists before,
        new_events w w' = (before ++ [remote_send s 5 fragments])%list)
  /\ Forall (carries fragments) (new_events w w').
Proof.
  cbv zeta.
  pose (T localtime s :=
          timestamp_failure_handling Sample.WHITESPACE
            (Sample.answers []) (Sample.answers []) 1 localtime
            Sample.no_rendering Sample.no_comm Sample.no_pid
            Sample.no_priority 20 32 16
            Sample.no_forwarder Sample.no_forwarder Sample.no_forwarder
            Sample.no_journal Sample.blank []
            14 (Some "app") "hello" Sample.blank Sample.line None None
            (Sample.world s 0)).
  assert (H1 : Z.land 14 7 <= 7) by (cbn; lia).
  assert (H2 : 10 <= 20 + 6) by lia.
  assert (H3 : 5 > 0) by lia.
  split.
  - apply (proj1 (proj1 (T Sample.no_time Sample.journald H1 H2) eq_refl)).
  - destruct (proj1 (proj1 (proj2 (T Sample.any_time
                                     SampleTarget.journald_connected H1 H2))
                       Sample.epoch eq_refl eq_refl))
      as (Ha & Hr & Hm & Hc).
    split; [exact Ha|]. split; [exact (Hr eq_refl)|].
    split; [exact (Hm eq_refl H3) | exact Hc].
Defined.

(** A time that cannot be converted: nothing is sent, though local
    forwarding is on. *)
Lemma unconverted_time_drops_message :
  let w := Sample.world Sample.journald 0 in
  let w' :=
    exec (forward_with Sample.no_time 14 (Some "app") "hello" None None) w in
  forward_to_syslog (server w) = true
  /\ LOG_PRI 14 <= max_level_syslog (server w)
  /\ w' = w
  /\ count_events is_sendmsg (new_events w w') = O.
Proof. cbv zeta. repeat split. vm_compute. discriminate. Qed.

Lemma forward_syslog_level_filter_witness :
  let w := Sample.world Sample.journald_quiet 0 in
  forward_with Sample.any_time 14 None "hello" None None w = (tt, w)
  /\ forward_syslog_raw (Sample.answers []) 1 14 "<14>hello" None None w
     = (tt, w).
Proof.
  apply (forward_syslog_level_filter (Sample.answers []) (Sample.answers [])
           1 Sample.any_time Sample.no_rendering Sample.no_comm 32 16
           Sample.blank [] 14 None "hello" "<14>hello" None None
           (Sample.world Sample.journald_quiet 0)).
  - lia.
  - cbn. lia.
Defined.

(** ** The set-up of the receiving socket *)

Lemma setup_events_app (st st' : Setup) (l : list setup_event) :
  setup_trace st' = (setup_trace st ++ l)%list -> setup_events st st' = l.
Proof. unfold setup_events. intros ->. apply skipn_length_app. Qed.

Ltac run_setup :=
  unfold server_open_syslog_socket, open_syslog_socket_options, syscall,
    fail_with;
  cbn [setup_server setup_errno setup_trace syslog_fd with_syslog_fd].

(** X18. A server without a socket gets one: when [socket()], [bind()],
    the two [setsockopt()] for credentials and timestamps and
    [sd_event_add_io] succeed, the function returns 0 with the new
    descriptor in the server, having called, in this order, [socket],
    [unlink] and [bind] on the path, [chmod] to 0666, [SO_PASSCRED],
    [SO_PASSSEC] when SELinux is in use, [SO_TIMESTAMP] and
    [sd_event_add_io]. What [unlink], [chmod] and [SO_PASSSEC] answer
    does not matter, and no error is logged. *)
Theorem open_syslog_socket_fresh (env : SetupEnv) (st : Setup) (n : N) :
  let s := setup_server st in
  let fd := Z.of_N n in
  let opt name := CallSetsockopt fd SOL_SOCKET name 1 in
  let new_socket :=
    CallSocket AF_UNIX (Z.lor SOCK_DGRAM (Z.lor SOCK_CLOEXEC SOCK_NONBLOCK)) 0 in
  syslog_fd s < 0 ->
  answer env new_socket = Ok n ->
  (exists k, answer env (CallBind fd dev_log_path) = Ok k) ->
  (exists k, answer env (opt SO_PASSCRED) = Ok k) ->
  (exists k, answer env (opt SO_TIMESTAMP) = Ok k) ->
  0 <= sd_event_add_io env fd EPOLLIN ->
  let st' := snd (server_open_syslog_socket env st) in
  fst (server_open_syslog_socket env st) = 0
  /\ setup_server st' = with_syslog_fd fd s
  /\ calls_of (setup_events st st')
     = ([ new_socket; CallUnlink dev_log_path; CallBind fd dev_log_path;
          CallChmod dev_log_path 438; opt SO_PASSCRED ]
        ++ (if HAVE_SELINUX env && mac_selinux_use env
            then [opt SO_PASSSEC] else [])
        ++ [ opt SO_TIMESTAMP; CallEventAddIo fd EPOLLIN ])%list
  /\ Forall (fun e => match e with
                      | Logged level _ _ => level = LOG_LEVEL_WARNING
                      | Called _ => True
                      end) (setup_events st st').
Proof.
  cbv zeta. intros Hneg Hsock [kb Hbind] [kc Hcred] [kt Htime] Hio.
  apply Z.ltb_lt in Hneg.
  assert (Hfd : (Z.of_N n <? 0) = false) by (apply Z.ltb_ge; lia).
  assert (Hkb : (Z.of_N kb <? 0) = false) by (apply Z.ltb_ge; lia).
  assert (Hkc : (Z.of_N kc <? 0) = false) by (apply Z.ltb_ge; lia).
  assert (Hkt : (Z.of_N kt <? 0) = false) by (apply Z.ltb_ge; lia).
  assert (Hio' : (sd_event_add_io env (Z.of_N n) EPOLLIN <? 0) = false)
    by (apply Z.ltb_ge; lia).
  run_setup. rewrite Hneg, Hsock. cbn. rewrite Hfd.
  destruct (answer env (CallUnlink dev_log_path)); cbn;
    rewrite Hbind; cbn; rewrite Hkb;
    destruct (answer env (CallChmod dev_log_path 438)); cbn;
    rewrite Hcred; cbn; rewrite Hkc;
    destruct (HAVE_SELINUX env && mac_selinux_use env); cbn;
    try (destruct (answer env (CallSetsockopt (Z.of_N n) SOL_SOCKET
                                 SO_PASSSEC 1)) as [ks|es]; cbn;
         [replace (Z.of_N ks <? 0) with false
            by (symmetry; apply Z.ltb_ge; lia); cbn|]);
    rewrite Htime; cbn; rewrite Hkt, Hio'; cbn;
    (split; [reflexivity|]); (split; [reflexivity|]);
    unfold setup_events; cbn [setup_trace];
    rewrite <- ?app_assoc, skipn_length_app; cbn;
    (split; [reflexivity | repeat constructor]).
Qed.

Ltac setup_events_now :=
  unfold setup_events; cbn [setup_trace];
  rewrite <- ?app_assoc, skipn_length_app; cbn.

(** X19. A server that already holds a descriptor keeps it: the function
    makes it non-blocking and goes on to the socket options, and calls
    none of [socket], [unlink], [bind] and [chmod], whatever the kernel
    answers. *)
Theorem open_syslog_socket_inherited (env : SetupEnv) (st : Setup) :
  let fd := syslog_fd (setup_server st) in
  let st' := snd (server_open_syslog_socket env st) in
  0 <= fd ->
  setup_server st' = setup_server st
  /\ (exists rest,
        calls_of (setup_events st st')
        = CallFdNonblock fd true
          :: CallSetsockopt fd SOL_SOCKET SO_PASSCRED 1 :: rest)
  /\ forallb (fun c => negb (makes_socket c))
       (calls_of (setup_events st st')) = true.
Proof.
  cbv zeta. intros Hfd.
  assert (Hge : (syslog_fd (setup_server st) <? 0) = false)
    by (apply Z.ltb_ge; lia).
  run_setup. rewrite Hge.
  destruct (answer env (CallFdNonblock _ _)); cbn;
    destruct (answer env (CallSetsockopt _ _ SO_PASSCRED _)) as [kc|ec]; cbn;
    try (replace (Z.of_N kc <? 0) with false
           by (symmetry; apply Z.ltb_ge; lia); cbn);
    try (split; [reflexivity|]; setup_events_now; split; [eauto|reflexivity]);
    destruct (HAVE_SELINUX env && mac_selinux_use env); cbn;
    try (destruct (answer env (CallSetsockopt _ _ SO_PASSSEC _))
           as [ks|es]; cbn;
         [replace (Z.of_N ks <? 0) with false
            by (symmetry; apply Z.ltb_ge; lia); cbn|]);
    destruct (answer env (CallSetsockopt _ _ SO_TIMESTAMP _))
      as [kt|et]; cbn;
    try (replace (Z.of_N kt <? 0) with false
           by (symmetry; apply Z.ltb_ge; lia); cbn);
    try destruct (sd_event_add_io env _ _ <? 0); cbn;
    (split; [reflexivity|]; setup_events_now; split; [eauto|reflexivity]).
Qed.


(** *** How the set-up goes, step by step *)

Lemma passsec_events_preparing (env : SetupEnv) (fd : Z) :
  Forall preparing (passsec_events env fd).
Proof.
  unfold passsec_events.
  destruct (HAVE_SELINUX env && mac_selinux_use env);
    [destruct (answer env _)|]; repeat constructor.
Qed.

Lemma passsec_events_calls (env : SetupEnv) (fd : Z) (c : setup_call) :
  In c (calls_of (passsec_events env fd)) ->
  c = CallSetsockopt fd SOL_SOCKET SO_PASSSEC 1.
Proof.
  unfold passsec_events.
  destruct (HAVE_SELINUX env && mac_selinux_use env);
    [destruct (answer env _)|]; cbn; intuition congruence.
Qed.

Lemma of_N_not_negative (n : N) : (Z.of_N n <? 0) = false.
Proof. apply Z.ltb_ge. lia. Qed.

(** The socket options, when [SO_PASSCRED] is refused. *)
Lemma options_passcred_refused (env : SetupEnv) (st : Setup) (e : Z) :
  let fd := syslog_fd (setup_server st) in
  answer env (CallSetsockopt fd SOL_SOCKET SO_PASSCRED 1) = Fail e ->
  let st' := snd (open_syslog_socket_options env st) in
  fst (open_syslog_socket_options env st) = log_errno_value env e
  /\ setup_server st' = setup_server st
  /\ setup_trace st'
     = (setup_trace st
        ++ [Called (CallSetsockopt fd SOL_SOCKET SO_PASSCRED 1)]
        ++ [Logged LOG_LEVEL_ERROR e "SO_PASSCRED failed: %m"])%list.
Proof.
  cbv zeta. intros H. unfold open_syslog_socket_options, syscall, fail_with.
  rewrite H. cbn. now rewrite <- app_assoc.
Qed.

(** The socket options, once [SO_PASSCRED] is accepted, up to the answer
    to [SO_TIMESTAMP]. *)
Lemma options_timestamp_refused (env : SetupEnv) (st : Setup) (k : N)
  (e : Z) :
  let fd := syslog_fd (setup_server st) in
  answer env (CallSetsockopt fd SOL_SOCKET SO_PASSCRED 1) = Ok k ->
  answer env (CallSetsockopt fd SOL_SOCKET SO_TIMESTAMP 1) = Fail e ->
  let st' := snd (open_syslog_socket_options env st) in
  fst (open_syslog_socket_options env st) = log_errno_value env e
  /\ setup_server st' = setup_server st
  /\ setup_trace st'
     = (setup_trace st
        ++ (Called (CallSetsockopt fd SOL_SOCKET SO_PASSCRED 1)
            :: passsec_events env fd
            ++ [Called (CallSetsockopt fd SOL_SOCKET SO_TIMESTAMP 1)])
        ++ [Logged LOG_LEVEL_ERROR e "SO_TIMESTAMP failed: %m"])%list.
Proof.
  cbv zeta. intros Hc Ht.
  unfold open_syslog_socket_options, syscall, fail_with, passsec_events.
  cbn [setup_server setup_errno setup_trace].
  rewrite Hc. cbn. rewrite of_N_not_negative.
  destruct (HAVE_SELINUX env && mac_selinux_use env); cbn;
    [destruct (answer env (CallSetsockopt _ _ SO_PASSSEC _)); cbn;
     rewrite ?of_N_not_negative; cbn|];
    rewrite Ht; cbn; rewrite <- ?app_assoc; cbn; auto.
Qed.

(** The socket options, once both are accepted. *)
Lemma options_accepted (env : SetupEnv) (st : Setup) (kc kt : N) :
  let fd := syslog_fd (setup_server st) in
  let registered := sd_event_add_io env fd EPOLLIN in
  answer env (CallSetsockopt fd SOL_SOCKET SO_PASSCRED 1) = Ok kc ->
  answer env (CallSetsockopt fd SOL_SOCKET SO_TIMESTAMP 1) = Ok kt ->
  let st' := snd (open_syslog_socket_options env st) in
  setup_server st' = setup_server st
  /\ (registered < 0 ->
      fst (open_syslog_socket_options env st)
      = log_errno_value env registered
      /\ setup_trace st'
         = (setup_trace st
            ++ (Called (CallSetsockopt fd SOL_SOCKET SO_PASSCRED 1)
                :: passsec_events env fd
                ++ [Called (CallSetsockopt fd SOL_SOCKET SO_TIMESTAMP 1)])
            ++ [Called (CallEventAddIo fd EPOLLIN);
                Logged LOG_LEVEL_ERROR registered
                  "Failed to add syslog server fd to event loop: %m"])%list)
  /\ (0 <= registered ->
      fst (open_syslog_socket_options env st) = 0
      /\ setup_trace st'
         = (setup_trace st
            ++ (Called (CallSetsockopt fd SOL_SOCKET SO_PASSCRED 1)
                :: passsec_events env fd
                ++ [Called (CallSetsockopt fd SOL_SOCKET SO_TIMESTAMP 1)])
            ++ [Called (CallEventAddIo fd EPOLLIN)])%list).
Proof.
  cbv zeta. intros Hc Ht.
  unfold open_syslog_socket_options, syscall, fail_with, passsec_events.
  cbn [setup_server setup_errno setup_trace].
  rewrite Hc. cbn. rewrite of_N_not_negative.
  destruct (HAVE_SELINUX env && mac_selinux_use env); cbn;
    [destruct (answer env (CallSetsockopt _ _ SO_PASSSEC _)); cbn;
     rewrite ?of_N_not_negative; cbn|];
    rewrite Ht; cbn; rewrite of_N_not_negative;
    destruct (Z.ltb_spec (sd_event_add_io env (syslog_fd (setup_server st))
                            EPOLLIN) 0);
    cbn; rewrite <- ?app_assoc; cbn;
    (split; [reflexivity|]); (split; intros; [|]);
    try lia; auto.
Qed.

Lemma preparing_not_registered (l : list setup_event) (fd ev : Z) :
  Forall preparing l -> ~ In (CallEventAddIo fd ev) (calls_of l).
Proof.
  induction 1 as [|e l He _ IH]; cbn; [tauto|].
  intros H. apply in_app_or in H. destruct H as [H|H]; [|tauto].
  destruct e as [c|]; cbn in H; [|tauto].
  destruct H as [H|[]]. subst c. exact He.
Qed.

Lemma calls_of_app (l l' : list setup_event) :
  calls_of (l ++ l') = (calls_of l ++ calls_of l')%list.
Proof. apply flat_map_app. Qed.

(** The socket options, after the events [prefix] of the function's first
    part: how the run ends. *)
Lemma options_after (env : SetupEnv) (st st1 : Setup)
  (prefix : list setup_event) :
  setup_trace st1 = (setup_trace st ++ prefix)%list ->
  Forall preparing prefix ->
  let p := open_syslog_socket_options env st1 in
  let fd := syslog_fd (setup_server st1) in
  let registered := sd_event_add_io env fd EPOLLIN in
  setup_server (snd p) = setup_server st1
  /\ exists before,
       Forall preparing before
       /\ ((exists e format,
              setup_events st (snd p)
              = (before ++ [Logged LOG_LEVEL_ERROR e format])%list
              /\ fst p = log_errno_value env e)
           \/ ((setup_events st (snd p)
                = (before
                   ++ [Called (CallEventAddIo fd EPOLLIN);
                       Logged LOG_LEVEL_ERROR registered
                         "Failed to add syslog server fd to event loop: %m"])%list
                /\ fst p = log_errno_value env registered
                /\ registered < 0
                \/ setup_events st (snd p)
                   = (before ++ [Called (CallEventAddIo fd EPOLLIN)])%list
                   /\ fst p = 0
                   /\ 0 <= registered)
               /\ (exists k,
                      answer env (CallSetsockopt fd SOL_SOCKET SO_PASSCRED 1)
                      = Ok k)
               /\ (exists k,
                      answer env (CallSetsockopt fd SOL_SOCKET SO_TIMESTAMP 1)
                      = Ok k))).
Proof.
  intros Htr Hpre. cbv zeta.
  destruct (answer env (CallSetsockopt (syslog_fd (setup_server st1))
                          SOL_SOCKET SO_PASSCRED 1)) as [kc|ec] eqn:Hc.
  2:{ pose proof (options_passcred_refused env st1 ec Hc) as H.
      cbv zeta in H. destruct H as (Hr & Hs & Ht).
      split; [exact Hs|].
      exists (prefix
              ++ [Called (CallSetsockopt (syslog_fd (setup_server st1))
                            SOL_SOCKET SO_PASSCRED 1)])%list.
      split; [apply Forall_app; split; [assumption | repeat constructor]|].
      left. exists ec, "SO_PASSCRED failed: %m". split; [|exact Hr].
      apply setup_events_app. rewrite Ht, Htr. now rewrite <- !app_assoc. }
  assert (Hmid : Forall preparing
            (prefix
             ++ Called (CallSetsockopt (syslog_fd (setup_server st1))
                          SOL_SOCKET SO_PASSCRED 1)
                :: passsec_events env (syslog_fd (setup_server st1))
                ++ [Called (CallSetsockopt (syslog_fd (setup_server st1))
                              SOL_SOCKET SO_TIMESTAMP 1)])%list).
  { apply Forall_app; split; [assumption|]. constructor; [exact I|].
    apply Forall_app; split;
      [apply passsec_events_preparing | repeat constructor]. }
  destruct (answer env (CallSetsockopt (syslog_fd (setup_server st1))
                          SOL_SOCKET SO_TIMESTAMP 1)) as [kt|et] eqn:Ht0.
  2:{ pose proof (options_timestamp_refused env st1 kc et Hc Ht0) as H.
      cbv zeta in H. destruct H as (Hr & Hs & Ht).
      split; [exact Hs|]. eexists. split; [exact Hmid|].
      left. exists et, "SO_TIMESTAMP failed: %m". split; [|exact Hr].
      apply setup_events_app. rewrite Ht, Htr. now rewrite <- !app_assoc. }
  pose proof (options_accepted env st1 kc kt Hc Ht0) as H.
  cbv zeta in H. destruct H as (Hs & Hneg & Hpos).
  split; [exact Hs|]. eexists. split; [exact Hmid|].
  right. split; [|eauto].
  destruct (Z.lt_ge_cases
              (sd_event_add_io env (syslog_fd (setup_server st1)) EPOLLIN) 0)
    as [Hlt|Hge].
  - left. destruct (Hneg Hlt) as (Hr & Ht). split; [|auto].
    apply setup_events_app. rewrite Ht, Htr. now rewrite <- !app_assoc.
  - right. destruct (Hpos Hge) as (Hr & Ht). split; [|auto].
    apply setup_events_app. rewrite Ht, Htr. now rewrite <- !app_assoc.
Qed.

(** The first part of the function, for a server that holds a
    descriptor. *)
Lemma inherited_run (env : SetupEnv) (st : Setup) :
  let fd := syslog_fd (setup_server st) in
  0 <= fd ->
  exists st1,
    server_open_syslog_socket env st = open_syslog_socket_options env st1
    /\ setup_server st1 = setup_server st
    /\ setup_trace st1
       = (setup_trace st ++ [Called (CallFdNonblock fd true)])%list.
Proof.
  cbv zeta. intros Hfd. unfold server_open_syslog_socket, syscall.
  replace (syslog_fd (setup_server st) <? 0) with false
    by (symmetry; apply Z.ltb_ge; lia).
  destruct (answer env (CallFdNonblock _ _)); eexists;
    (split; [reflexivity|]); cbn; auto.
Qed.

(** The first part of the function, for a server that holds none. *)
Lemma fresh_run (env : SetupEnv) (st : Setup) (n k : N) :
  let new_socket :=
    CallSocket AF_UNIX (Z.lor SOCK_DGRAM (Z.lor SOCK_CLOEXEC SOCK_NONBLOCK)) 0 in
  syslog_fd (setup_server st) < 0 ->
  answer env new_socket = Ok n ->
  answer env (CallBind (Z.of_N n) dev_log_path) = Ok k ->
  exists st1,
    server_open_syslog_socket env st = open_syslog_socket_options env st1
    /\ setup_server st1 = with_syslog_fd (Z.of_N n) (setup_server st)
    /\ setup_trace st1
       = (setup_trace st
          ++ [Called new_socket; Called (CallUnlink dev_log_path);
              Called (CallBind (Z.of_N n) dev_log_path);
              Called (CallChmod dev_log_path 438)])%list.
Proof.
  cbv zeta. intros Hfd Hs Hb. apply Z.ltb_lt in Hfd.
  unfold server_open_syslog_socket, syscall, fail_with.
  cbn [setup_server setup_errno setup_trace].
  rewrite Hfd, Hs. cbn. rewrite of_N_not_negative.
  destruct (answer env (CallUnlink dev_log_path)); cbn; rewrite Hb; cbn;
    rewrite of_N_not_negative;
    destruct (answer env (CallChmod dev_log_path 438)); eexists;
    (split; [reflexivity|]); cbn; rewrite <- ?app_assoc; auto.
Qed.

Lemma socket_refused (env : SetupEnv) (st : Setup) (e : Z) :
  let new_socket :=
    CallSocket AF_UNIX (Z.lor SOCK_DGRAM (Z.lor SOCK_CLOEXEC SOCK_NONBLOCK)) 0 in
  syslog_fd (setup_server st) < 0 ->
  answer env new_socket = Fail e ->
  let p := server_open_syslog_socket env st in
  fst p = log_errno_value env e
  /\ setup_server (snd p) = with_syslog_fd (-1) (setup_server st)
  /\ setup_trace (snd p)
     = (setup_trace st
        ++ [Called new_socket]
        ++ [Logged LOG_LEVEL_ERROR e "socket() failed: %m"])%list.
Proof.
  cbv zeta. intros Hfd Hs. apply Z.ltb_lt in Hfd.
  unfold server_open_syslog_socket, syscall, fail_with.
  cbn [setup_server setup_errno setup_trace].
  rewrite Hfd, Hs. cbn. rewrite <- app_assoc. auto.
Qed.

Lemma bind_refused (env : SetupEnv) (st : Setup) (n : N) (e : Z) :
  let new_socket :=
    CallSocket AF_UNIX (Z.lor SOCK_DGRAM (Z.lor SOCK_CLOEXEC SOCK_NONBLOCK)) 0 in
  syslog_fd (setup_server st) < 0 ->
  answer env new_socket = Ok n ->
  answer env (CallBind (Z.of_N n) dev_log_path) = Fail e ->
  let p := server_open_syslog_socket env st in
  fst p = log_errno_value env e
  /\ setup_server (snd p) = with_syslog_fd (Z.of_N n) (setup_server st)
  /\ setup_trace (snd p)
     = (setup_trace st
        ++ [Called new_socket; Called (CallUnlink dev_log_path);
            Called (CallBind (Z.of_N n) dev_log_path)]
        ++ [Logged LOG_LEVEL_ERROR e "bind(%s) failed: %m"])%list.
Proof.
  cbv zeta. intros Hfd Hs Hb. apply Z.ltb_lt in Hfd.
  unfold server_open_syslog_socket, syscall, fail_with.
  cbn [setup_server setup_errno setup_trace].
  rewrite Hfd, Hs. cbn. rewrite of_N_not_negative.
  destruct (answer env (CallUnlink dev_log_path)); cbn; rewrite Hb; cbn;
    rewrite <- ?app_assoc; auto.
Qed.

(** The socket options only add to the trace. *)
Lemma options_extends (env : SetupEnv) (st1 : Setup) :
  exists evs,
    setup_trace (snd (open_syslog_socket_options env st1))
    = (setup_trace st1 ++ evs)%list.
Proof.
  destruct (answer env (CallSetsockopt (syslog_fd (setup_server st1))
                          SOL_SOCKET SO_PASSCRED 1)) as [kc|ec] eqn:Hc.
  2:{ pose proof (options_passcred_refused env st1 ec Hc) as H.
      cbv zeta in H. destruct H as (_ & _ & Ht). eauto. }
  destruct (answer env (CallSetsockopt (syslog_fd (setup_server st1))
                          SOL_SOCKET SO_TIMESTAMP 1)) as [kt|et] eqn:Ht0.
  2:{ pose proof (options_timestamp_refused env st1 kc et Hc Ht0) as H.
      cbv zeta in H. destruct H as (_ & _ & Ht). eauto. }
  pose proof (options_accepted env st1 kc kt Hc Ht0) as H.
  cbv zeta in H. destruct H as (_ & Hneg & Hpos).
  destruct (Z.lt_ge_cases
              (sd_event_add_io env (syslog_fd (setup_server st1)) EPOLLIN) 0)
    as [Hlt|Hge].
  - destruct (Hneg Hlt) as (_ & Ht). eauto.
  - destruct (Hpos Hge) as (_ & Ht). eauto.
Qed.

(** Every run of the set-up, in one statement. *)
Lemma setup_run (env : SetupEnv) (st : Setup) :
  let p := server_open_syslog_socket env st in
  let fd := syslog_fd (setup_server (snd p)) in
  let registered := sd_event_add_io env fd EPOLLIN in
  exists before,
    Forall preparing before
    /\ ((exists e format,
           setup_events st (snd p)
           = (before ++ [Logged LOG_LEVEL_ERROR e format])%list
           /\ fst p = log_errno_value env e)
        \/ ((setup_events st (snd p)
             = (before
                ++ [Called (CallEventAddIo fd EPOLLIN);
                    Logged LOG_LEVEL_ERROR registered
                      "Failed to add syslog server fd to event loop: %m"])%list
             /\ fst p = log_errno_value env registered
             /\ registered < 0
             \/ setup_events st (snd p)
                = (before ++ [Called (CallEventAddIo fd EPOLLIN)])%list
                /\ fst p = 0
                /\ 0 <= registered)
            /\ 0 <= fd
            /\ (exists k,
                   answer env (CallSetsockopt fd SOL_SOCKET SO_PASSCRED 1)
                   = Ok k)
            /\ (exists k,
                   answer env (CallSetsockopt fd SOL_SOCKET SO_TIMESTAMP 1)
                   = Ok k)
            /\ (syslog_fd (setup_server st) < 0 ->
                exists k, answer env (CallBind fd dev_log_path) = Ok k))).
Proof.
  cbv zeta.
  destruct (Z.lt_ge_cases (syslog_fd (setup_server st)) 0) as [Hlt|Hge].
  - destruct (answer env
                (CallSocket AF_UNIX
                   (Z.lor SOCK_DGRAM (Z.lor SOCK_CLOEXEC SOCK_NONBLOCK)) 0))
      as [n|e] eqn:Hs.
    + destruct (answer env (CallBind (Z.of_N n) dev_log_path))
        as [k|e] eqn:Hb.
      * destruct (fresh_run env st n k Hlt Hs Hb) as (st1 & Heq & Hsrv & Htr).
        rewrite Heq.
        assert (Hpre : Forall preparing
                  [Called (CallSocket AF_UNIX
                             (Z.lor SOCK_DGRAM
                                (Z.lor SOCK_CLOEXEC SOCK_NONBLOCK)) 0);
                   Called (CallUnlink dev_log_path);
                   Called (CallBind (Z.of_N n) dev_log_path);
                   Called (CallChmod dev_log_path 438)])
          by (repeat constructor).
        pose proof (options_after env st st1 _ Htr Hpre) as H.
        cbv zeta in H. destruct H as (Hs' & before & Hprep & Hend).
        rewrite Hs'. rewrite Hsrv in *.
        cbn [syslog_fd with_syslog_fd] in *.
        exists before. split; [exact Hprep|].
        destruct Hend as [Hend|(Hend & Hc & Ht)]; [left; exact Hend|].
        right. repeat split; try assumption; [lia | eauto].
      * pose proof (bind_refused env st n e Hlt Hs Hb) as H.
        cbv zeta in H. destruct H as (Hr & _ & Ht).
        eexists. split; [|left; exists e, "bind(%s) failed: %m"; split;
                          [apply setup_events_app; exact Ht | exact Hr]].
        repeat constructor.
    + pose proof (socket_refused env st e Hlt Hs) as H.
      cbv zeta in H. destruct H as (Hr & _ & Ht).
      eexists. split; [|left; exists e, "socket() failed: %m"; split;
                        [apply setup_events_app; exact Ht | exact Hr]].
      repeat constructor.
  - destruct (inherited_run env st Hge) as (st1 & Heq & Hsrv & Htr).
    rewrite Heq.
    assert (Hpre : Forall preparing
              [Called (CallFdNonblock (syslog_fd (setup_server st)) true)])
      by (repeat constructor).
    pose proof (options_after env st st1 _ Htr Hpre) as H.
    cbv zeta in H. destruct H as (Hs' & before & Hprep & Hend).
    rewrite Hs'. rewrite Hsrv in *.
    exists before. split; [exact Hprep|].
    destruct Hend as [Hend|(Hend & Hc & Ht)]; [left; exact Hend|].
    right. repeat split; try assumption. intros Hneg. lia.
Qed.

(** X20. Every run of the set-up ends in one of three ways, whatever the
    kernel and the event loop answer: an error is logged as the last
    thing the function does and it returns what [log_error_errno] gives
    for that error; or the descriptor is handed to the event loop, which
    refuses it, and that refusal is logged and returned; or the
    descriptor is handed to the event loop as the last thing and the
    function returns 0. Before that, nothing is logged above a warning
    and the event loop is not called. *)
Theorem open_syslog_socket_ends (env : SetupEnv) (st : Setup) :
  let r := fst (server_open_syslog_socket env st) in
  let st' := snd (server_open_syslog_socket env st) in
  let fd := syslog_fd (setup_server st') in
  let registered := sd_event_add_io env fd EPOLLIN in
  exists before,
    Forall preparing before
    /\ ((exists e format,
           setup_events st st'
           = (before ++ [Logged LOG_LEVEL_ERROR e format])%list
           /\ r = log_errno_value env e)
        \/ (setup_events st st'
            = (before
               ++ [Called (CallEventAddIo fd EPOLLIN);
                   Logged LOG_LEVEL_ERROR registered
                     "Failed to add syslog server fd to event loop: %m"])%list
            /\ r = log_errno_value env registered
            /\ registered < 0)
        \/ (setup_events st st'
            = (before ++ [Called (CallEventAddIo fd EPOLLIN)])%list
            /\ r = 0
            /\ 0 <= registered)).
Proof.
  cbv zeta. pose proof (setup_run env st) as H. cbv zeta in H.
  destruct H as (before & Hprep & [Hend|([Hend|Hend] & _)]);
    exists before; (split; [exact Hprep|]); auto.
Qed.

(** X21. The descriptor is handed to the event loop only after the kernel
    accepted [SO_PASSCRED] and [SO_TIMESTAMP] on it (and [bind], for a
    socket the function made): a call of [sd_event_add_io] in the trace
    is for the descriptor the server holds, which is not negative, and
    for [EPOLLIN]. *)
Theorem open_syslog_socket_registers_after_options (env : SetupEnv)
  (st : Setup) (fd ev : Z) :
  let st' := snd (server_open_syslog_socket env st) in
  In (CallEventAddIo fd ev) (calls_of (setup_events st st')) ->
  fd = syslog_fd (setup_server st')
  /\ ev = EPOLLIN
  /\ 0 <= fd
  /\ (exists k, answer env (CallSetsockopt fd SOL_SOCKET SO_PASSCRED 1) = Ok k)
  /\ (exists k, answer env (CallSetsockopt fd SOL_SOCKET SO_TIMESTAMP 1) = Ok k)
  /\ (syslog_fd (setup_server st) < 0 ->
      exists k, answer env (CallBind fd dev_log_path) = Ok k).
Proof.
  cbv zeta. intros Hin. pose proof (setup_run env st) as H. cbv zeta in H.
  destruct H as (before & Hprep & Hend).
  pose proof (preparing_not_registered before fd ev Hprep) as Hnot.
  destruct Hend as [(e & format & Hev & _)|(Hend & Hfd & Hc & Ht & Hb)].
  - exfalso. rewrite Hev, calls_of_app in Hin.
    apply in_app_or in Hin. destruct Hin as [Hin|Hin]; [tauto|].
    cbn in Hin. exact Hin.
  - assert (Heq : CallEventAddIo
                    (syslog_fd
                       (setup_server (snd (server_open_syslog_socket env st))))
                    EPOLLIN
                  = CallEventAddIo fd ev).
    { destruct Hend as [(Hev & _)|(Hev & _)];
        rewrite Hev, calls_of_app in Hin;
        apply in_app_or in Hin; destruct Hin as [Hin|Hin]; try tauto;
        cbn in Hin; destruct Hin as [Hin|[]]; exact Hin. }
    injection Heq as <- <-. auto 10.
Qed.

(** X22. When [socket()] fails the function stops there: it returns what
    [log_error_errno] gives for the [errno] of the call, has logged that
    one error, has called nothing but [socket], and has stored the -1 in
    the server. *)
Theorem open_syslog_socket_no_socket (env : SetupEnv) (st : Setup) (e : Z) :
  let new_socket :=
    CallSocket AF_UNIX (Z.lor SOCK_DGRAM (Z.lor SOCK_CLOEXEC SOCK_NONBLOCK)) 0 in
  let r := fst (server_open_syslog_socket env st) in
  let st' := snd (server_open_syslog_socket env st) in
  syslog_fd (setup_server st) < 0 ->
  answer env new_socket = Fail e ->
  r = log_errno_value env e
  /\ syslog_fd (setup_server st') = -1
  /\ setup_errno st' = e
  /\ setup_events st st'
     = [Called new_socket; Logged LOG_LEVEL_ERROR e "socket() failed: %m"].
Proof.
  cbv zeta. intros Hlt Hs.
  pose proof (socket_refused env st e Hlt Hs) as H. cbv zeta in H.
  destruct H as (Hr & Hsrv & Ht).
  split; [exact Hr|]. split; [now rewrite Hsrv|].
  split; [|apply setup_events_app; exact Ht].
  apply Z.ltb_lt in Hlt.
  unfold server_open_syslog_socket, syscall, fail_with.
  cbn [setup_server setup_errno setup_trace].
  rewrite Hlt, Hs. reflexivity.
Qed.

(** X23. When [bind()] fails the function returns the error after
    [socket], [unlink] and [bind], without [chmod] and without any socket
    option, and the descriptor it made stays in the server: a second
    call, whatever the kernel then answers, does not make a socket again
    but begins with [fd_nonblock] on that descriptor. *)
Theorem open_syslog_socket_bind_fails (env env2 : SetupEnv) (st : Setup)
  (n : N) (e : Z) :
  let new_socket :=
    CallSocket AF_UNIX (Z.lor SOCK_DGRAM (Z.lor SOCK_CLOEXEC SOCK_NONBLOCK)) 0 in
  let fd := Z.of_N n in
  let r := fst (server_open_syslog_socket env st) in
  let st' := snd (server_open_syslog_socket env st) in
  let st'' := snd (server_open_syslog_socket env2 st') in
  syslog_fd (setup_server st) < 0 ->
  answer env new_socket = Ok n ->
  answer env (CallBind fd dev_log_path) = Fail e ->
  r = log_errno_value env e
  /\ setup_server st' = with_syslog_fd fd (setup_server st)
  /\ setup_events st st'
     = [Called new_socket; Called (CallUnlink dev_log_path);
        Called (CallBind fd dev_log_path);
        Logged LOG_LEVEL_ERROR e "bind(%s) failed: %m"]
  /\ syslog_fd (setup_server st'') = fd
  /\ exists rest,
       setup_events st' st'' = Called (CallFdNonblock fd true) :: rest.
Proof.
  cbv zeta. intros Hlt Hs Hb.
  pose proof (bind_refused env st n e Hlt Hs Hb) as H. cbv zeta in H.
  destruct H as (Hr & Hsrv & Ht).
  split; [exact Hr|]. split; [exact Hsrv|].
  split; [apply setup_events_app; exact Ht|].
  set (st' := snd (server_open_syslog_socket env st)) in *.
  assert (Hfd : 0 <= syslog_fd (setup_server st'))
    by (rewrite Hsrv; cbn; lia).
  destruct (inherited_run env2 st' Hfd) as (st1 & Heq & Hsrv1 & Htr1).
  rewrite Heq.
  pose proof (options_after env2 st1 st1 [] (eq_sym (app_nil_r _))
                (Forall_nil _)) as H.
  cbv zeta in H. destruct H as (Hsrv2 & _).
  destruct (options_extends env2 st1) as (evs & Hevs).
  split; [rewrite Hsrv2, Hsrv1, Hsrv; reflexivity|].
  exists evs. apply setup_events_app.
  rewrite Hevs, Htr1, <- app_assoc, Hsrv. reflexivity.
Qed.

(** ** The further properties at work on the sample worlds *)

Lemma fixup_facility_sets_user_witness :
  syslog_fixup_facility 6 = LOG_PRI 6 + 8
  /\ LOG_FAC (syslog_fixup_facility 6) = 1.
Proof.
  apply (proj1 (proj2 (proj2 (proj2 (fixup_facility_sets_user 6))))).
  reflexivity.
Defined.

Lemma fill_iovec_priority_in_range_witness :
  let '(_, sm', iovec', _) :=
    syslog_fill_iovec Sample.no_rendering 32 16
      (with_priority 323 Sample.blank) [] 10 in
  0 <= priority sm' <= 191
  /\ nth_error iovec' 0 = Some ("<" ++ fmt_int (priority sm') ++ ">1 ").
Proof.
  apply (fill_iovec_priority_in_range Sample.no_rendering 32 16
           (with_priority 323 Sample.blank) [] 10); cbn; lia.
Defined.

Lemma fill_iovec_strips_hostname_key_witness :
  nth_error
    (snd (fst (syslog_fill_iovec Sample.no_rendering 32 16
                 (with_hostname "_HOSTNAME=host" Sample.blank) [] 10))) 2
  = Some "host".
Proof.
  assert (H : 10 <= 10) by lia.
  pose proof (fill_iovec_strips_hostname_key Sample.no_rendering 32 16
                (with_hostname "_HOSTNAME=host" Sample.blank) [] 10 "host" H)
    as T.
  destruct (syslog_fill_iovec Sample.no_rendering 32 16
              (with_hostname "_HOSTNAME=host" Sample.blank) [] 10)
    as [[[r sm'] iovec'] n'].
  apply (proj1 T). reflexivity.
Defined.

Lemma no_warning_inside_window_witness :
  let w := Sample.world Sample.journald_behind 2000000 in
  let busy := Sample.answers [Fail EAGAIN; Fail EAGAIN] in
  let msgs := [(Sample.line, None); (Sample.line, Some Sample.sender)] in
  let w' := exec (run_all (map (send_and_check busy 1) msgs)) w in
  count_events is_driver_message (new_events w w') = O
  /\ last_warn_forward_syslog_missed (server w') = 1000000.
Proof.
  cbv zeta.
  apply (no_warning_inside_window
           (Sample.answers [Fail EAGAIN; Fail EAGAIN]) 1
           [(Sample.line, None); (Sample.line, Some Sample.sender)]
           (Sample.world Sample.journald_behind 2000000)); cbn; lia.
Defined.

Lemma forward_remote_opens_once_witness :
  let s := SampleTarget.journald_remote in
  let w := Sample.world s 0 in
  let w' :=
    exec (run_all
            (map (forward_remote_syslog_iovec (Sample.answers [])
                    (Sample.answers [Ok 5%N]))
               [Sample.line; Sample.line])) w in
  server w' = with_remote_syslog_fd 5 s
  /\ new_events w w'
     = [ remote_target_warning; remote_socket;
         remote_send s 5 Sample.line; remote_send s 5 Sample.line ]
  /\ socket_calls w' = 1%nat.
Proof.
  cbv zeta.
  apply (forward_remote_opens_once (Sample.answers [])
           (Sample.answers [Ok 5%N]) Sample.line [Sample.line] 5%N
           (Sample.world SampleTarget.journald_remote 0));
    [cbn; lia | discriminate | reflexivity | reflexivity | cbn; lia].
Defined.

Lemma forward_remote_without_socket_witness :
  let s := SampleTarget.journald_remote in
  let w := Sample.world s 0 in
  let w' :=
    exec (forward_remote_syslog_iovec (Sample.answers [])
            (Sample.answers [Fail 24]) Sample.line) w in
  server w' = s
  /\ new_events w w'
     = [remote_target_warning; remote_socket; remote_socket_failed]
  /\ errno w' = 24.
Proof.
  cbv zeta.
  assert (Hfd : remote_syslog_fd
                  (server (Sample.world SampleTarget.journald_remote 0)) <= 0)
    by (cbn; lia).
  apply (proj1 (forward_remote_without_socket (Sample.answers [])
                  (Sample.answers [Fail 24]) Sample.line
                  (Sample.world SampleTarget.journald_remote 0)
                  Hfd ltac:(discriminate) eq_refl) 24).
  reflexivity.
Defined.

Lemma server_forward_syslog_datagram_witness :
  let s := SampleTarget.journald_connected in
  let w := Sample.world s 0 in
  let w' :=
    exec (forward_with Sample.any_time 14 (Some "app") "hello"
            (Some Sample.sender) None) w in
  let fragments :=
    [ "<14>1 "; "- "; "host"; " "; "app"; " "; "[4711]: "; "-"; " - ";
      "hello" ] in
  (exists rest,
     new_events w w' = relay_send s fragments (Some Sample.sender) :: rest)
  /\ (exists before,
        new_events w w' = (before ++ [remote_send s 5 fragments])%list)
  /\ Forall (carries fragments) (new_events w w').
Proof.
  cbv zeta.
  assert (Hlevel : Z.land 14 7 <= 7) by (cbn; lia).
  assert (Hfd : 5 > 0) by lia.
  pose proof (server_forward_syslog_datagram (Sample.answers [])
                (Sample.answers []) 1 Sample.any_time Sample.no_rendering
                Sample.no_comm 32 16 Sample.blank [] 14 (Some "app") "hello"
                (Some Sample.sender) None
                (Sample.world SampleTarget.journald_connected 0)
                Sample.epoch Hlevel eq_refl) as (T1 & T2 & T3).
  split; [exact (T1 eq_refl)|]. split; [exact (T2 eq_refl Hfd) | exact T3].
Defined.

Lemma forwarding_switched_off_witness :
  let w := Sample.world SampleTarget.journald_off 0 in
  exec (forward_with Sample.any_time 14 (Some "app") "hello" None None) w = w
  /\ exec (process_syslog_forward (Sample.answers []) (Sample.answers []) 1
             Sample.any_time Sample.no_rendering 20 32 16
             Sample.blank Sample.line None None) w
     = w.
Proof.
  cbv zeta.
  apply (forwarding_switched_off (Sample.answers []) (Sample.answers []) 1
           Sample.any_time Sample.no_rendering Sample.no_comm 20 32 16
           Sample.blank [] 14 (Some "app") "hello" Sample.blank Sample.line
           None None (Sample.world SampleTarget.journald_off 0));
    reflexivity.
Defined.

Lemma parse_identifier_stays_inside_witness :
  let buf := cursor_of_string "myapp[123]: hello" in
  let r := mk_parsed 12 (mk_cursor (base buf) 12) (Some "myapp") (Some "123") in
  base (buf_out r) = base buf
  /\ (off buf <= off (buf_out r) <= length (base buf))%nat
  /\ 0 <= consumed r <= Z.of_nat (off (buf_out r) - off buf)
  /\ (consumed r = 0 ->
      buf_out r = buf /\ identifier_out r = None /\ pid_out r = None).
Proof.
  cbv zeta.
  apply (parse_identifier_stays_inside Sample.WHITESPACE true true
           (cursor_of_string "myapp[123]: hello") None None);
    [cbn; lia | cbn; lia | reflexivity].
Defined.

Lemma parse_identifier_reads_inside_witness :
  exists r,
    syslog_parse_identifier Sample.WHITESPACE true true
      (cursor_of_string "nocolon hello") None None
    = Returns r.
Proof.
  apply (parse_identifier_reads_inside Sample.WHITESPACE true true
           (cursor_of_string "nocolon hello")
           [] (text "nocolon") (text " hello") None None).
  - split; [cbn; lia | reflexivity | cbn; lia | reflexivity | reflexivity |].
    split; [reflexivity | discriminate].
  - discriminate.
Defined.

Lemma parse_identifier_colon_at_start_witness :
  syslog_parse_identifier Sample.WHITESPACE true true
    (cursor_of_string ": hello") None None
  = OutOfBounds.
Proof.
  apply (parse_identifier_colon_at_start Sample.WHITESPACE true true
           (cursor_of_string ": hello") (text " hello") None None).
  - split; [cbn; lia | reflexivity | cbn; lia | reflexivity | reflexivity |].
    split; [reflexivity | discriminate].
  - reflexivity.
  - cbn. lia.
Defined.

Lemma parse_identifier_plain_witness :
  let buf := cursor_of_string "kernel: hello" in
  syslog_parse_identifier Sample.WHITESPACE true true buf None None
  = Returns (mk_parsed 8 (mk_cursor (base buf) 8) (Some "kernel") None).
Proof.
  cbv zeta.
  apply (parse_identifier_plain Sample.WHITESPACE true true
           (cursor_of_string "kernel: hello")
           [] (text "kernel") (text " ") (text "hello") None None).
  - split; [cbn; lia | reflexivity | cbn; lia | reflexivity | reflexivity |].
    split; [reflexivity | discriminate].
  - discriminate.
  - cbn. intros [E|[E|[E|[E|[E|[E|[]]]]]]]; discriminate.
  - reflexivity.
  - reflexivity.
Defined.

Lemma skip_date_then_identifier_witness :
  let b := text SampleTarget.dated_line in
  syslog_parse_identifier Sample.WHITESPACE true true
    (syslog_skip_date (mk_cursor b 0)) None None
  = Returns (mk_parsed 0 (mk_cursor b 16) None None).
Proof.
  cbv zeta.
  assert (Hdate : matches_classes sequence (text SampleTarget.dated_line) 0).
  { intros i c Hi.
    do 16 (destruct i as [|i];
           [injection Hi as <-;
            split; [cbn; lia | split; [vm_compute; discriminate | reflexivity]]
           |]).
    destruct i; discriminate. }
  apply (proj2 (skip_date_then_identifier Sample.WHITESPACE true true
                  (text SampleTarget.dated_line) 0
                  [] [] [] [] [] (text "host") (text " su[1234]: x")
                  None None Hdate)).
  - split; [cbn; lia | reflexivity | cbn; lia | reflexivity | reflexivity |].
    split; [reflexivity | discriminate].
  - right. vm_compute. discriminate.
Defined.

Lemma process_syslog_journal_fields_witness :
  exists sm iovec w',
    process_syslog_journal Sample.WHITESPACE Sample.no_pid Sample.no_priority
      20 Sample.no_forwarder Sample.no_forwarder Sample.no_forwarder
      Sample.no_journal Sample.blank [] true true
      (cursor_of_string "su[1234]: hello") None None None
      (Sample.world Sample.journald 0)
    = (Returns (sm, iovec), w')
    /\ exists fields,
         iovec = (fields ++ skipn (length fields) (firstn (Z.to_nat (20 + 6)) []))%list
         /\ (3 <= length fields <= 6)%nat
         /\ nth_error fields 0 = Some "_TRANSPORT=syslog"
         /\ nth_error fields 1
            = Some ("PRIORITY=" ++ fmt_int (Z.land (priority sm) 7))
         /\ 0 <= Z.land (priority sm) 7 <= 7
         /\ last fields EmptyString = "MESSAGE=" ++ message sm
         /\ hostname sm = forwarded_hostname Sample.journald
         /\ msgid sm = "-".
Proof.
  do 3 eexists. split; [vm_compute; reflexivity|].
  eapply (process_syslog_journal_fields Sample.WHITESPACE Sample.no_pid
           Sample.no_priority 20 Sample.no_forwarder Sample.no_forwarder
           Sample.no_forwarder Sample.no_journal Sample.blank [] true true
           (cursor_of_string "su[1234]: hello") None None None
           (Sample.world Sample.journald 0)).
  vm_compute. reflexivity.
Defined.

Lemma forward_syslog_raw_relay_only_witness :
  let s := SampleTarget.journald_off in
  let w := Sample.world s 0 in
  let w' :=
    exec (forward_syslog_raw (Sample.answers []) 1 14 "<14>hello" None None)
      w in
  (exists rest, new_events w w' = relay_send s ["<14>hello"] None :: rest)
  /\ Forall (carries ["<14>hello"]) (new_events w w')
  /\ Forall (to_relay 3) (new_events w w')
  /\ socket_calls w' = O
  /\ remote_syslog_fd (server w') = -1.
Proof.
  cbv zeta.
  apply (forward_syslog_raw_relay_only (Sample.answers []) 1 14 "<14>hello"
           None None (Sample.world SampleTarget.journald_off 0)).
  cbn. lia.
Defined.

Lemma open_syslog_socket_fresh_witness :
  let env := SampleBoot.env SampleBoot.plain true in
  let opt name := CallSetsockopt 7 SOL_SOCKET name 1 in
  let st' := snd (server_open_syslog_socket env SampleBoot.fresh) in
  fst (server_open_syslog_socket env SampleBoot.fresh) = 0
  /\ setup_server st' = with_syslog_fd 7 (setup_server SampleBoot.fresh)
  /\ calls_of (setup_events SampleBoot.fresh st')
     = [ CallSocket AF_UNIX
           (Z.lor SOCK_DGRAM (Z.lor SOCK_CLOEXEC SOCK_NONBLOCK)) 0;
         CallUnlink dev_log_path; CallBind 7 dev_log_path;
         CallChmod dev_log_path 438; opt SO_PASSCRED; opt SO_PASSSEC;
         opt SO_TIMESTAMP; CallEventAddIo 7 EPOLLIN ]
  /\ Forall (fun e => match e with
                      | Logged level _ _ => level = LOG_LEVEL_WARNING
                      | Called _ => True
                      end) (setup_events SampleBoot.fresh st').
Proof.
  cbv zeta.
  apply (open_syslog_socket_fresh (SampleBoot.env SampleBoot.plain true)
           SampleBoot.fresh 7%N);
    [cbn; lia | reflexivity | exists 0%N; reflexivity
     | exists 0%N; reflexivity | exists 0%N; reflexivity | cbn; lia].
Defined.

Lemma open_syslog_socket_inherited_witness :
  let env := SampleBoot.env SampleBoot.willing false in
  let st' := snd (server_open_syslog_socket env SampleBoot.inherited) in
  setup_server st' = setup_server SampleBoot.inherited
  /\ (exists rest,
        calls_of (setup_events SampleBoot.inherited st')
        = CallFdNonblock 3 true
          :: CallSetsockopt 3 SOL_SOCKET SO_PASSCRED 1 :: rest)
  /\ forallb (fun c => negb (makes_socket c))
       (calls_of (setup_events SampleBoot.inherited st')) = true.
Proof.
  cbv zeta.
  apply (open_syslog_socket_inherited
           (SampleBoot.env SampleBoot.willing false) SampleBoot.inherited).
  cbn. lia.
Defined.

Lemma open_syslog_socket_registers_after_options_witness :
  let env := SampleBoot.env SampleBoot.plain true in
  let st' := snd (server_open_syslog_socket env SampleBoot.fresh) in
  7 = syslog_fd (setup_server st')
  /\ 1 = EPOLLIN
  /\ 0 <= 7
  /\ (exists k, answer env (CallSetsockopt 7 SOL_SOCKET SO_PASSCRED 1) = Ok k)
  /\ (exists k, answer env (CallSetsockopt 7 SOL_SOCKET SO_TIMESTAMP 1) = Ok k)
  /\ (syslog_fd (setup_server SampleBoot.fresh) < 0 ->
      exists k, answer env (CallBind 7 dev_log_path) = Ok k).
Proof.
  cbv zeta.
  apply (open_syslog_socket_registers_after_options
           (SampleBoot.env SampleBoot.plain true) SampleBoot.fresh 7 1).
  vm_compute. do 7 right. left. reflexivity.
Defined.

Lemma open_syslog_socket_no_socket_witness :
  let env := SampleBoot.env SampleBoot.no_socket false in
  let st' := snd (server_open_syslog_socket env SampleBoot.fresh) in
  fst (server_open_syslog_socket env SampleBoot.fresh) = -24
  /\ syslog_fd (setup_server st') = -1
  /\ setup_errno st' = 24
  /\ setup_events SampleBoot.fresh st'
     = [ Called (CallSocket AF_UNIX
                   (Z.lor SOCK_DGRAM (Z.lor SOCK_CLOEXEC SOCK_NONBLOCK)) 0);
         Logged LOG_LEVEL_ERROR 24 "socket() failed: %m" ].
Proof.
  cbv zeta.
  apply (open_syslog_socket_no_socket
           (SampleBoot.env SampleBoot.no_socket false) SampleBoot.fresh 24);
    [cbn; lia | reflexivity].
Defined.

Lemma open_syslog_socket_bind_fails_witness :
  let env := SampleBoot.env SampleBoot.no_bind false in
  let env2 := SampleBoot.env SampleBoot.willing false in
  let st' := snd (server_open_syslog_socket env SampleBoot.fresh) in
  let st'' := snd (server_open_syslog_socket env2 st') in
  fst (server_open_syslog_socket env SampleBoot.fresh) = -98
  /\ setup_server st' = with_syslog_fd 7 (setup_server SampleBoot.fresh)
  /\ setup_events SampleBoot.fresh st'
     = [ Called (CallSocket AF_UNIX
                   (Z.lor SOCK_DGRAM (Z.lor SOCK_CLOEXEC SOCK_NONBLOCK)) 0);
         Called (CallUnlink dev_log_path);
         Called (CallBind 7 dev_log_path);
         Logged LOG_LEVEL_ERROR 98 "bind(%s) failed: %m" ]
  /\ syslog_fd (setup_server st'') = 7
  /\ exists rest,
       setup_events st' st'' = Called (CallFdNonblock 7 true) :: rest.
Proof.
  cbv zeta.
  apply (open_syslog_socket_bind_fails
           (SampleBoot.env SampleBoot.no_bind false)
           (SampleBoot.env SampleBoot.willing false) SampleBoot.fresh 7%N 98);
    [cbn; lia | reflexivity | reflexivity].
Defined.

Lemma process_syslog_forward_datagram_witness :
  let s := SampleTarget.journald_connected in
  let w := Sample.world s 0 in
  let sm := with_message "hello" (syslog_init_message Sample.blank) in
  let w' :=
    exec (process_syslog_forward (Sample.answers []) (Sample.answers []) 1
            Sample.any_time Sample.no_rendering 20 32 16
            sm ["_TRANSPORT=syslog"; "PRIORITY=6"; "MESSAGE=hello"]
            (Some Sample.sender) None) w in
  let fragments :=
    [ "<14>1 "; "- "; "-"; " "; "-"; " "; "- "; "-"; " - "; "hello" ] in
  (exists rest,
     new_events w w' = relay_send s fragments (Some Sample.sender) :: rest)
  /\ (exists before,
        new_events w w' = (before ++ [remote_send s 5 fragments])%list)
  /\ Forall (carries fragments) (new_events w w').
Proof.
  cbv zeta.
  assert (Hroom : 10 <= 20 + 6) by lia.
  assert (Hfd : 5 > 0) by lia.
  pose proof (proj2 (process_syslog_forward_datagram (Sample.answers [])
                       (Sample.answers []) 1 Sample.any_time
                       Sample.no_rendering 20 32 16
                       (with_message "hello"
                          (syslog_init_message Sample.blank))
                       ["_TRANSPORT=syslog"; "PRIORITY=6"; "MESSAGE=hello"]
                       (Some Sample.sender) None
                       (Sample.world SampleTarget.journald_connected 0)
                       Sample.epoch eq_refl) Hroom) as (T1 & T2 & T3).
  split; [exact (T1 eq_refl)|]. split; [exact (T2 eq_refl Hfd) | exact T3].
Defined.
